(** * mudURLShort: a shallow embedding of [main.go]

    The service has two handlers registered on the default mux, one table
    ([urls]) in an SQLite file, and a retry loop that looks for a short code
    that is not stored yet.  The Go program is embedded as state-passing
    functions over a [World] that holds everything the handlers touch outside
    their arguments: the wall clock, the process-wide [math/rand] source, the
    database, the log stream and the template file.

    Library calls ([database/sql], [context], [net/http], [html/template],
    [math/rand]) are modelled by what [main.go] relies on; each such
    definition says so in its comment.  Three choices shape the statements:

    - time is a logical clock, advanced by the latency of each storage call;
      a call issued after, or overtaken by, the deadline of its context
      returns [DeadlineExceeded] and leaves the database as it was;
    - the conditions the coming storage calls meet (latency, driver fault)
      are a script carried by the world, so that a slow or failing database
      is an input like any other;
    - every statement sent to the database is recorded with its result, so
      that the statements can speak of the checks and INSERTs of a request.

    Handlers run one at a time in [shortenHandler] and [shorten_all]; the
    section on requests in flight splits [shortenHandler] at its storage
    calls and interleaves several requests. *)

From Stdlib Require Import ZArith List String Ascii Bool Lia Permutation Sorted.
Import ListNotations.

Open Scope string_scope.
Open Scope list_scope.
Open Scope Z_scope.

(* ================================================================= *)
(** ** Data *)

(** [type Config struct] *)
Record Config := {
  DBPath : string;
  ServerPort : string;
  ShortURLBase : string
}.

(** Errors a storage call can return to [main.go]. *)
Inductive Error :=
| DeadlineExceeded   (* ctx.Err() once the context's deadline has passed *)
| DriverFault        (* any other driver error, e.g. SQLITE_BUSY *)
| UniqueViolation    (* UNIQUE constraint failed: urls.short_code *)
| NoSuchTable.       (* the urls table has not been created *)

Definition Error_string (e : Error) : string :=
  match e with
  | DeadlineExceeded => "context deadline exceeded"
  | DriverFault => "database is locked"
  | UniqueViolation => "UNIQUE constraint failed: urls.short_code"
  | NoSuchTable => "no such table: urls"
  end.

(** Go's [(value, err)] pairs. *)
Inductive Result (A : Type) :=
| Ok (a : A)
| Err (e : Error).
Arguments Ok {A} a.
Arguments Err {A} e.

(** One row of
    [urls (id INTEGER PRIMARY KEY AUTOINCREMENT,
           short_code TEXT UNIQUE NOT NULL, long_url TEXT NOT NULL)]. *)
Record Row := {
  id : Z;
  short_code : string;
  long_url : string
}.

(** The database file: the [urls] table when it exists, and the
    AUTOINCREMENT counter ([sqlite_sequence]). *)
Record DB := {
  urls : option (list Row);
  sqlite_sequence : Z
}.

(** What the database saw: every statement [main.go] sends, with its
    result, in the order sent. *)
Inductive Event :=
| Created (r : Result unit)
| Checked (shortCode : string) (r : Result bool)
| InsertTried (shortCode longURL : string) (r : Result Z).

(** Conditions a storage call meets: how long the database takes to answer
    and whether the driver fails for a reason of its own. *)
Record Condition := {
  latency : N;
  fault : bool
}.

(** A [math/rand] source: the sequence of raw values it yields and how many
    have been consumed. *)
Record Source := {
  draw : nat -> Z;
  pos : nat
}.

(** A parsed template, by what [Execute(w, nil)] does with it: the bytes it
    writes and the error it returns, if any (the bytes are then a partial
    output). *)
Record Template := {
  output : string;
  exec_error : option string
}.

(** [context.Context], by its deadline. *)
Record Ctx := {
  deadline : option Z
}.

Record World := {
  clock : Z;                                  (* time.Now().UnixNano() *)
  global_rand : Source;                       (* the source behind rand.Intn *)
  db : DB;
  script : list Condition;                    (* conditions of the coming storage calls *)
  trace : list Event;
  logs : list string;
  index_html : string + Template              (* what ParseFiles("index.html") yields *)
}.

Definition set_clock (t : Z) (w : World) : World :=
  {| clock := t; global_rand := global_rand w; db := db w; script := script w;
     trace := trace w; logs := logs w; index_html := index_html w |}.

Definition set_global_rand (s : Source) (w : World) : World :=
  {| clock := clock w; global_rand := s; db := db w; script := script w;
     trace := trace w; logs := logs w; index_html := index_html w |}.

Definition set_db (d : DB) (w : World) : World :=
  {| clock := clock w; global_rand := global_rand w; db := d; script := script w;
     trace := trace w; logs := logs w; index_html := index_html w |}.

Definition set_script (s : list Condition) (w : World) : World :=
  {| clock := clock w; global_rand := global_rand w; db := db w; script := s;
     trace := trace w; logs := logs w; index_html := index_html w |}.

Definition set_trace (t : list Event) (w : World) : World :=
  {| clock := clock w; global_rand := global_rand w; db := db w; script := script w;
     trace := t; logs := logs w; index_html := index_html w |}.

Definition set_logs (l : list string) (w : World) : World :=
  {| clock := clock w; global_rand := global_rand w; db := db w; script := script w;
     trace := trace w; logs := l; index_html := index_html w |}.

(* ================================================================= *)
(** ** The state monad of the embedding *)

Definition M (A : Type) : Type := World -> A * World.

Definition ret {A} (a : A) : M A := fun w => (a, w).

Definition bind {A B} (m : M A) (k : A -> M B) : M B :=
  fun w => let (a, w') := m w in k a w'.

Notation "x <- m ;; k" := (bind m (fun x => k))
  (at level 61, m at next level, right associativity).
Notation "m ;;; k" := (bind m (fun _ => k))
  (at level 61, right associativity).

Definition get_db : M DB := fun w => (db w, w).
Definition put_db (d : DB) : M unit := fun w => (tt, set_db d w).
Definition record (e : Event) : M unit :=
  fun w => (tt, set_trace (trace w ++ [e]) w).

(** [time.Now().UnixNano()] *)
Definition time_Now : M Z := fun w => (clock w, w).

(** [log.Println(msg)]; the timestamp prefix is left out. *)
Definition log_Println (msg : string) : M unit :=
  fun w => (tt, set_logs (logs w ++ [msg]) w).

(* ================================================================= *)
(** ** [context] *)

Definition Second : Z := 1000000000.

Definition Background : Ctx := {| deadline := None |}.

(** [context.WithTimeout(parent, d)] called at time [now]: the earlier of
    the parent's deadline and [now + d]. *)
Definition WithTimeout (parent : Ctx) (d : Z) (now : Z) : Ctx :=
  {| deadline := Some (match deadline parent with
                       | Some p => Z.min p (now + d)
                       | None => now + d
                       end) |}.

(* ================================================================= *)
(** ** [database/sql] over the SQLite file *)

Definition calm : Condition := {| latency := 0; fault := false |}.

(** One round trip to the database under [ctx].  A call issued after the
    deadline fails at once; a call the deadline overtakes is aborted at the
    deadline; both return [DeadlineExceeded] and have no effect on the
    database.  A call that completes does so strictly before the deadline.
    When the script is exhausted the database answers at once. *)
Definition round_trip (ctx : Ctx) : M (option Error) := fun w =>
  let c := hd calm (script w) in
  let w1 := set_script (tl (script w)) w in
  let finish := clock w + Z.of_N (latency c) in
  let outcome := if fault c then Some DriverFault else None in
  match deadline ctx with
  | Some d =>
      if d <=? clock w then (Some DeadlineExceeded, w1)
      else if d <=? finish then (Some DeadlineExceeded, set_clock d w1)
      else (outcome, set_clock finish w1)
  | None => (outcome, set_clock finish w1)
  end.

Definition stored (shortCode : string) (rows : list Row) : bool :=
  existsb (fun r => String.eqb (short_code r) shortCode) rows.

(** [SELECT EXISTS(SELECT 1 FROM urls WHERE short_code = ?)] *)
Definition select_exists (shortCode : string) (d : DB) : Result bool :=
  match urls d with
  | Some rows => Ok (stored shortCode rows)
  | None => Err NoSuchTable
  end.

(** [INSERT INTO urls (short_code, long_url) VALUES (?, ?)]: the UNIQUE
    constraint on [short_code] rejects a stored code; the new row takes the
    next AUTOINCREMENT id. *)
Definition insert_url (shortCode longURL : string) (d : DB) : Result Z * DB :=
  match urls d with
  | Some rows =>
      if stored shortCode rows then (Err UniqueViolation, d)
      else
        let i := sqlite_sequence d + 1 in
        (Ok i,
         {| urls := Some (rows ++ [{| id := i; short_code := shortCode;
                                      long_url := longURL |}]);
            sqlite_sequence := i |})
  | None => (Err NoSuchTable, d)
  end.

(** [CREATE TABLE IF NOT EXISTS urls (...)] *)
Definition create_table (d : DB) : DB :=
  match urls d with
  | Some _ => d
  | None => {| urls := Some []; sqlite_sequence := sqlite_sequence d |}
  end.

(** [db.QueryRowContext(ctx, "SELECT EXISTS(...)", shortCode).Scan(&exists)] *)
Definition QueryRowContext_exists (ctx : Ctx) (shortCode : string)
  : M (Result bool) :=
  e <- round_trip ctx ;;
  d <- get_db ;;
  let r := match e with
           | Some err => Err err
           | None => select_exists shortCode d
           end in
  record (Checked shortCode r) ;;;
  ret r.

(** [db.ExecContext(ctx, "INSERT INTO urls ...", shortCode, longURL)] *)
Definition ExecContext_insert (ctx : Ctx) (shortCode longURL : string)
  : M (Result Z) :=
  e <- round_trip ctx ;;
  d <- get_db ;;
  let (r, d') := match e with
                 | Some err => (Err err, d)
                 | None => insert_url shortCode longURL d
                 end in
  put_db d' ;;;
  record (InsertTried shortCode longURL r) ;;;
  ret r.

(** [db.Exec("CREATE TABLE IF NOT EXISTS urls ...")] *)
Definition Exec_create_table : M (Result unit) :=
  e <- round_trip Background ;;
  d <- get_db ;;
  match e with
  | Some err => record (Created (Err err)) ;;; ret (Err err)
  | None => put_db (create_table d) ;;; record (Created (Ok tt)) ;;; ret (Ok tt)
  end.

(* ================================================================= *)
(** ** [math/rand] *)

(** [rand.Intn(n)] on the process-wide source: a value in [[0, n)] for
    [0 < n].  (Go panics for [n <= 0]; the only call passes 62.) *)
Definition rand_Intn (n : Z) : M Z := fun w =>
  let s := global_rand w in
  (draw s (pos s) mod n,
   set_global_rand {| draw := draw s; pos := S (pos s) |} w).

(** [rand.New(src)]: a generator of its own that reads [src]. *)
Record Rand := {
  src : Source
}.

Definition rand_New (s : Source) : Rand := {| src := s |}.

(* ================================================================= *)
(** ** [generateShortCode] *)

Definition charset : string :=
  "abcdefghijklmnopqrstuvwxyzABCDEFGHIJKLMNOPQRSTUVWXYZ0123456789".

Definition len (s : string) : Z := Z.of_nat (String.length s).

(** [s[i]]; Go panics out of range, which [rand.Intn(len(charset))] never
    reaches (lemma [charset_index_in_range]). *)
Definition index (s : string) (i : Z) : ascii :=
  match String.get (Z.to_nat i) s with
  | Some c => c
  | None => zero
  end.

Fixpoint generate_loop (n : nat) (shortCode : list ascii) : M (list ascii) :=
  match n with
  | O => ret shortCode
  | S n' =>
      k <- rand_Intn (len charset) ;;
      generate_loop n' (shortCode ++ [index charset k])
  end.

Definition generateShortCode (length : Z) : M string :=
  shortCode <- generate_loop (Z.to_nat length) [] ;;
  ret (string_of_list_ascii shortCode).

(* ================================================================= *)
(** ** [shortCodeExists] *)

Definition shortCodeExists (ctx : Ctx) (shortCode : string) : M bool :=
  r <- QueryRowContext_exists ctx shortCode ;;
  match r with
  | Err err =>
      log_Println ("Error checking short code existence: " ++ Error_string err) ;;;
      ret true
  | Ok exists_ => ret exists_
  end.

(* ================================================================= *)
(** ** [net/http] *)

Definition MethodPost : string := "POST".
Definition MethodConnect : string := "CONNECT".
Definition StatusOK : Z := 200.
Definition StatusMovedPermanently : Z := 301.
Definition StatusBadRequest : Z := 400.
Definition StatusNotFound : Z := 404.
Definition StatusMethodNotAllowed : Z := 405.
Definition StatusInternalServerError : Z := 500.

Definition newline : string := String (ascii_of_nat 10) EmptyString.

(** [*http.Request], by what the mux and the handlers read: the method,
    the request target as it was sent ([r.RequestURI]), the path the server
    parsed from it, the parsed form and the request's own context. *)
Record Request := {
  Method : string;
  RequestURI : string;
  parsed_path : string;
  Form : list (string * string);
  req_ctx : Ctx
}.

(** [r.URL.Path].  The server parses it from the request target: the
    target "*" is the path "*", and the empty path when the method is
    CONNECT, whose target is read as an authority; [parsed_path] is the
    path of any other target. *)
Definition Path (r : Request) : string :=
  if String.eqb (RequestURI r) "*" then
    if String.eqb (Method r) MethodConnect then "" else "*"
  else parsed_path r.

(** [r.FormValue(key)]: the first value of [key], or the empty string. *)
Fixpoint FormValue_in (form : list (string * string)) (key : string) : string :=
  match form with
  | [] => ""
  | (k, v) :: rest => if String.eqb k key then v else FormValue_in rest key
  end.

Definition FormValue (r : Request) (key : string) : string :=
  FormValue_in (Form r) key.

(** [http.ResponseWriter]: the status line once it is sent, and the body
    written so far.  Headers other than the status are left out. *)
Record ResponseWriter := {
  status : option Z;
  body : string
}.

Definition fresh_writer : ResponseWriter := {| status := None; body := "" |}.

(** [w.WriteHeader(code)]: the first status sent stays. *)
Definition WriteHeader (code : Z) (w : ResponseWriter) : ResponseWriter :=
  match status w with
  | Some _ => w
  | None => {| status := Some code; body := body w |}
  end.

(** [w.Write(s)]: sends [200 OK] first when no status was sent. *)
Definition rw_Write (s : string) (w : ResponseWriter) : ResponseWriter :=
  let w' := WriteHeader StatusOK w in
  {| status := status w'; body := body w' ++ s |}.

(** [http.Error(w, msg, code)] *)
Definition http_Error (w : ResponseWriter) (msg : string) (code : Z)
  : ResponseWriter :=
  rw_Write (msg ++ newline) (WriteHeader code w).

(** The status the client receives: [200] when the handler returned without
    sending one. *)
Definition status_code (w : ResponseWriter) : Z :=
  match status w with
  | Some c => c
  | None => StatusOK
  end.

(** How the handling of a request ends: a handler of the program returned
    or panicked, or the mux answered with a redirect and called no handler
    of the program ([location] is the path of the [Location] header; the
    header also carries the query of the request). *)
Inductive Outcome :=
| Returned (w : ResponseWriter)
| Panicked (w : ResponseWriter) (v : string)
| Redirected (code : Z) (location : string).

(* ================================================================= *)
(** ** [html/template] *)

(** [template.ParseFiles("index.html")]: the template, or the error of a
    missing or malformed file. *)
Definition ParseFiles_index : M (string + Template) :=
  fun w => (index_html w, w).

(** [tmpl.Execute(w, nil)] *)
Definition Execute (t : Template) (w : ResponseWriter)
  : ResponseWriter * option string :=
  ((if String.eqb (output t) "" then w else rw_Write (output t) w),
   exec_error t).

(* ================================================================= *)
(** ** The handlers *)

(** [indexHandler]; [template.Must] panics on the error of [ParseFiles]. *)
Definition indexHandler (w : ResponseWriter) (r : Request) (config : Config)
  : M Outcome :=
  parsed <- ParseFiles_index ;;
  match parsed with
  | inl err => ret (Panicked w err)
  | inr tmpl =>
      let (w1, err) := Execute tmpl w in
      match err with
      | Some e =>
          log_Println ("Error executing template: " ++ e) ;;;
          ret (Returned (http_Error w1 "Internal server error"
                           StatusInternalServerError))
      | None => ret (Returned w1)
      end
  end.

(** The [for i := 0; i < 10; i++] loop of [shortenHandler], with [n]
    iterations left and [shortCode] the variable declared before it. *)
Fixpoint allocate (n : nat) (ctx : Ctx) (shortCode : string) : M string :=
  match n with
  | O => ret shortCode
  | S n' =>
      shortCode <- generateShortCode 6 ;;
      taken <- shortCodeExists ctx shortCode ;;
      if negb taken then ret shortCode
      else allocate n' ctx shortCode
  end.

Definition shortenHandler (w : ResponseWriter) (r : Request) (config : Config)
  : M ResponseWriter :=
  if negb (String.eqb (Method r) MethodPost) then
    ret (http_Error w "Method not allowed" StatusMethodNotAllowed)
  else
    let longURL := FormValue r "long_url" in
    now <- time_Now ;;
    let ctx := WithTimeout (req_ctx r) (5 * Second) now in
    shortCode <- allocate 10 ctx "" ;;
    taken <- shortCodeExists ctx shortCode ;;
    if taken then
      log_Println "Failed to generate a unique short code after 10 attempts" ;;;
      ret (http_Error w "Internal server error" StatusInternalServerError)
    else
      res <- ExecContext_insert ctx shortCode longURL ;;
      match res with
      | Err err =>
          log_Println ("Error inserting into database: " ++ Error_string err) ;;;
          ret (http_Error w "Internal server error" StatusInternalServerError)
      | Ok _ =>
          let shortURL := (ShortURLBase config ++ shortCode)%string in
          ret (rw_Write ("Short URL: " ++ shortURL) w)
      end.

(* ================================================================= *)
(** ** [main]: configuration, table, routes *)

Definition loadConfig : Config :=
  {| DBPath := "./urls.db";
     ServerPort := "8080";
     ShortURLBase := "http://short.url/" |}.

(** [createTable]: [false] when [log.Fatal] ends the process.  [log.Fatal]
    formats its operands like [fmt.Sprint], which puts no space after a
    string operand. *)
Definition createTable : M bool :=
  r <- Exec_create_table ;;
  match r with
  | Err err =>
      log_Println ("Error creating table:" ++ Error_string err) ;;;
      ret false
  | Ok _ => ret true
  end.

(** The two closures [main] registers. *)
Inductive Handler :=
| IndexRoute
| ShortenRoute.

(** [http.ServeMux]: the registered patterns, in registration order. *)
Definition ServeMux := list (string * Handler).

Definition HandleFunc (pattern : string) (h : Handler) (mux : ServeMux)
  : ServeMux :=
  mux ++ [(pattern, h)].

Definition ends_in_slash (pattern : string) : bool :=
  match String.get (String.length pattern - 1) pattern with
  | Some c => Ascii.eqb c "/"
  | None => false
  end.

Fixpoint exact_match (mux : ServeMux) (path : string) : option Handler :=
  match mux with
  | [] => None
  | (pattern, h) :: rest =>
      if String.eqb pattern path then Some h else exact_match rest path
  end.

(** Among the patterns that end in a slash and are a prefix of [path], the
    longest; [best] is the candidate so far. *)
Fixpoint subtree_match (mux : ServeMux) (path : string)
    (best : option (string * Handler)) : option (string * Handler) :=
  match mux with
  | [] => best
  | (pattern, h) :: rest =>
      let better :=
        match best with
        | Some (p, _) => Nat.ltb (String.length p) (String.length pattern)
        | None => true
        end in
      if ends_in_slash pattern && String.prefix pattern path && better
      then subtree_match rest path (Some (pattern, h))
      else subtree_match rest path best
  end.

(** [ServeMux.match]: an exact match first, then the longest subtree
    pattern. *)
Definition mux_match (mux : ServeMux) (path : string) : option Handler :=
  match exact_match mux path with
  | Some h => Some h
  | None => option_map snd (subtree_match mux path None)
  end.

(** [strings.Split(p, "/")] *)
Fixpoint split_slash (p : string) : list string :=
  match p with
  | EmptyString => [""]
  | String c rest =>
      if Ascii.eqb c "/" then "" :: split_slash rest
      else match split_slash rest with
           | e :: more => String c e :: more
           | [] => [String c ""]
           end
  end.

(** The elements [path.Clean] keeps, [out] being those kept so far, last
    first: empty and "." elements are dropped; ".." drops the element
    before it, is dropped at the root of a rooted path, and is kept at the
    start of a path that is not rooted. *)
Fixpoint clean_elements (rooted : bool) (elems out : list string)
  : list string :=
  match elems with
  | [] => rev out
  | e :: rest =>
      if String.eqb e "" || String.eqb e "." then clean_elements rooted rest out
      else if String.eqb e ".." then
        match out with
        | top :: below =>
            if String.eqb top ".." then clean_elements rooted rest (e :: out)
            else clean_elements rooted rest below
        | [] =>
            if rooted then clean_elements rooted rest []
            else clean_elements rooted rest [e]
        end
      else clean_elements rooted rest (e :: out)
  end.

(** [path.Clean(p)]: the shortest path equivalent to [p]; "." for the
    empty result. *)
Definition path_Clean (p : string) : string :=
  let rooted := String.prefix "/" p in
  let np := ((if rooted then "/" else "")
             ++ String.concat "/" (clean_elements rooted (split_slash p) []))%string in
  if String.eqb np "" then "." else np.

(** [cleanPath] of [net/http]: the canonical path of [p], rooted, without
    "." or ".." elements or repeated slashes, and with the trailing slash
    of [p] kept. *)
Definition cleanPath (p : string) : string :=
  if String.eqb p "" then "/"
  else
    let p := if String.prefix "/" p then p else ("/" ++ p)%string in
    let np := path_Clean p in
    if ends_in_slash p && negb (String.eqb np "/") then (np ++ "/")%string
    else np.

Definition registered (mux : ServeMux) (pattern : string) : bool :=
  existsb (fun e => String.eqb (fst e) pattern) mux.

(** [ServeMux.shouldRedirectRLocked]: [path] is not registered and
    [path + "/"] is.  (The patterns of the program name no host, so the
    lookups under the host of the request find nothing.) *)
Definition shouldRedirect (mux : ServeMux) (path : string) : bool :=
  if registered mux path then false
  else if String.eqb path "" then false
  else if registered mux (path ++ "/") then negb (ends_in_slash path)
  else false.

(** What [ServeMux.Handler] returns: a registered handler, the redirect
    handler for a path, or the not-found handler. *)
Inductive Routed :=
| Call (h : Handler)
| Redirect (location : string)
| NotFound.

(** [ServeMux.handler] *)
Definition handler (mux : ServeMux) (path : string) : Routed :=
  match mux_match mux path with
  | Some h => Call h
  | None => NotFound
  end.

(** [ServeMux.Handler], as in Go up to 1.21 (the program uses none of the
    pattern syntax added later; later versions clean and match the escaped
    path, which is the same for a path without percent-escapes): the path
    of a CONNECT request is matched as it is; the path of any other
    request is cleaned first, and a request whose path is not its cleaned
    path is redirected to that path. *)
Definition mux_Handler (mux : ServeMux) (r : Request) : Routed :=
  if String.eqb (Method r) MethodConnect then
    if shouldRedirect mux (Path r) then Redirect (Path r ++ "/")
    else handler mux (Path r)
  else
    let path := cleanPath (Path r) in
    if shouldRedirect mux path then Redirect (path ++ "/")
    else if negb (String.eqb path (Path r)) then Redirect path
    else handler mux (Path r).

(** The routes of [main]. *)
Definition routes : ServeMux :=
  HandleFunc "/shorten" ShortenRoute (HandleFunc "/" IndexRoute []).

(** [ServeMux.ServeHTTP] on a fresh response writer: the request target
    "*" is answered [400] at once; the redirect handler answers [301]. *)
Definition ServeHTTP (mux : ServeMux) (r : Request) (config : Config)
  : M Outcome :=
  if String.eqb (RequestURI r) "*" then
    ret (Returned (WriteHeader StatusBadRequest fresh_writer))
  else
    match mux_Handler mux r with
    | Call IndexRoute => indexHandler fresh_writer r config
    | Call ShortenRoute =>
        w <- shortenHandler fresh_writer r config ;;
        ret (Returned w)
    | Redirect location => ret (Redirected StatusMovedPermanently location)
    | NotFound =>
        ret (Returned (http_Error fresh_writer "404 page not found" StatusNotFound))
    end.

(** [main] up to [ListenAndServe].  [NewSource] stands for
    [rand.NewSource], whose algorithm is the library's.  [sql.Open] only
    checks the driver name and [SetMaxOpenConns] only sizes the pool:
    neither touches the world.  [None] when [log.Fatal] ends the process. *)
Definition main (NewSource : Z -> Source) : M (option (Config * ServeMux)) :=
  now <- time_Now ;;
  let source := NewSource now in
  let _ := rand_New source in
  let config := loadConfig in
  created <- createTable ;;
  if created then ret (Some (config, routes)) else ret None.

(* ================================================================= *)
(** ** Runs of several requests *)

(** Requests sent to [shortenHandler] one after the other, each on a fresh
    response writer. *)
Fixpoint shorten_all (config : Config) (rs : list Request)
  : M (list ResponseWriter) :=
  match rs with
  | [] => ret []
  | r :: rest =>
      w <- shortenHandler fresh_writer r config ;;
      ws <- shorten_all config rest ;;
      ret (w :: ws)
  end.

(* ================================================================= *)
(** ** Requests in flight *)

(** Where a shorten request stands between two statements of
    [shortenHandler]. *)
Inductive Stage :=
| Generating (togo : nat) (shortCode : string)  (* at the loop test, [togo] iterations to go *)
| Rechecking (shortCode : string)               (* before the check that follows the loop *)
| Inserting (shortCode : string)                (* before the INSERT *)
| Finished (w : ResponseWriter).

Record Task := {
  task_request : Request;
  task_ctx : Ctx;
  task_stage : Stage
}.

Definition at_stage (t : Task) (s : Stage) : Task :=
  {| task_request := task_request t; task_ctx := task_ctx t; task_stage := s |}.

(** The handler up to the loop. *)
Definition start (r : Request) : M Task :=
  if negb (String.eqb (Method r) MethodPost) then
    ret {| task_request := r; task_ctx := Background;
           task_stage := Finished (http_Error fresh_writer "Method not allowed"
                                     StatusMethodNotAllowed) |}
  else
    now <- time_Now ;;
    ret {| task_request := r;
           task_ctx := WithTimeout (req_ctx r) (5 * Second) now;
           task_stage := Generating 10 "" |}.

(** The handler from one stage to the next: at most one storage call. *)
Definition step (config : Config) (t : Task) : M Task :=
  let ctx := task_ctx t in
  match task_stage t with
  | Generating O shortCode => ret (at_stage t (Rechecking shortCode))
  | Generating (S togo) _ =>
      shortCode <- generateShortCode 6 ;;
      taken <- shortCodeExists ctx shortCode ;;
      if negb taken then ret (at_stage t (Rechecking shortCode))
      else ret (at_stage t (Generating togo shortCode))
  | Rechecking shortCode =>
      taken <- shortCodeExists ctx shortCode ;;
      if taken then
        log_Println "Failed to generate a unique short code after 10 attempts" ;;;
        ret (at_stage t (Finished (http_Error fresh_writer "Internal server error"
                                     StatusInternalServerError)))
      else ret (at_stage t (Inserting shortCode))
  | Inserting shortCode =>
      res <- ExecContext_insert ctx shortCode (FormValue (task_request t) "long_url") ;;
      match res with
      | Err err =>
          log_Println ("Error inserting into database: " ++ Error_string err) ;;;
          ret (at_stage t (Finished (http_Error fresh_writer "Internal server error"
                                       StatusInternalServerError)))
      | Ok _ =>
          let shortURL := (ShortURLBase config ++ shortCode)%string in
          ret (at_stage t (Finished (rw_Write ("Short URL: " ++ shortURL)
                                       fresh_writer)))
      end
  | Finished _ => ret t
  end.

(** A request running alone. *)
Fixpoint drive (config : Config) (fuel : nat) (t : Task) : M Task :=
  match fuel with
  | O => ret t
  | S fuel' => t' <- step config t ;; drive config fuel' t'
  end.

(** What happens next on the server: a request arrives, or the request in
    flight at some position takes its next step. *)
Inductive Action :=
| Arrive (r : Request)
| Advance (i : nat).

Fixpoint replace_nth {A} (i : nat) (x : A) (l : list A) : list A :=
  match l, i with
  | [], _ => []
  | _ :: rest, O => x :: rest
  | y :: rest, S i' => y :: replace_nth i' x rest
  end.

Definition act (config : Config) (ts : list Task) (a : Action) : M (list Task) :=
  match a with
  | Arrive r => t <- start r ;; ret (ts ++ [t])
  | Advance i =>
      match nth_error ts i with
      | Some t => t' <- step config t ;; ret (replace_nth i t' ts)
      | None => ret ts
      end
  end.

Fixpoint interleave (config : Config) (acts : list Action) (ts : list Task)
  : M (list Task) :=
  match acts with
  | [] => ret ts
  | a :: rest => ts' <- act config ts a ;; interleave config rest ts'
  end.

(** The rest of [shortenHandler] once the loop has left [shortCode]. *)
Definition conclude (r : Request) (config : Config) (ctx : Ctx)
    (shortCode : string) : M ResponseWriter :=
  taken <- shortCodeExists ctx shortCode ;;
  if taken then
    log_Println "Failed to generate a unique short code after 10 attempts" ;;;
    ret (http_Error fresh_writer "Internal server error" StatusInternalServerError)
  else
    res <- ExecContext_insert ctx shortCode (FormValue r "long_url") ;;
    match res with
    | Err err =>
        log_Println ("Error inserting into database: " ++ Error_string err) ;;;
        ret (http_Error fresh_writer "Internal server error" StatusInternalServerError)
    | Ok _ =>
        let shortURL := (ShortURLBase config ++ shortCode)%string in
        ret (rw_Write ("Short URL: " ++ shortURL) fresh_writer)
    end.

(* ================================================================= *)
(** ** Observations used by the statements *)

(** The source after [n] more draws. *)
Definition advance (n : nat) (s : Source) : Source :=
  {| draw := draw s; pos := n + pos s |}.

(** The next [n] characters [generateShortCode] takes from [s]. *)
Definition code_from (s : Source) (n : nat) : list ascii :=
  map (fun i => index charset (draw s (i + pos s) mod len charset))
      (List.seq 0 n).

(** The [k]-th six-character code a request generates (from 0) when the
    process-wide source is [s] at its start. *)
Definition candidate (s : Source) (k : nat) : string :=
  string_of_list_ascii (code_from (advance (6 * k) s) 6).

(** The alphabet as the specification words it: a-z, A-Z, 0-9. *)
Definition alnum (c : ascii) : bool :=
  let n := nat_of_ascii c in
  ((97 <=? n) && (n <=? 122) || (65 <=? n) && (n <=? 90)
   || (48 <=? n) && (n <=? 57))%nat.

(** What [shortCodeExists] answers on a result of the existence query. *)
Definition collision (r : Result bool) : bool :=
  match r with
  | Ok b => b
  | Err _ => true
  end.

(** The events recorded between two worlds. *)
Definition since (w w' : World) : list Event :=
  skipn (List.length (trace w)) (trace w').

(** The existence checks among some events: the code checked and what
    [shortCodeExists] answered. *)
Fixpoint checks (evs : list Event) : list (string * bool) :=
  match evs with
  | [] => []
  | Checked c r :: rest => (c, collision r) :: checks rest
  | _ :: rest => checks rest
  end.

(** The codes of the INSERT statements sent, accepted or not. *)
Fixpoint insert_attempts (evs : list Event) : list string :=
  match evs with
  | [] => []
  | InsertTried c _ _ :: rest => c :: insert_attempts rest
  | _ :: rest => insert_attempts rest
  end.

(** A storage call was cut short by the deadline. *)
Definition timed_out (e : Event) : bool :=
  match e with
  | Checked _ (Err DeadlineExceeded) => true
  | InsertTried _ _ (Err DeadlineExceeded) => true
  | _ => false
  end.

(** An INSERT was rejected. *)
Definition insert_rejected (e : Event) : bool :=
  match e with
  | InsertTried _ _ (Err _) => true
  | _ => false
  end.

(** The checks of the generation loop: candidate [k0], [k0 + 1], ... with
    the results [rs]. *)
Fixpoint loop_checks (s : Source) (k0 : nat) (rs : list (Result bool))
  : list Event :=
  match rs with
  | [] => []
  | r :: rest => Checked (candidate s k0) r :: loop_checks s (S k0) rest
  end.

Definition codes (d : DB) : list string :=
  match urls d with
  | Some rows => map short_code rows
  | None => []
  end.

Definition row_count (d : DB) : nat :=
  match urls d with
  | Some rows => List.length rows
  | None => O
  end.

Fixpoint drop (n : nat) (s : string) : string :=
  match n, s with
  | O, _ => s
  | S n', String _ rest => drop n' rest
  | S _, EmptyString => EmptyString
  end.

(** The two response bodies of [shortenHandler] the statements name. *)
Definition success_body (config : Config) (shortCode : string) : string :=
  "Short URL: " ++ (ShortURLBase config ++ shortCode).

Definition succeeded (w : ResponseWriter) : bool :=
  status_code w =? StatusOK.

(** The code a successful response carries. *)
Definition returned_code (config : Config) (w : ResponseWriter) : string :=
  drop (String.length ("Short URL: " ++ ShortURLBase config)) (body w).

Definition returned_codes (config : Config) (ws : list ResponseWriter)
  : list string :=
  map (returned_code config) (filter succeeded ws).



Definition server_error : ResponseWriter :=
  {| status := Some StatusInternalServerError;
     body := "Internal server error" ++ newline |}.

(** The code a finished, successful request returned. *)
Definition task_code (config : Config) (t : Task) : list string :=
  match task_stage t with
  | Finished w => if succeeded w then [returned_code config w] else []
  | _ => []
  end.

Definition task_codes (config : Config) (ts : list Task) : list string :=
  flat_map (task_code config) ts.

(** The table and the codes returned, under any interleaving. *)
Definition table_matches (config : Config) (w0 : World) (ts : list Task)
    (w : World) : Prop :=
  Permutation (codes (db w)) (codes (db w0) ++ task_codes config ts)
  /\ row_count (db w)
     = (row_count (db w0) + List.length (task_codes config ts))%nat
  /\ NoDup (codes (db w)).

(* ================================================================= *)
(** ** Postconditions of the storage calls, the loop and the handler *)

(** What [shortCodeExists] logs on a result of its query. *)
Definition read_log (r : Result bool) : list string :=
  match r with
  | Err e => ["Error checking short code existence: " ++ Error_string e]%string
  | Ok _ => []
  end.

Definition read_logs (rs : list (Result bool)) : list string :=
  flat_map read_log rs.

(** The log lines written between two worlds. *)
Definition logged (w w' : World) : list string :=
  skipn (List.length (logs w)) (logs w').

(** What one call of [shortCodeExists] does, [r] being the result of its
    query. *)
Record check_post (ctx : Ctx) (c : string) (w : World) (r : Result bool)
    (b : bool) (w' : World) : Prop := {
  cp_answer : b = collision r;
  cp_trace : trace w' = trace w ++ [Checked c r];
  cp_db : db w' = db w;
  cp_rand : global_rand w' = global_rand w;
  cp_html : index_html w' = index_html w;
  cp_read : forall x, r = Ok x -> select_exists c (db w) = Ok x;
  cp_clock : clock w <= clock w';
  cp_in_time : forall x d, r = Ok x -> deadline ctx = Some d -> clock w' < d;
  cp_logs : logs w' = logs w ++ read_log r;
  cp_expired : forall d, r = Err DeadlineExceeded -> deadline ctx = Some d ->
               d <= clock w'
}.

(** What one INSERT does, [res] being its result. *)
Record insert_post (ctx : Ctx) (c url : string) (w : World) (res : Result Z)
    (w' : World) : Prop := {
  ip_trace : trace w' = trace w ++ [InsertTried c url res];
  ip_ok : forall i, res = Ok i -> insert_url c url (db w) = (Ok i, db w');
  ip_err : forall e, res = Err e -> db w' = db w;
  ip_rand : global_rand w' = global_rand w;
  ip_html : index_html w' = index_html w;
  ip_logs : logs w' = logs w;
  ip_clock : clock w <= clock w';
  ip_in_time : forall i d, res = Ok i -> deadline ctx = Some d -> clock w' < d
}.

(** What the generation loop does when it starts with [n] iterations left:
    [rs] are the results of the checks it went past, [r] the result of the
    last check it made, [c] the code it leaves in [shortCode]. *)
Record loop_post (ctx : Ctx) (n : nat) (w : World) (rs : list (Result bool))
    (r : Result bool) (c : string) (w' : World) : Prop := {
  lp_trace : trace w' = trace w ++ loop_checks (global_rand w) 0 (rs ++ [r]);
  lp_earlier : forallb collision rs = true;
  lp_count : (List.length rs < n)%nat;
  lp_stop : (S (List.length rs) < n)%nat -> collision r = false;
  lp_code : c = candidate (global_rand w) (List.length rs);
  lp_rand : global_rand w' = advance (6 * S (List.length rs)) (global_rand w);
  lp_db : db w' = db w;
  lp_html : index_html w' = index_html w;
  lp_clock : clock w <= clock w';
  lp_logs : logs w' = logs w ++ read_logs (rs ++ [r]);
  lp_expired : forall d, In (Err DeadlineExceeded) (rs ++ [r]) ->
               deadline ctx = Some d -> d <= clock w'
}.

Definition exhausted_msg : string :=
  "Failed to generate a unique short code after 10 attempts".

(** What [shortenHandler] does with a POST request: [rs] and [lastr] are the
    results of the checks of the loop (see [loop_post]), [recheck] the
    result of the check made after the loop. *)
Record shorten_post (r : Request) (config : Config) (rw : ResponseWriter)
    (w : World) (rs : list (Result bool)) (lastr recheck : Result bool)
    (rw' : ResponseWriter) (w' : World) : Prop := {
  sp_earlier : forallb collision rs = true;
  sp_count : (List.length rs < 10)%nat;
  sp_stop : (S (List.length rs) < 10)%nat -> collision lastr = false;
  sp_rand : global_rand w' = advance (6 * S (List.length rs)) (global_rand w);
  sp_html : index_html w' = index_html w;
  sp_clock : clock w <= clock w';
  sp_expired : In (Err DeadlineExceeded) (rs ++ [lastr]) -> collision recheck = true;
  sp_taken :
    collision recheck = true ->
    trace w' = trace w ++ loop_checks (global_rand w) 0 (rs ++ [lastr])
                       ++ [Checked (candidate (global_rand w) (List.length rs)) recheck]
    /\ rw' = http_Error rw "Internal server error" StatusInternalServerError
    /\ db w' = db w
    /\ logs w' = logs w ++ read_logs (rs ++ [lastr; recheck]) ++ [exhausted_msg];
  sp_free :
    collision recheck = false ->
    exists res,
      trace w' = trace w ++ loop_checks (global_rand w) 0 (rs ++ [lastr])
                       ++ [Checked (candidate (global_rand w) (List.length rs)) recheck;
                           InsertTried (candidate (global_rand w) (List.length rs))
                                       (FormValue r "long_url") res]
      /\ select_exists (candidate (global_rand w) (List.length rs)) (db w) = Ok false
      /\ match res with
         | Ok i =>
             insert_url (candidate (global_rand w) (List.length rs))
                        (FormValue r "long_url") (db w) = (Ok i, db w')
             /\ rw' = rw_Write (success_body config
                                  (candidate (global_rand w) (List.length rs))) rw
             /\ clock w' < clock w + 5 * Second
             /\ logs w' = logs w ++ read_logs (rs ++ [lastr])
         | Err e =>
             db w' = db w
             /\ rw' = http_Error rw "Internal server error" StatusInternalServerError
             /\ logs w' = logs w ++ read_logs (rs ++ [lastr])
                           ++ ["Error inserting into database: " ++ Error_string e]%string
         end
}.

Definition new_row (i : Z) (c url : string) : Row :=
  {| id := i; short_code := c; long_url := url |}.

(** The two ways a call of [shortenHandler] on a fresh writer ends. *)
Inductive shorten_result (r : Request) (config : Config) (w : World)
    (rw' : ResponseWriter) (w' : World) : Prop :=
| refused :
    succeeded rw' = false -> db w' = db w ->
    shorten_result r config w rw' w'
| shortened (k : nat) (rows : list Row) :
    (k < 10)%nat ->
    urls (db w) = Some rows ->
    stored (candidate (global_rand w) k) rows = false ->
    db w' = {| urls := Some (rows ++ [new_row (sqlite_sequence (db w) + 1)
                                              (candidate (global_rand w) k)
                                              (FormValue r "long_url")]);
               sqlite_sequence := sqlite_sequence (db w) + 1 |} ->
    rw' = {| status := Some StatusOK;
             body := success_body config (candidate (global_rand w) k) |} ->
    clock w' < clock w + 5 * Second ->
    shorten_result r config w rw' w'.

(* ================================================================= *)
(** ** Concrete worlds and requests *)

(** A source that yields 0, 1, 2, ...: the codes it gives are [abcdef],
    [ghijkl], ..., the tenth being [234567]. *)
Definition counting : Source := {| draw := Z.of_nat; pos := 0 |}.

(** A stand-in for [rand.NewSource]: the stream starts at the seed. *)
Definition seeded (seed : Z) : Source :=
  {| draw := fun n => seed + Z.of_nat n; pos := 0 |}.

Definition page : Template :=
  {| output := "<html></html>"; exec_error := None |}.

Definition fresh_db : DB := {| urls := Some []; sqlite_sequence := 0 |}.

(** A table that holds the first [n] codes of [counting]. *)
Definition rows_of (n : nat) : list Row :=
  map (fun k => {| id := Z.of_nat (S k); short_code := candidate counting k;
                   long_url := "http://example.org" |})
      (List.seq 0 n).

Definition crowded_db (n : nat) : DB :=
  {| urls := Some (rows_of n); sqlite_sequence := Z.of_nat n |}.

Definition busy : Condition := {| latency := 0; fault := true |}.

Definition slow : Condition := {| latency := 490000000; fault := false |}.

Definition stalled : Condition := {| latency := 6000000000; fault := false |}.

Definition world_with (d : DB) (s : list Condition) : World :=
  {| clock := 0; global_rand := counting; db := d; script := s;
     trace := []; logs := []; index_html := inr page |}.

Definition quiet_world : World := world_with fresh_db [].

(** Nine codes taken, the tenth free, the database answering at once. *)
Definition crowded_world : World := world_with (crowded_db 9) [].

(** All ten codes taken. *)
Definition full_world : World := world_with (crowded_db 10) [].

(** Nine codes taken; the tenth read fails, later calls are answered. *)
Definition flaky_world : World :=
  world_with (crowded_db 9) (repeat calm 9 ++ [busy]).

(** Nine codes taken; every call takes 0.49 s, so the eleventh meets the
    deadline. *)
Definition slow_world : World := world_with (crowded_db 9) (repeat slow 11).

(** Nine codes taken; the twelfth call, the INSERT, fails. *)
Definition rejecting_world : World :=
  world_with (crowded_db 9) (repeat calm 11 ++ [busy]).

(** An empty table; the first ten reads fail. *)
Definition locked_world : World := world_with fresh_db (repeat busy 10).

(** An empty table; the second read fails. *)
Definition hiccup_world : World := world_with fresh_db [calm; busy].

(** An empty table; the first call takes six seconds. *)
Definition stalled_world : World := world_with fresh_db [stalled].

(** [index.html] is missing. *)
Definition missing_template_world : World :=
  {| clock := 0; global_rand := counting; db := fresh_db; script := [];
     trace := []; logs := [];
     index_html := inl "open index.html: no such file or directory" |}.

(** A template whose execution fails before any output, and one whose
    execution fails after part of the page was written. *)
Definition silent_failure : Template :=
  {| output := ""; exec_error := Some "write: broken pipe" |}.

Definition late_failure : Template :=
  {| output := "<html>"; exec_error := Some "write: broken pipe" |}.

Definition world_with_page (t : Template) : World :=
  {| clock := 0; global_rand := counting; db := fresh_db; script := [];
     trace := []; logs := []; index_html := inr t |}.

Definition post_example : Request :=
  {| Method := "POST"; RequestURI := "/shorten"; parsed_path := "/shorten";
     Form := [("long_url", "http://example.com")]; req_ctx := Background |}.

Definition get_example (path : string) : Request :=
  {| Method := "GET"; RequestURI := path; parsed_path := path; Form := [];
     req_ctx := Background |}.



(** A source that always yields 0: every candidate is [aaaaaa]. *)
Definition stuck : Source := {| draw := fun _ => 0; pos := 0 |}.

Definition stuck_world : World :=
  {| clock := 0; global_rand := stuck; db := fresh_db; script := [];
     trace := []; logs := []; index_html := inr page |}.

(** Two requests whose checks both pass before either INSERT. *)
Definition race : list Action :=
  [Arrive post_example; Arrive post_example;
   Advance 0; Advance 1; Advance 0; Advance 1; Advance 0; Advance 1].

(* ================================================================= *)
(** ** The server loop and further observations *)

(** [http.ListenAndServe] with the requests handled one after the other:
    each goes through the mux on a fresh response writer. *)
Fixpoint serve_all (mux : ServeMux) (config : Config) (rs : list Request)
  : M (list Outcome) :=
  match rs with
  | [] => ret []
  | r :: rest =>
      out <- ServeHTTP mux r config ;;
      outs <- serve_all mux config rest ;;
      ret (out :: outs)
  end.

(** The process from its start: [main], then the requests. *)
Definition run_server (NewSource : Z -> Source) (rs : list Request)
  : M (option (list Outcome)) :=
  started <- main NewSource ;;
  match started with
  | Some (config, mux) => outs <- serve_all mux config rs ;; ret (Some outs)
  | None => ret None
  end.

(** The database answers the coming calls of [ctx] at once and in time:
    nothing is scripted and the deadline is ahead. *)
Definition responsive (ctx : Ctx) (w : World) : Prop :=
  script w = [] /\ forall d, deadline ctx = Some d -> clock w < d.

(** The deadline of [ctx] has passed. *)
Definition expired (ctx : Ctx) (w : World) : Prop :=
  exists d, deadline ctx = Some d /\ d <= clock w.

(** The ids of the table are in insertion order, strictly increasing, and
    none is above the AUTOINCREMENT counter. *)
Definition well_numbered (d : DB) : Prop :=
  match urls d with
  | Some rows =>
      StronglySorted Z.lt (map id rows)
      /\ Forall (fun i => i <= sqlite_sequence d) (map id rows)
  | None => True
  end.

(** A request that [shortenHandler] takes past its method test. *)
Definition shorten_post_request (r : Request) : bool :=
  String.eqb (Path r) "/shorten" && String.eqb (Method r) MethodPost.

(** The position of a character in [charset] (62 when it is not there). *)
Fixpoint position_in (l : list ascii) (c : ascii) : Z :=
  match l with
  | [] => 0
  | x :: rest => if Ascii.eqb x c then 0 else 1 + position_in rest c
  end.

Definition position (c : ascii) : Z :=
  position_in (list_ascii_of_string charset) c.

(** A source that spells [code]: its draws are the positions of the
    characters of [code]. *)
Definition spelling (code : string) : Source :=
  {| draw := fun i => position (nth i (list_ascii_of_string code) zero);
     pos := 0 |}.

(** A database file in which the table was never created. *)
Definition blank_db : DB := {| urls := None; sqlite_sequence := 0 |}.

Definition blank_world : World := world_with blank_db [].

(** A request whose own context was cancelled before it is handled. *)
Definition cancelled_post : Request :=
  {| Method := "POST"; RequestURI := "/shorten"; parsed_path := "/shorten";
     Form := [("long_url", "http://example.com")];
     req_ctx := {| deadline := Some 0 |} |}.

(** A POST without the [long_url] field. *)
Definition bare_post : Request :=
  {| Method := "POST"; RequestURI := "/shorten"; parsed_path := "/shorten";
     Form := [("other", "x")]; req_ctx := Background |}.

(** A request whose client gave it one second. *)
Definition hurried_post : Request :=
  {| Method := "POST"; RequestURI := "/shorten"; parsed_path := "/shorten";
     Form := [("long_url", "http://example.com")];
     req_ctx := {| deadline := Some Second |} |}.

(* ================================================================= *)
(** * Properties *)

Lemma bind_eq {A B} (m : M A) (k : A -> M B) (w : World) :
  bind m k w = k (fst (m w)) (snd (m w)).
Proof. unfold bind. destruct (m w); reflexivity. Qed.

Lemma advance_0 (s : Source) : advance 0 s = s.
Proof. destruct s; reflexivity. Qed.

Lemma advance_advance (n m : nat) (s : Source) :
  advance n (advance m s) = advance (n + m) s.
Proof. unfold advance; simpl. f_equal. lia. Qed.

Lemma set_global_rand_same (w : World) : set_global_rand (global_rand w) w = w.
Proof. destruct w; reflexivity. Qed.

Lemma code_from_S (s : Source) (n : nat) :
  code_from s (S n)
  = index charset (draw s (pos s) mod len charset) :: code_from (advance 1 s) n.
Proof.
  unfold code_from. simpl List.seq. simpl map. f_equal.
  rewrite <- seq_shift, map_map. apply map_ext. intros i. simpl.
  do 3 f_equal. lia.
Qed.

Lemma generate_loop_eq (n : nat) : forall (acc : list ascii) (w : World),
  generate_loop n acc w
  = (acc ++ code_from (global_rand w) n,
     set_global_rand (advance n (global_rand w)) w).
Proof.
  induction n as [|n IH]; intros acc w.
  - simpl. unfold ret, code_from. simpl.
    rewrite app_nil_r, advance_0, set_global_rand_same. reflexivity.
  - simpl. rewrite bind_eq. unfold rand_Intn at 1 2. simpl fst. simpl snd.
    rewrite IH. simpl global_rand. rewrite code_from_S, <- app_assoc. simpl app.
    f_equal. unfold set_global_rand, advance. simpl. do 2 f_equal. lia.
Qed.

Lemma generateShortCode_eq (n : nat) (w : World) :
  generateShortCode (Z.of_nat n) w
  = (string_of_list_ascii (code_from (global_rand w) n),
     set_global_rand (advance n (global_rand w)) w).
Proof.
  unfold generateShortCode. rewrite bind_eq, Nat2Z.id, generate_loop_eq.
  reflexivity.
Qed.

Lemma generate_six (w : World) :
  generateShortCode 6 w
  = (candidate (global_rand w) 0,
     set_global_rand (advance 6 (global_rand w)) w).
Proof.
  change 6 with (Z.of_nat 6). rewrite generateShortCode_eq.
  unfold candidate. simpl (6 * 0)%nat. rewrite advance_0. reflexivity.
Qed.

Lemma candidate_advance (s : Source) (k : nat) :
  candidate (advance 6 s) k = candidate s (S k).
Proof.
  unfold candidate. rewrite advance_advance. do 3 f_equal. lia.
Qed.

(** Every index [rand.Intn(len(charset))] can return is inside [charset]. *)
Lemma charset_index_in_range (raw : Z) :
  String.get (Z.to_nat (raw mod len charset)) charset
  = Some (index charset (raw mod len charset)).
Proof.
  assert (H : 0 <= raw mod len charset < 62) by (apply Z.mod_pos_bound; reflexivity).
  unfold index.
  destruct (String.get (Z.to_nat (raw mod len charset)) charset) eqn:E; [reflexivity|].
  exfalso. remember (raw mod len charset) as k eqn:Hk. clear Hk.
  assert (Hn : (Z.to_nat k < 62)%nat) by lia.
  revert E. generalize (Z.to_nat k) Hn. intros m Hm.
  do 62 (destruct m as [|m]; [discriminate|]). lia.
Qed.

Lemma alnum_charset (raw : Z) : alnum (index charset (raw mod len charset)) = true.
Proof.
  assert (H : 0 <= raw mod len charset < 62) by (apply Z.mod_pos_bound; reflexivity).
  unfold index. remember (raw mod len charset) as k eqn:Hk. clear Hk.
  assert (Hn : (Z.to_nat k < 62)%nat) by lia.
  revert Hn. generalize (Z.to_nat k). intros m Hm.
  do 62 (destruct m as [|m]; [reflexivity|]). lia.
Qed.

Lemma code_from_length (s : Source) (n : nat) : List.length (code_from s n) = n.
Proof. unfold code_from. rewrite length_map, length_seq. reflexivity. Qed.

Lemma code_from_alnum (s : Source) (n : nat) :
  forallb alnum (code_from s n) = true.
Proof.
  unfold code_from. apply forallb_forall. intros c Hc.
  apply in_map_iff in Hc. destruct Hc as [i [<- _]]. apply alnum_charset.
Qed.

Ltac round_trip_cases ctx w :=
  unfold round_trip;
  destruct (deadline ctx) as [d|] eqn:Hd;
  [ destruct (d <=? clock w) eqn:Hnow;
    [ | destruct (d <=? clock w + Z.of_N (latency (hd calm (script w)))) eqn:Hfin;
        [ | destruct (fault (hd calm (script w))) eqn:Hfault ] ]
  | destruct (fault (hd calm (script w))) eqn:Hfault ].

Lemma shortCodeExists_post (ctx : Ctx) (c : string) (w : World) :
  exists r, check_post ctx c w r (fst (shortCodeExists ctx c w))
                       (snd (shortCodeExists ctx c w)).
Proof.
  unfold shortCodeExists, QueryRowContext_exists.
  rewrite !bind_eq.
  round_trip_cases ctx w; simpl;
    try match goal with
        | |- context [select_exists c (db w)] =>
            destruct (select_exists c (db w)) eqn:Hsel; simpl
        end;
    eexists; (split; simpl; [ | reflexivity | .. ]);
    try reflexivity; try discriminate; rewrite ?app_nil_r;
    try reflexivity; try congruence; try lia.
  all: try (intros d' _ Hd'; rewrite Hd in Hd'; inversion Hd'; subst; lia).
  all: try (intros x d' _ Hd'; rewrite Hd in Hd'; inversion Hd'; subst; lia).
  all: intros d' He; inversion He.
  all: subst; unfold select_exists in Hsel; destruct (urls (db w));
    discriminate Hsel.
Qed.

Lemma loop_checks_advance (s : Source) (rs : list (Result bool)) :
  forall k, loop_checks (advance 6 s) k rs = loop_checks s (S k) rs.
Proof.
  induction rs as [|r rs IH]; intros k; simpl; [reflexivity|].
  rewrite candidate_advance, IH. reflexivity.
Qed.

Lemma allocate_post (ctx : Ctx) (n : nat) : forall (c0 : string) (w : World),
  (0 < n)%nat ->
  exists rs r, loop_post ctx n w rs r (fst (allocate n ctx c0 w))
                         (snd (allocate n ctx c0 w)).
Proof.
  induction n as [|n IH]; intros c0 w Hn; [lia|].
  cbn [allocate]. rewrite bind_eq, generate_six. cbn [fst snd].
  rewrite bind_eq.
  set (c := candidate (global_rand w) 0).
  set (w1 := set_global_rand (advance 6 (global_rand w)) w).
  destruct (shortCodeExists_post ctx c w1) as [r Hr].
  destruct Hr as [Ha Ht Hdb Hrand Hhtml _ Hclk _ Hlg Hexp].
  destruct (fst (shortCodeExists ctx c w1)) eqn:Htaken; cbn [negb].
  - destruct n as [|n].
    + exists [], r. cbn [allocate ret fst snd].
      split; cbn [List.length app loop_checks]; auto; try lia.
      * rewrite Hlg. cbn [read_logs flat_map]. rewrite app_nil_r. reflexivity.
      * intros d [Heq|[]] Hd. exact (Hexp d Heq Hd).
    + destruct (IH c (snd (shortCodeExists ctx c w1))) as [rs [r' H]]; [lia|].
      destruct H as [Ht' He' Hc' Hs' Hcode' Hrand' Hdb' Hhtml' Hclk' Hlg' Hexp'].
      exists (r :: rs), r'. split; cbn [List.length app loop_checks forallb].
      * rewrite Ht', Ht, Hrand, <- app_assoc. cbn [app].
        subst w1. cbn [global_rand set_global_rand trace].
        rewrite loop_checks_advance. reflexivity.
      * rewrite <- Ha, He'. reflexivity.
      * lia.
      * intros. apply Hs'. lia.
      * rewrite Hcode', Hrand. subst w1. cbn [global_rand set_global_rand].
        apply candidate_advance.
      * rewrite Hrand', Hrand. subst w1. cbn [global_rand set_global_rand].
        rewrite advance_advance. f_equal. lia.
      * rewrite Hdb', Hdb. reflexivity.
      * rewrite Hhtml', Hhtml. reflexivity.
      * subst w1. cbn [clock set_global_rand] in Hclk. lia.
      * rewrite Hlg', Hlg, <- app_assoc. reflexivity.
      * intros d [Heq|Hin] Hd; [|exact (Hexp' d Hin Hd)].
        specialize (Hexp d Heq Hd). lia.
  - exists [], r. cbn [ret fst snd].
    split; cbn [List.length app loop_checks]; auto; try lia.
    + rewrite Hlg. cbn [read_logs flat_map]. rewrite app_nil_r. reflexivity.
    + intros d [Heq|[]] Hd. exact (Hexp d Heq Hd).
Qed.

Lemma insert_url_err (c url : string) (d d' : DB) (e : Error) :
  insert_url c url d = (Err e, d') -> d' = d.
Proof.
  unfold insert_url. destruct (urls d) as [rows|]; [destruct (stored c rows)|];
    intros H; inversion H; reflexivity.
Qed.

Lemma ExecContext_insert_post (ctx : Ctx) (c url : string) (w : World) :
  insert_post ctx c url w (fst (ExecContext_insert ctx c url w))
              (snd (ExecContext_insert ctx c url w)).
Proof.
  unfold ExecContext_insert. rewrite !bind_eq.
  round_trip_cases ctx w; cbn [fst snd get_db db set_script set_clock].
  1,2,3,5: rewrite !bind_eq; cbn; split; cbn; try reflexivity; try discriminate; lia.
  all: destruct (insert_url c url (db w)) as [res d'] eqn:Hins;
    rewrite !bind_eq; cbn; split; cbn; try reflexivity; try lia.
  all: try (intros i Hi; subst res; reflexivity).
  all: try (intros e He; subst res; apply insert_url_err in Hins; assumption).
  all: try congruence.
  all: intros i d0 _ Hd0; rewrite Hd in Hd0; inversion Hd0; subst; lia.
Qed.

Lemma WithTimeout_deadline (parent : Ctx) (now : Z) :
  exists d, deadline (WithTimeout parent (5 * Second) now) = Some d
            /\ d <= now + 5 * Second.
Proof.
  unfold WithTimeout. destruct (deadline parent) as [p|]; eexists; split;
    cbn [deadline]; try reflexivity; lia.
Qed.

Lemma read_logs_app (a b : list (Result bool)) :
  read_logs (a ++ b) = read_logs a ++ read_logs b.
Proof. apply flat_map_app. Qed.

Lemma read_logs_snoc2 (rs : list (Result bool)) (a b : Result bool) :
  read_logs (rs ++ [a; b]) = read_logs (rs ++ [a]) ++ read_log b.
Proof.
  rewrite !read_logs_app. cbn [read_logs flat_map].
  rewrite !app_nil_r, app_assoc. reflexivity.
Qed.

Lemma shortenHandler_post (r : Request) (config : Config) (rw : ResponseWriter)
    (w : World) :
  Method r = MethodPost ->
  exists rs lastr recheck,
    shorten_post r config rw w rs lastr recheck
                 (fst (shortenHandler rw r config w))
                 (snd (shortenHandler rw r config w)).
Proof.
  intros Hm. unfold shortenHandler. rewrite Hm, String.eqb_refl. cbn [negb].
  rewrite bind_eq. cbn [time_Now fst snd].
  set (ctx := WithTimeout (req_ctx r) (5 * Second) (clock w)).
  destruct (WithTimeout_deadline (req_ctx r) (clock w)) as [dl [Hdl Hle]].
  fold ctx in Hdl.
  rewrite bind_eq.
  destruct (allocate_post ctx 10 "" w) as [rs [lastr HL]]; [lia|].
  destruct HL as [Lt Le Lc Ls Lcode Lrand Ldb Lhtml Lclk Llogs Lexp].
  set (c := fst (allocate 10 ctx "" w)) in *.
  set (w2 := snd (allocate 10 ctx "" w)) in *.
  rewrite bind_eq.
  destruct (shortCodeExists_post ctx c w2) as [recheck HC].
  destruct HC as [Ca Ct Cdb Crand Chtml Cread Cclk Ctime Clogs _].
  set (w3 := snd (shortCodeExists ctx c w2)) in *.
  exists rs, lastr, recheck.
  assert (Hexpired : In (Err DeadlineExceeded) (rs ++ [lastr]) ->
                     collision recheck = true).
  { intros Hin. destruct recheck as [b|e]; [|reflexivity]. exfalso.
    specialize (Lexp dl Hin Hdl). specialize (Ctime b dl eq_refl Hdl). lia. }
  destruct (fst (shortCodeExists ctx c w2)) eqn:Htaken.
  - rewrite bind_eq. cbn [log_Println ret fst snd].
    split; cbn [global_rand index_html clock trace db logs set_logs];
      try assumption; try congruence; try lia.
    intros _. rewrite Ct, Lt, <- Lcode, <- app_assoc.
    repeat split; try congruence.
    rewrite Clogs, Llogs, read_logs_snoc2, <- !app_assoc. reflexivity.
  - rewrite bind_eq.
    pose proof (ExecContext_insert_post ctx c (FormValue r "long_url") w3) as HI.
    destruct HI as [It Iok Ierr Irand Ihtml Ilogs Iclk Itime].
    set (res := fst (ExecContext_insert ctx c (FormValue r "long_url") w3)) in *.
    set (w4 := snd (ExecContext_insert ctx c (FormValue r "long_url") w3)) in *.
    assert (Hrk : recheck = Ok false).
    { destruct recheck as [b|e]; cbn [collision] in Ca; congruence. }
    assert (Hl3 : logs w3 = logs w ++ read_logs (rs ++ [lastr])).
    { rewrite Clogs, Llogs, Hrk. cbn [read_log]. apply app_nil_r. }
    destruct res as [i|e] eqn:Hres.
    + cbn [ret fst snd]. split; try assumption; try congruence; try lia.
      intros _. exists (Ok i). rewrite It, Ct, Lt, <- Lcode, <- !app_assoc.
      cbn [app]. split; [reflexivity|]. split.
      { rewrite <- Ldb. apply Cread. assumption. }
      split; [rewrite <- Ldb, <- Cdb; apply Iok; reflexivity|].
      split; [reflexivity|].
      split; [specialize (Itime i dl eq_refl Hdl); lia|].
      congruence.
    + rewrite bind_eq. cbn [log_Println ret fst snd].
      split; cbn [global_rand index_html clock trace db logs set_logs];
        try assumption; try congruence; try lia.
      intros _. exists (Err e). rewrite It, Ct, Lt, <- Lcode, <- !app_assoc.
      cbn [app]. split; [reflexivity|]. split.
      { rewrite <- Ldb. apply Cread. assumption. }
      split; [rewrite (Ierr e eq_refl); congruence|].
      split; [reflexivity|].
      rewrite Ilogs, Hl3, <- app_assoc. reflexivity.
Qed.

Lemma insert_url_ok (c url : string) (d d' : DB) (i : Z) :
  insert_url c url d = (Ok i, d') ->
  exists rows,
    urls d = Some rows /\ stored c rows = false
    /\ i = sqlite_sequence d + 1
    /\ d' = {| urls := Some (rows ++ [new_row i c url]); sqlite_sequence := i |}.
Proof.
  unfold insert_url. destruct (urls d) as [rows|]; [|discriminate].
  destruct (stored c rows) eqn:Hs; [discriminate|].
  intros H. inversion H; subst. exists rows. repeat split; auto.
Qed.

Lemma stored_In (c : string) (rows : list Row) :
  stored c rows = true <-> In c (map short_code rows).
Proof.
  unfold stored. rewrite existsb_exists, in_map_iff. split.
  - intros [r [Hr He]]. apply String.eqb_eq in He. eauto.
  - intros [r [He Hr]]. exists r. split; [assumption|]. apply String.eqb_eq. assumption.
Qed.

Lemma not_stored (c : string) (rows : list Row) :
  stored c rows = false -> ~ In c (map short_code rows).
Proof.
  intros H Hin. apply stored_In in Hin. congruence.
Qed.

Lemma string_of_list_ascii_length (l : list ascii) :
  String.length (string_of_list_ascii l) = List.length l.
Proof. induction l as [|a l IH]; cbn; congruence. Qed.

Lemma candidate_length (s : Source) (k : nat) : String.length (candidate s k) = 6%nat.
Proof.
  unfold candidate. rewrite string_of_list_ascii_length. apply code_from_length.
Qed.

Lemma candidate_alnum (s : Source) (k : nat) :
  forallb alnum (list_ascii_of_string (candidate s k)) = true.
Proof.
  unfold candidate. rewrite list_ascii_of_string_of_list_ascii.
  apply code_from_alnum.
Qed.


Lemma shortenHandler_result (r : Request) (config : Config) (w : World) :
  shorten_result r config w (fst (shortenHandler fresh_writer r config w))
                 (snd (shortenHandler fresh_writer r config w)).
Proof.
  destruct (String.eqb (Method r) MethodPost) eqn:Hm.
  - apply String.eqb_eq in Hm.
    destruct (shortenHandler_post r config fresh_writer w Hm)
      as [rs [lastr [recheck H]]].
    destruct H as [He Hc Hs Hrand Hhtml Hclk _ Htaken Hfree].
    destruct (collision recheck) eqn:Hr.
    + destruct (Htaken eq_refl) as [_ [Hrw [Hdb _]]].
      apply refused; [rewrite Hrw; reflexivity | assumption].
    + destruct (Hfree eq_refl) as [res [_ [_ Hres]]].
      destruct res as [i|e].
      * destruct Hres as [Hins [Hrw [Htime _]]].
        apply insert_url_ok in Hins. destruct Hins as [rows [Hu [Hst [Hi Hd]]]].
        subst i.
        eapply shortened with (k := List.length rs) (rows := rows); eauto.
      * destruct Hres as [Hdb [Hrw _]].
        apply refused; [rewrite Hrw; reflexivity | assumption].
  - unfold shortenHandler. rewrite Hm. cbn [negb ret fst snd].
    apply refused; reflexivity.
Qed.

(* ================================================================= *)
(** ** Generated codes and the deadline *)

(** The alphabet of the specification and [charset] are the same set. *)
Lemma alnum_eq_in_charset (c : ascii) :
  alnum c = existsb (Ascii.eqb c) (list_ascii_of_string charset).
Proof.
  destruct c as [[] [] [] [] [] [] [] []]; vm_compute; reflexivity.
Qed.

Lemma alnum_iff_charset (c : ascii) :
  alnum c = true <-> In c (list_ascii_of_string charset).
Proof.
  rewrite alnum_eq_in_charset, existsb_exists. split.
  - intros [x [Hin Heq]]. apply Ascii.eqb_eq in Heq. subst. assumption.
  - intros Hin. exists c. split; [assumption | apply Ascii.eqb_refl].
Qed.

(** C3: [generateShortCode(n)] returns [n] characters of the alphabet
    a-z, A-Z, 0-9 for every [n >= 0]; a successful shorten response is
    [200] with the body "Short URL: ", the configured base and a code of
    exactly six such characters; the alphabet has 62 symbols and is
    [charset]. *)
Theorem generated_code_shape :
  (forall (n : Z) (w : World),
      0 <= n ->
      len (fst (generateShortCode n w)) = n
      /\ forallb alnum (list_ascii_of_string (fst (generateShortCode n w))) = true)
  /\ (forall (r : Request) (config : Config) (w : World)
             (rw' : ResponseWriter) (w' : World),
         shortenHandler fresh_writer r config w = (rw', w') ->
         succeeded rw' = true ->
         exists code,
           rw' = {| status := Some StatusOK;
                    body := "Short URL: " ++ (ShortURLBase config ++ code) |}
           /\ String.length code = 6%nat
           /\ forallb alnum (list_ascii_of_string code) = true)
  /\ (len charset = 62
      /\ forall c, alnum c = true <-> In c (list_ascii_of_string charset)).
Proof.
  split; [|split].
  - intros n w Hn. rewrite <- (Z2Nat.id n Hn), generateShortCode_eq.
    cbn [fst]. unfold len.
    rewrite string_of_list_ascii_length, code_from_length,
      list_ascii_of_string_of_list_ascii.
    split; [reflexivity | apply code_from_alnum].
  - intros r config w rw' w' Hrun Hok.
    pose proof (shortenHandler_result r config w) as H.
    rewrite Hrun in H. cbn [fst snd] in H.
    destruct H as [Hno _ | k rows _ _ _ _ Hrw _]; [congruence|].
    exists (candidate (global_rand w) k). split; [exact Hrw|].
    split; [apply candidate_length | apply candidate_alnum].
  - split; [reflexivity | exact alnum_iff_charset].
Qed.

Lemma generated_code_shape_witness :
  0 <= 6
  /\ fst (generateShortCode 6 quiet_world) = "abcdef"
  /\ len (fst (generateShortCode 6 quiet_world)) = 6
  /\ succeeded (fst (shortenHandler fresh_writer post_example loadConfig
                       quiet_world)) = true
  /\ exists code,
       fst (shortenHandler fresh_writer post_example loadConfig quiet_world)
       = {| status := Some StatusOK;
            body := "Short URL: " ++ (ShortURLBase loadConfig ++ code) |}
       /\ String.length code = 6%nat
       /\ forallb alnum (list_ascii_of_string code) = true.
Proof.
  split; [lia|]. split; [reflexivity|].
  split; [apply (proj1 generated_code_shape 6 quiet_world); lia|].
  split; [reflexivity|].
  apply (proj1 (proj2 generated_code_shape) post_example loadConfig quiet_world
           _ (snd (shortenHandler fresh_writer post_example loadConfig quiet_world)));
    [apply surjective_pairing | vm_compute; reflexivity].
Defined.

Lemma since_app (w w' : World) (evs : list Event) :
  trace w' = trace w ++ evs -> since w w' = evs.
Proof.
  intros H. unfold since. rewrite H, skipn_app, skipn_all, Nat.sub_diag.
  reflexivity.
Qed.

Lemma since_same (w w' : World) : trace w' = trace w -> since w w' = [].
Proof. intros H. apply since_app. rewrite app_nil_r. assumption. Qed.

Lemma timed_out_in_loop (s : Source) (rs : list (Result bool)) :
  forall k, existsb timed_out (loop_checks s k rs) = true ->
            In (Err DeadlineExceeded) rs.
Proof.
  induction rs as [|r rs IH]; intros k H; cbn in H; [discriminate H|].
  apply orb_prop in H. destruct H as [H|H]; [|right; exact (IH _ H)].
  left. destruct r as [b|[]]; try discriminate H. reflexivity.
Qed.

(** C7: when the five-second deadline of a shorten request has been reached
    by the time the handler returns, or one of its storage calls was cut
    short by the deadline, the response is the server error and the
    database is as it was: no row was committed. *)
Theorem deadline_elapsed_no_commit :
  forall (r : Request) (config : Config) (w : World)
         (rw' : ResponseWriter) (w' : World),
    shortenHandler fresh_writer r config w = (rw', w') ->
    clock w + 5 * Second <= clock w'
    \/ existsb timed_out (since w w') = true ->
    rw' = server_error /\ db w' = db w.
Proof.
  intros r config w rw' w' Hrun Hlate.
  destruct (String.eqb (Method r) MethodPost) eqn:Hm.
  - apply String.eqb_eq in Hm.
    destruct (shortenHandler_post r config fresh_writer w Hm)
      as [rs [lastr [recheck H]]].
    rewrite Hrun in H. cbn [fst snd] in H.
    destruct H as [_ _ _ _ _ _ Hexpired Htaken Hfree].
    destruct (collision recheck) eqn:Hr.
    + destruct (Htaken eq_refl) as [_ [Hrw [Hdb _]]]. auto.
    + destruct (Hfree eq_refl) as [res [Ht [_ Hres]]].
      destruct res as [i|e].
      * exfalso. destruct Hres as [_ [_ [Htime _]]].
        destruct Hlate as [Hlate|Hlate]; [lia|].
        rewrite (since_app _ _ _ Ht), existsb_app in Hlate.
        apply orb_prop in Hlate. destruct Hlate as [Hlate|Hlate].
        { apply timed_out_in_loop in Hlate. specialize (Hexpired Hlate).
          discriminate Hexpired. }
        { destruct recheck as [[|]|e]; cbn in Hr, Hlate; discriminate. }
      * destruct Hres as [Hdb [Hrw _]]. auto.
  - unfold shortenHandler in Hrun. rewrite Hm in Hrun. cbn [negb ret] in Hrun.
    inversion Hrun; subst. destruct Hlate as [Hlate|Hlate].
    + unfold Second in Hlate. lia.
    + rewrite since_same in Hlate by reflexivity. discriminate Hlate.
Qed.

Lemma deadline_elapsed_no_commit_witness :
  clock stalled_world + 5 * Second
  <= clock (snd (shortenHandler fresh_writer post_example loadConfig stalled_world))
  /\ existsb timed_out
       (since stalled_world
          (snd (shortenHandler fresh_writer post_example loadConfig stalled_world)))
     = true
  /\ fst (shortenHandler fresh_writer post_example loadConfig stalled_world)
     = server_error
  /\ db (snd (shortenHandler fresh_writer post_example loadConfig stalled_world))
     = db stalled_world.
Proof.
  assert (H : clock stalled_world + 5 * Second
              <= clock (snd (shortenHandler fresh_writer post_example loadConfig
                               stalled_world)))
    by (vm_compute; discriminate).
  split; [exact H|]. split; [vm_compute; reflexivity|].
  exact (deadline_elapsed_no_commit post_example loadConfig stalled_world _ _
           (surjective_pairing _) (or_introl H)).
Defined.

(* ================================================================= *)
(** ** Routes, start-up and the start page *)




(** The routes of [main] have no pattern that is a path plus a slash, other
    than "/": the mux never redirects to add a trailing slash. *)
Lemma shouldRedirect_routes (path : string) : shouldRedirect routes path = false.
Proof.
  unfold shouldRedirect. destruct (registered routes path); [reflexivity|].
  destruct (String.eqb path "") eqn:E; [reflexivity|].
  destruct (registered routes (path ++ "/")) eqn:R; [|reflexivity].
  exfalso. unfold registered, routes, HandleFunc in R.
  cbn [app existsb fst] in R. rewrite orb_false_r in R.
  apply orb_prop in R. destruct R as [R|R]; apply String.eqb_eq in R.
  - destruct path as [|c path]; [discriminate E|].
    cbn [append] in R. inversion R. destruct path; discriminate.
  - do 8 (destruct path as [|? path]; [discriminate R | cbn [append] in R]).
    destruct path; discriminate R.
Qed.



(** [path.Clean] and [cleanPath] on the examples of their documentation
    and tests. *)
Lemma cleanPath_examples :
  map path_Clean
      [""; "abc"; "abc/def/"; "/abc/"; "abc//def//ghi"; "///abc"; "abc/./def";
       "abc/."; ".."; "../../abc"; "abc/def/../.."; "/abc/def/../../..";
       "abc/def/../../.."; "abc/def/../../../ghi/jkl/../../../mno";
       "abc/../../././../def"]
  = ["."; "abc"; "abc/def"; "/abc"; "abc/def/ghi"; "/abc"; "abc/def";
     "abc"; ".."; "../../abc"; "."; "/";
     ".."; "../../mno";
     "../../def"]
  /\ map cleanPath
         [""; "/"; "shorten"; "//shorten"; "/a/../shorten"; "/./shorten";
          "/shorten/"; "/shorten//"; "/.."; "/a/./b/"; "*"; "/shorten"]
     = ["/"; "/"; "/shorten"; "/shorten"; "/shorten"; "/shorten";
        "/shorten/"; "/shorten/"; "/"; "/a/b/"; "/*"; "/shorten"].
Proof. vm_compute. split; reflexivity. Qed.




(** C4 (what the code does): [main] builds a source from the start-up time
    and drops it; the process-wide source that [generateShortCode] reads is
    untouched, so the codes generated after start-up are the same whatever
    the seeding function and whatever the time of start-up.  With [seeded]
    for [rand.NewSource], a start at time 1 and a start at time 2 both give
    [abcdef] as first code, where the sources built from these times would
    give [bcdefg] and [cdefgh]. *)
Theorem startup_seed_not_consumed :
  (forall (NewSource : Z -> Source) (t : Z) (w : World) (n : Z),
      global_rand (snd (main NewSource (set_clock t w))) = global_rand w
      /\ fst (generateShortCode n (snd (main NewSource (set_clock t w))))
         = fst (generateShortCode n w))
  /\ fst (generateShortCode 6 (snd (main seeded (set_clock 1 quiet_world))))
     = "abcdef"
  /\ fst (generateShortCode 6 (snd (main seeded (set_clock 2 quiet_world))))
     = "abcdef"
  /\ candidate (seeded 1) 0 = "bcdefg"
  /\ candidate (seeded 2) 0 = "cdefgh".
Proof.
  split; [|vm_compute; repeat split].
  intros NewSource t w n.
  assert (H : global_rand (snd (main NewSource (set_clock t w))) = global_rand w).
  { unfold main, createTable, Exec_create_table. rewrite !bind_eq.
    cbn [time_Now fst snd].
    round_trip_cases Background (set_clock t w); try discriminate;
      cbn; reflexivity. }
  split; [exact H|].
  unfold generateShortCode. rewrite !bind_eq, !generate_loop_eq. cbn [fst ret].
  rewrite H. reflexivity.
Qed.

(** C5 (what the code does): when [ParseFiles] fails, [template.Must]
    panics: [indexHandler] writes no response and logs nothing.  When the
    template is parsed and [Execute] fails, the handler logs the error and
    calls [http.Error]: the response is the server error when nothing had
    been written, and a [200] with the error text after the partial page
    otherwise. *)
Theorem missing_template_panics :
  forall (r : Request) (config : Config) (w : World),
    (forall err, index_html w = inl err ->
       indexHandler fresh_writer r config w = (Panicked fresh_writer err, w))
    /\ (forall tmpl e, index_html w = inr tmpl ->
          output tmpl = "" -> exec_error tmpl = Some e ->
          indexHandler fresh_writer r config w
          = (Returned server_error,
             set_logs (logs w ++ ["Error executing template: " ++ e]%string) w))
    /\ (forall tmpl e, index_html w = inr tmpl ->
          output tmpl <> "" -> exec_error tmpl = Some e ->
          indexHandler fresh_writer r config w
          = (Returned {| status := Some StatusOK;
                         body := output tmpl
                                 ++ ("Internal server error" ++ newline) |},
             set_logs (logs w ++ ["Error executing template: " ++ e]%string) w)).
Proof.
  intros r config w. split; [|split].
  - intros err H. unfold indexHandler. rewrite bind_eq.
    cbn [ParseFiles_index fst snd]. rewrite H. reflexivity.
  - intros tmpl e H Hout Herr. unfold indexHandler. rewrite bind_eq.
    cbn [ParseFiles_index fst snd]. rewrite H. unfold Execute.
    rewrite Hout, Herr. cbn [String.eqb]. rewrite bind_eq. reflexivity.
  - intros tmpl e H Hout Herr. unfold indexHandler. rewrite bind_eq.
    cbn [ParseFiles_index fst snd]. rewrite H. unfold Execute.
    apply String.eqb_neq in Hout. rewrite Hout, Herr, bind_eq. reflexivity.
Qed.

Lemma missing_template_panics_witness :
  index_html missing_template_world
  = inl "open index.html: no such file or directory"
  /\ indexHandler fresh_writer (get_example "/") loadConfig missing_template_world
     = (Panicked fresh_writer "open index.html: no such file or directory",
        missing_template_world)
  /\ fst (indexHandler fresh_writer (get_example "/") loadConfig
            (world_with_page silent_failure))
     = Returned server_error
  /\ fst (indexHandler fresh_writer (get_example "/") loadConfig
            (world_with_page late_failure))
     = Returned {| status := Some StatusOK;
                   body := "<html>" ++ ("Internal server error" ++ newline) |}.
Proof.
  split; [reflexivity|].
  split.
  - apply (proj1 (missing_template_panics (get_example "/") loadConfig
                    missing_template_world)).
    reflexivity.
  - split.
    + rewrite (proj1 (proj2 (missing_template_panics (get_example "/") loadConfig
                               (world_with_page silent_failure)))
                 silent_failure "write: broken pipe" eq_refl eq_refl eq_refl).
      reflexivity.
    + rewrite (proj2 (proj2 (missing_template_panics (get_example "/") loadConfig
                               (world_with_page late_failure)))
                 late_failure "write: broken pipe" eq_refl
                 ltac:(discriminate) eq_refl).
      reflexivity.
Defined.

(* ================================================================= *)
(** ** The table over a run of requests *)

Lemma drop_append (a b : string) : drop (String.length a) (a ++ b) = b.
Proof. induction a as [|x a IH]; cbn; [destruct b; reflexivity | exact IH]. Qed.

Lemma string_append_assoc (a b c : string) :
  ((a ++ b) ++ c = a ++ (b ++ c))%string.
Proof. induction a as [|x a IH]; cbn; [reflexivity | rewrite IH; reflexivity]. Qed.

Lemma returned_code_success (config : Config) (c : string) :
  returned_code config {| status := Some StatusOK; body := success_body config c |}
  = c.
Proof.
  unfold returned_code, success_body. cbn [body].
  rewrite <- string_append_assoc. apply drop_append.
Qed.

Lemma insert_attempts_app (a b : list Event) :
  insert_attempts (a ++ b) = insert_attempts a ++ insert_attempts b.
Proof.
  induction a as [|e a IH]; cbn; [reflexivity|].
  destruct e; cbn; rewrite IH; reflexivity.
Qed.

Lemma insert_attempts_loop (s : Source) (rs : list (Result bool)) :
  forall k, insert_attempts (loop_checks s k rs) = [].
Proof. induction rs as [|r rs IH]; intros k; cbn; auto. Qed.

(** The UNIQUE constraint: an INSERT never leaves two rows with one code. *)
Lemma insert_url_unique (c url : string) (d : DB) :
  NoDup (codes d) -> NoDup (codes (snd (insert_url c url d))).
Proof.
  unfold insert_url, codes.
  destruct (urls d) as [rows|] eqn:Hu; [|cbn; rewrite Hu; auto].
  destruct (stored c rows) eqn:Hs; cbn [snd urls]; [rewrite Hu; auto|].
  intros Hnd. rewrite map_app. cbn [map short_code].
  apply NoDup_app; [assumption | repeat constructor; intros [] |].
  intros x Hx [<-|[]]. apply not_stored in Hs. contradiction.
Qed.

Lemma insert_url_stored (c url : string) (d : DB) :
  In c (codes d) -> insert_url c url d = (Err UniqueViolation, d).
Proof.
  unfold insert_url, codes. destruct (urls d) as [rows|]; [|intros []].
  intros H. apply stored_In in H. rewrite H. reflexivity.
Qed.

(** The existence check: a request sends an INSERT only for a code its
    check found absent from the table. *)
Lemma insert_only_after_check (r : Request) (config : Config) (w : World)
    (c : string) :
  In c (insert_attempts
          (since w (snd (shortenHandler fresh_writer r config w)))) ->
  select_exists c (db w) = Ok false.
Proof.
  destruct (String.eqb (Method r) MethodPost) eqn:Hm.
  - apply String.eqb_eq in Hm.
    destruct (shortenHandler_post r config fresh_writer w Hm)
      as [rs [lastr [recheck H]]].
    destruct H as [_ _ _ _ _ _ Hexpired Htaken Hfree].
    destruct (collision recheck).
    + destruct (Htaken eq_refl) as [Ht _].
      rewrite (since_app _ _ _ Ht), insert_attempts_app, insert_attempts_loop.
      intros [].
    + destruct (Hfree eq_refl) as [res [Ht [Hsel _]]].
      rewrite (since_app _ _ _ Ht), insert_attempts_app, insert_attempts_loop.
      cbn. intros [<-|[]]. assumption.
  - unfold shortenHandler. rewrite Hm. cbn [negb ret snd].
    rewrite since_same by reflexivity. intros [].
Qed.

(** What a run of requests does to the table. *)
Lemma shorten_all_table (config : Config) (rs : list Request) :
  forall (w : World),
    codes (db (snd (shorten_all config rs w)))
    = codes (db w) ++ returned_codes config (fst (shorten_all config rs w))
    /\ row_count (db (snd (shorten_all config rs w)))
       = (row_count (db w)
          + List.length (filter succeeded (fst (shorten_all config rs w))))%nat
    /\ (forall rows, urls (db w) = Some rows ->
        exists more, urls (db (snd (shorten_all config rs w))) = Some (rows ++ more))
    /\ sqlite_sequence (db w) <= sqlite_sequence (db (snd (shorten_all config rs w))).
Proof.
  induction rs as [|r rs IH]; intros w.
  - cbn. unfold returned_codes. cbn. rewrite app_nil_r.
    repeat split; try lia. intros rows H. exists []. rewrite app_nil_r. assumption.
  - cbn [shorten_all]. rewrite !bind_eq. cbn [ret fst snd].
    pose proof (shortenHandler_result r config w) as H1.
    set (rw1 := fst (shortenHandler fresh_writer r config w)) in *.
    set (w1 := snd (shortenHandler fresh_writer r config w)) in *.
    destruct (IH w1) as [Hc [Hn [Hp Hs]]].
    unfold returned_codes in *. cbn [filter].
    destruct H1 as [Hno Hdb | k rows Hk Hu Hst Hdb Hrw Hclk].
    + rewrite Hno, Hc, Hn, Hdb. repeat split; try reflexivity.
      * intros rows Hrows. apply Hp. rewrite Hdb. assumption.
      * rewrite <- Hdb. assumption.
    + assert (Hok : succeeded rw1 = true) by (rewrite Hrw; reflexivity).
      rewrite Hok, Hc, Hn. cbn [map List.length].
      rewrite Hrw at 1. rewrite returned_code_success.
      unfold codes, row_count. rewrite Hdb, Hu. cbn [urls].
      rewrite map_app, length_app, <- app_assoc. cbn [map short_code new_row app List.length].
      repeat split; try lia.
      * intros rows0 Hrows0. inversion Hrows0; subst rows0.
        destruct (Hp (rows ++ [new_row (sqlite_sequence (db w) + 1)
                                 (candidate (global_rand w) k)
                                 (FormValue r "long_url")])) as [more Hmore].
        { rewrite Hdb. reflexivity. }
        exists ([new_row (sqlite_sequence (db w) + 1)
                   (candidate (global_rand w) k) (FormValue r "long_url")] ++ more).
        rewrite Hmore, <- app_assoc. reflexivity.
      * rewrite Hdb in Hs. cbn [sqlite_sequence] in Hs. lia.
Qed.

Lemma shorten_all_unique (config : Config) (rs : list Request) :
  forall (w : World),
    NoDup (codes (db w)) ->
    NoDup (codes (db (snd (shorten_all config rs w)))).
Proof.
  induction rs as [|r rs IH]; intros w Hnd; [exact Hnd|].
  cbn [shorten_all]. rewrite !bind_eq. cbn [ret fst snd].
  apply IH.
  destruct (shortenHandler_result r config w) as [_ Hdb | k rows _ Hu Hst Hdb _ _].
  - rewrite Hdb. assumption.
  - unfold codes in *. rewrite Hdb. rewrite Hu in Hnd. cbn [urls].
    rewrite map_app. cbn [map short_code new_row].
    apply NoDup_app; [assumption | repeat constructor; intros [] |].
    intros x Hx [<-|[]]. apply not_stored in Hst. contradiction.
Qed.

(* ================================================================= *)
(** ** Uniqueness *)

Lemma NoDup_app_right {A} (l1 l2 : list A) : NoDup (l1 ++ l2) -> NoDup l2.
Proof.
  induction l1 as [|a l1 IH]; cbn; [auto|]. intros H. inversion H; auto.
Qed.

(** C2: after any run of shorten requests from a table without duplicate
    codes, the codes returned by the [N] successful ones are pairwise
    distinct, they are the codes of the [N] rows the run added (so a table
    that was empty holds exactly [N] rows), and no code is stored twice.
    Both guards are there: an INSERT never leaves a duplicate whatever code
    it is given and is rejected for a stored code (the UNIQUE constraint),
    and a request only sends an INSERT for a code its existence check found
    absent. *)
Theorem short_codes_unique :
  forall (config : Config) (rs : list Request) (w : World)
         (rws : list ResponseWriter) (w' : World),
    shorten_all config rs w = (rws, w') ->
    NoDup (codes (db w)) ->
    NoDup (returned_codes config rws)
    /\ List.length (returned_codes config rws) = List.length (filter succeeded rws)
    /\ codes (db w') = codes (db w) ++ returned_codes config rws
    /\ row_count (db w')
       = (row_count (db w) + List.length (filter succeeded rws))%nat
    /\ (row_count (db w) = 0%nat ->
        row_count (db w') = List.length (filter succeeded rws))
    /\ NoDup (codes (db w'))
    /\ (forall c url d, NoDup (codes d) -> NoDup (codes (snd (insert_url c url d))))
    /\ (forall c url d,
          In c (codes d) -> insert_url c url d = (Err UniqueViolation, d))
    /\ (forall r w0 c,
          In c (insert_attempts
                  (since w0 (snd (shortenHandler fresh_writer r config w0)))) ->
          select_exists c (db w0) = Ok false).
Proof.
  intros config rs w rws w' Hrun Hnd.
  destruct (shorten_all_table config rs w) as [Hc [Hn _]].
  pose proof (shorten_all_unique config rs w Hnd) as Hu.
  rewrite Hrun in Hc, Hn, Hu. cbn [fst snd] in Hc, Hn, Hu.
  split; [rewrite Hc in Hu; exact (NoDup_app_right _ _ Hu)|].
  split; [unfold returned_codes; apply length_map|].
  split; [exact Hc|]. split; [exact Hn|].
  split; [intros H0; rewrite Hn, H0; reflexivity|]. split; [exact Hu|].
  split; [exact insert_url_unique|]. split; [exact insert_url_stored|].
  intros r w0 c. apply insert_only_after_check.
Qed.

Lemma short_codes_unique_witness :
  NoDup (codes (db quiet_world))
  /\ returned_codes loadConfig
       (fst (shorten_all loadConfig
               [post_example; get_example "/shorten"; post_example] quiet_world))
     = ["abcdef"; "ghijkl"]
  /\ NoDup (returned_codes loadConfig
       (fst (shorten_all loadConfig
               [post_example; get_example "/shorten"; post_example] quiet_world)))
  /\ row_count (db (snd (shorten_all loadConfig
               [post_example; get_example "/shorten"; post_example] quiet_world)))
     = 2%nat.
Proof.
  assert (Hnd : NoDup (codes (db quiet_world))) by constructor.
  split; [exact Hnd|]. split; [vm_compute; reflexivity|].
  pose proof (short_codes_unique loadConfig
                [post_example; get_example "/shorten"; post_example] quiet_world
                _ _ (surjective_pairing _) Hnd) as H.
  destruct H as [H1 [_ [_ [H4 _]]]].
  split; [exact H1|]. rewrite H4. vm_compute. reflexivity.
Defined.

(** C8: two successful shorten calls with the same long URL, with any other
    shorten requests between them, leave two rows in the table that carry
    that URL, have different ids and carry the two different codes
    returned. *)
Theorem same_url_two_rows :
  forall (config : Config) (r1 r2 : Request) (between : list Request)
         (w w1 wm w2 : World) (rw1 rw2 : ResponseWriter)
         (rws : list ResponseWriter),
    shortenHandler fresh_writer r1 config w = (rw1, w1) ->
    shorten_all config between w1 = (rws, wm) ->
    shortenHandler fresh_writer r2 config wm = (rw2, w2) ->
    FormValue r1 "long_url" = FormValue r2 "long_url" ->
    succeeded rw1 = true ->
    succeeded rw2 = true ->
    exists (row1 row2 : Row) (rows : list Row),
      urls (db w2) = Some rows
      /\ In row1 rows /\ In row2 rows
      /\ long_url row1 = FormValue r1 "long_url"
      /\ long_url row2 = FormValue r1 "long_url"
      /\ short_code row1 <> short_code row2
      /\ id row1 <> id row2
      /\ body rw1 = success_body config (short_code row1)
      /\ body rw2 = success_body config (short_code row2).
Proof.
  intros config r1 r2 between w w1 wm w2 rw1 rw2 rws H1 Hb H2 Hurl Hok1 Hok2.
  pose proof (shortenHandler_result r1 config w) as R1.
  rewrite H1 in R1. cbn [fst snd] in R1.
  destruct R1 as [Hno _ | k1 rows1 _ Hu1 Hst1 Hdb1 Hrw1 _]; [congruence|].
  destruct (shorten_all_table config between w1) as [_ [_ [Hgrow Hseq]]].
  rewrite Hb in Hgrow, Hseq. cbn [fst snd] in Hgrow, Hseq.
  destruct (Hgrow _ (f_equal urls Hdb1)) as [more Hm].
  rewrite Hdb1 in Hseq. cbn [sqlite_sequence] in Hseq.
  pose proof (shortenHandler_result r2 config wm) as R2.
  rewrite H2 in R2. cbn [fst snd] in R2.
  destruct R2 as [Hno _ | k2 rows2 _ Hu2 Hst2 Hdb2 Hrw2 _]; [congruence|].
  rewrite Hm in Hu2. inversion Hu2; subst rows2. clear Hu2.
  set (c1 := candidate (global_rand w) k1) in *.
  set (c2 := candidate (global_rand wm) k2) in *.
  exists (new_row (sqlite_sequence (db w) + 1) c1 (FormValue r1 "long_url")),
         (new_row (sqlite_sequence (db wm) + 1) c2 (FormValue r2 "long_url")).
  eexists. rewrite Hdb2. cbn [urls]. split; [reflexivity|].
  cbn [long_url short_code id new_row].
  split; [apply in_or_app; left; apply in_or_app; left; apply in_or_app; right;
          left; reflexivity|].
  split; [apply in_or_app; right; left; reflexivity|].
  split; [reflexivity|]. split; [symmetry; assumption|].
  split.
  - intros Heq. apply not_stored in Hst2. apply Hst2.
    rewrite !map_app. apply in_or_app. left. apply in_or_app. right.
    left. cbn. assumption.
  - split; [lia|]. rewrite Hrw1, Hrw2. split; reflexivity.
Qed.

Lemma same_url_two_rows_witness :
  FormValue post_example "long_url" = FormValue post_example "long_url"
  /\ succeeded (fst (shortenHandler fresh_writer post_example loadConfig quiet_world)) = true
  /\ codes (db (snd (shorten_all loadConfig [post_example; post_example] quiet_world)))
     = ["abcdef"; "ghijkl"]
  /\ exists (row1 row2 : Row) (rows : list Row),
      urls (db (snd (shortenHandler fresh_writer post_example loadConfig
                       (snd (shortenHandler fresh_writer post_example loadConfig
                               quiet_world))))) = Some rows
      /\ In row1 rows /\ In row2 rows
      /\ long_url row1 = "http://example.com"
      /\ long_url row2 = "http://example.com"
      /\ short_code row1 <> short_code row2.
Proof.
  split; [reflexivity|]. split; [vm_compute; reflexivity|].
  split; [vm_compute; reflexivity|].
  destruct (same_url_two_rows loadConfig post_example post_example []
              quiet_world _ _ _ _ _ _
              (surjective_pairing _) eq_refl (surjective_pairing _) eq_refl)
    as [row1 [row2 [rows [Hu [Hi1 [Hi2 [Hl1 [Hl2 [Hne _]]]]]]]]].
  - vm_compute. reflexivity.
  - vm_compute. reflexivity.
  - exists row1, row2, rows. repeat split; assumption.
Defined.

(* ================================================================= *)
(** ** The check after the loop *)

Lemma checks_app (a b : list Event) : checks (a ++ b) = checks a ++ checks b.
Proof.
  induction a as [|e a IH]; cbn; [reflexivity|].
  destruct e; cbn; rewrite IH; reflexivity.
Qed.

Lemma loop_checks_app (s : Source) (a b : list (Result bool)) :
  forall k, loop_checks s k (a ++ b)
            = loop_checks s k a ++ loop_checks s (k + List.length a) b.
Proof.
  induction a as [|r a IH]; intros k; cbn [app loop_checks List.length].
  - rewrite Nat.add_0_r. reflexivity.
  - rewrite IH. do 3 f_equal. lia.
Qed.

Lemma checks_loop_collisions (s : Source) (rs : list (Result bool)) :
  forallb collision rs = true ->
  forall k, checks (loop_checks s k rs)
            = map (fun i => (candidate s i, true)) (List.seq k (List.length rs)).
Proof.
  induction rs as [|r rs IH]; intros H k; cbn; [reflexivity|].
  cbn in H. apply andb_prop in H. destruct H as [Hr Hrs].
  rewrite Hr, (IH Hrs). reflexivity.
Qed.

(** The checks of a POST request, from the results of its queries. *)
Lemma checks_of_run (s : Source) (rs : list (Result bool))
    (lastr recheck : Result bool) (tail : list Event) :
  forallb collision rs = true ->
  checks (loop_checks s 0 (rs ++ [lastr])
          ++ Checked (candidate s (List.length rs)) recheck :: tail)
  = map (fun i => (candidate s i, true)) (List.seq 0 (List.length rs))
    ++ [(candidate s (List.length rs), collision lastr);
        (candidate s (List.length rs), collision recheck)]
    ++ checks tail.
Proof.
  intros H. rewrite checks_app, loop_checks_app, checks_app.
  rewrite (checks_loop_collisions s rs H). cbn. rewrite <- app_assoc.
  reflexivity.
Qed.

Lemma logged_app (w w' : World) (l : list string) :
  logs w' = logs w ++ l -> logged w w' = l.
Proof.
  intros H. unfold logged. rewrite H, skipn_app, skipn_all, Nat.sub_diag.
  reflexivity.
Qed.

Lemma exhausted_not_read_log (rs : list (Result bool)) :
  ~ In exhausted_msg (read_logs rs).
Proof.
  unfold read_logs. rewrite in_flat_map. intros [r [_ H]].
  destruct r as [b|e]; cbn in H; [contradiction|].
  destruct H as [H|[]]. discriminate H.
Qed.

Lemma nth_error_after_seq {A} (f : nat -> A) (j n : nat) (tl : list A) :
  nth_error (map f (List.seq 0 j) ++ tl) (j + n) = nth_error tl n.
Proof.
  rewrite nth_error_app2; rewrite length_map, length_seq; [|lia].
  f_equal. lia.
Qed.

(** C9: a POST request makes one existence check per generated candidate
    (at most ten, all but the last of them collisions) and then one more
    check on the last candidate.  Allocation failure is reported exactly
    when that extra check answers "exists"; otherwise the INSERT of that
    candidate, checked twice by then, is sent.  After a full loop the
    extra check is the eleventh query.  The answer of the loop's own last
    check does not decide: in [flaky_world] all ten checks of the loop
    report a collision and the request succeeds, in [hiccup_world] the
    first check finds the code free and the request reports failure. *)
Theorem recheck_decides :
  (forall (r : Request) (config : Config) (w : World)
          (rw' : ResponseWriter) (w' : World),
      Method r = MethodPost ->
      shortenHandler fresh_writer r config w = (rw', w') ->
      exists (j : nat) (b0 b : bool),
        (j < 10)%nat
        /\ checks (since w w')
           = map (fun i => (candidate (global_rand w) i, true)) (List.seq 0 j)
             ++ [(candidate (global_rand w) j, b0);
                 (candidate (global_rand w) j, b)]
        /\ ((j < 9)%nat -> b0 = false)
        /\ global_rand w' = advance (6 * S j) (global_rand w)
        /\ (In exhausted_msg (logged w w') <-> b = true)
        /\ (b = true ->
            rw' = server_error
            /\ insert_attempts (since w w') = [] /\ db w' = db w)
        /\ (b = false ->
            insert_attempts (since w w') = [candidate (global_rand w) j])
        /\ (j = 9%nat ->
            nth_error (checks (since w w')) 10
            = Some (candidate (global_rand w) 9, b)))
  /\ (let (rw', w') :=
        shortenHandler fresh_writer post_example loadConfig flaky_world in
      map snd (checks (since flaky_world w')) = repeat true 10 ++ [false]
      /\ succeeded rw' = true)
  /\ (let (rw', w') :=
        shortenHandler fresh_writer post_example loadConfig hiccup_world in
      map snd (checks (since hiccup_world w')) = [false; true]
      /\ rw' = server_error
      /\ In exhausted_msg (logged hiccup_world w')).
Proof.
  split; [|split; vm_compute; repeat split; auto].
  intros r config w rw' w' Hm Hrun.
  destruct (shortenHandler_post r config fresh_writer w Hm)
    as [rs [lastr [recheck H]]].
  rewrite Hrun in H. cbn [fst snd] in H.
  destruct H as [He Hc Hs Hrand _ _ _ Htaken Hfree].
  exists (List.length rs), (collision lastr), (collision recheck).
  split; [assumption|].
  destruct (collision recheck) eqn:Hr.
  - destruct (Htaken eq_refl) as [Ht [Hrw [Hdb Hlogs]]].
    assert (Hck : checks (since w w')
                  = map (fun i => (candidate (global_rand w) i, true))
                        (List.seq 0 (List.length rs))
                    ++ [(candidate (global_rand w) (List.length rs), collision lastr);
                        (candidate (global_rand w) (List.length rs), true)]).
    { rewrite (since_app _ _ _ Ht), (checks_of_run _ _ _ _ [] He), Hr.
      cbn [checks]. rewrite app_nil_r. reflexivity. }
    split; [exact Hck|]. split; [intros; apply Hs; lia|].
    split; [assumption|]. split.
    { split; [reflexivity|]. intros _. rewrite (logged_app _ _ _ Hlogs).
      apply in_or_app. right. left. reflexivity. }
    split.
    { intros _. split; [assumption|]. split; [|assumption].
      rewrite (since_app _ _ _ Ht), insert_attempts_app, insert_attempts_loop.
      reflexivity. }
    split; [discriminate|].
    intros Hj. rewrite Hck, Hj.
    exact (nth_error_after_seq _ 9 1 _).
  - destruct (Hfree eq_refl) as [res [Ht [_ Hres]]].
    assert (Hck : checks (since w w')
                  = map (fun i => (candidate (global_rand w) i, true))
                        (List.seq 0 (List.length rs))
                    ++ [(candidate (global_rand w) (List.length rs), collision lastr);
                        (candidate (global_rand w) (List.length rs), false)]).
    { rewrite (since_app _ _ _ Ht), (checks_of_run _ _ _ _ _ He), Hr.
      cbn [checks]. rewrite app_nil_r. reflexivity. }
    split; [exact Hck|]. split; [intros; apply Hs; lia|].
    split; [assumption|]. split.
    { split; [|discriminate]. intros Hin. exfalso.
      destruct res as [i|e].
      - destruct Hres as [_ [_ [_ Hlogs]]].
        rewrite (logged_app _ _ _ Hlogs) in Hin.
        exact (exhausted_not_read_log _ Hin).
      - destruct Hres as [_ [_ Hlogs]].
        rewrite (logged_app _ _ _ Hlogs) in Hin.
        apply in_app_or in Hin. destruct Hin as [Hin|[Hin|[]]].
        + exact (exhausted_not_read_log _ Hin).
        + destruct e; discriminate Hin. }
    split; [discriminate|].
    split.
    { intros _. rewrite (since_app _ _ _ Ht), insert_attempts_app,
        insert_attempts_loop. reflexivity. }
    intros Hj. rewrite Hck, Hj.
    exact (nth_error_after_seq _ 9 1 _).
Qed.

(* ================================================================= *)
(** ** Ten attempts *)

Lemma recheck_decides_witness :
  Method post_example = MethodPost
  /\ exists (j : nat) (b0 b : bool),
       (j < 10)%nat
       /\ checks (since crowded_world
                    (snd (shortenHandler fresh_writer post_example loadConfig
                            crowded_world)))
          = map (fun i => (candidate (global_rand crowded_world) i, true))
                (List.seq 0 j)
            ++ [(candidate (global_rand crowded_world) j, b0);
                (candidate (global_rand crowded_world) j, b)]
       /\ (In exhausted_msg
             (logged crowded_world
                (snd (shortenHandler fresh_writer post_example loadConfig
                        crowded_world))) <-> b = true).
Proof.
  split; [reflexivity|].
  destruct (proj1 recheck_decides post_example loadConfig crowded_world _ _
              eq_refl (surjective_pairing _))
    as [j [b0 [b [H1 [H2 [_ [_ [H5 _]]]]]]]].
  exists j, b0, b. split; [exact H1|]. split; [exact H2 | exact H5].
Defined.

Lemma insert_rejected_loop (s : Source) (rs : list (Result bool)) :
  forall k, existsb insert_rejected (loop_checks s k rs) = false.
Proof. induction rs as [|r rs IH]; intros k; cbn; auto. Qed.

Lemma repeat_snoc {A} (x : A) (n : nat) : repeat x (S n) = repeat x n ++ [x].
Proof. induction n as [|n IH]; cbn in *; [reflexivity | rewrite <- IH; reflexivity]. Qed.

Lemma map_collision_true (rs : list (Result bool)) (n : nat) :
  map collision rs = repeat true n -> List.length rs = n.
Proof.
  intros H. apply (f_equal (@List.length bool)) in H.
  rewrite length_map, repeat_length in H. exact H.
Qed.

(** The reports of the checks of a POST request. *)
Lemma reports_of_run (s : Source) (rs : list (Result bool))
    (lastr recheck : Result bool) (tail : list Event) :
  checks tail = [] ->
  map snd (checks (loop_checks s 0 (rs ++ [lastr])
                   ++ Checked (candidate s (List.length rs)) recheck :: tail))
  = (map collision rs ++ [collision lastr]) ++ [collision recheck].
Proof.
  intros Htail. rewrite checks_app. cbn [checks]. rewrite Htail, map_app.
  cbn [map snd]. f_equal.
  assert (G : forall l k, map snd (checks (loop_checks s k l)) = map collision l).
  { induction l as [|x l IH]; intros k; cbn; [reflexivity | rewrite IH; reflexivity]. }
  rewrite G, map_app. reflexivity.
Qed.

(** C1, as the code has it: when the checks of the loop report a collision
    for the first nine candidates and none for the tenth, and the check
    made again after the loop reports none either and no INSERT is
    rejected, the request succeeds and the row of the tenth candidate is
    added; when the ten checks of the loop and the check made after it all
    report a collision, the response is the server error and no INSERT is
    sent. *)
Theorem ten_attempts_then_recheck :
  forall (r : Request) (config : Config) (w : World)
         (rw' : ResponseWriter) (w' : World),
    Method r = MethodPost ->
    shortenHandler fresh_writer r config w = (rw', w') ->
    (map snd (checks (since w w')) = repeat true 9 ++ [false; false] ->
     existsb insert_rejected (since w w') = false ->
     rw' = {| status := Some StatusOK;
              body := success_body config (candidate (global_rand w) 9) |}
     /\ insert_attempts (since w w') = [candidate (global_rand w) 9]
     /\ exists rows,
          urls (db w) = Some rows
          /\ urls (db w')
             = Some (rows ++ [new_row (sqlite_sequence (db w) + 1)
                                (candidate (global_rand w) 9)
                                (FormValue r "long_url")]))
    /\ (map snd (checks (since w w')) = repeat true 11 ->
        rw' = server_error
        /\ insert_attempts (since w w') = []
        /\ db w' = db w).
Proof.
  intros r config w rw' w' Hm Hrun.
  destruct (shortenHandler_post r config fresh_writer w Hm)
    as [rs [lastr [recheck H]]].
  rewrite Hrun in H. cbn [fst snd] in H.
  destruct H as [He Hc Hs Hrand _ _ _ Htaken Hfree].
  destruct (collision recheck) eqn:Hr.
  - destruct (Htaken eq_refl) as [Ht [Hrw [Hdb _]]].
    assert (Hrep : map snd (checks (since w w'))
                   = (map collision rs ++ [collision lastr]) ++ [true]).
    { rewrite (since_app _ _ _ Ht), <- Hr. apply reports_of_run. reflexivity. }
    split.
    + intros Hnine _. exfalso. rewrite Hrep in Hnine.
      change (repeat true 9 ++ [false; false])
        with ((repeat true 9 ++ [false]) ++ [false]) in Hnine.
      apply app_inj_tail in Hnine. destruct Hnine as [_ Hx]. discriminate Hx.
    + intros _. split; [assumption|]. split; [|assumption].
      rewrite (since_app _ _ _ Ht), insert_attempts_app, insert_attempts_loop.
      reflexivity.
  - destruct (Hfree eq_refl) as [res [Ht [_ Hres]]].
    assert (Hrep : map snd (checks (since w w'))
                   = (map collision rs ++ [collision lastr]) ++ [false]).
    { rewrite (since_app _ _ _ Ht), <- Hr. apply reports_of_run. reflexivity. }
    split.
    + intros Hnine Hacc. rewrite Hrep in Hnine.
      change (repeat true 9 ++ [false; false])
        with ((repeat true 9 ++ [false]) ++ [false]) in Hnine.
      apply app_inj_tail in Hnine. destruct Hnine as [Hnine _].
      apply app_inj_tail in Hnine. destruct Hnine as [Hnine _].
      apply map_collision_true in Hnine. rewrite Hnine in *.
      assert (Hia : insert_attempts (since w w') = [candidate (global_rand w) 9]).
      { rewrite (since_app _ _ _ Ht), insert_attempts_app, insert_attempts_loop.
        reflexivity. }
      destruct res as [i|e].
      * destruct Hres as [Hins [Hrw _]].
        apply insert_url_ok in Hins. destruct Hins as [rows [Hu [_ [Hi Hd]]]].
        subst i. split; [assumption|]. split; [assumption|].
        exists rows. split; [assumption|]. rewrite Hd. reflexivity.
      * exfalso. rewrite (since_app _ _ _ Ht), existsb_app, insert_rejected_loop in Hacc.
        cbn in Hacc. discriminate Hacc.
    + intros Hall. exfalso. rewrite Hrep in Hall.
      rewrite (repeat_snoc true 10) in Hall.
      apply app_inj_tail in Hall. destruct Hall as [_ Hx]. discriminate Hx.
Qed.

Lemma ten_attempts_then_recheck_witness :
  Method post_example = MethodPost
  /\ map snd (checks (since crowded_world
                        (snd (shortenHandler fresh_writer post_example loadConfig
                                crowded_world))))
     = repeat true 9 ++ [false; false]
  /\ existsb insert_rejected
       (since crowded_world
          (snd (shortenHandler fresh_writer post_example loadConfig crowded_world)))
     = false
  /\ fst (shortenHandler fresh_writer post_example loadConfig crowded_world)
     = {| status := Some StatusOK;
          body := success_body loadConfig (candidate (global_rand crowded_world) 9) |}
  /\ map snd (checks (since full_world
                        (snd (shortenHandler fresh_writer post_example loadConfig
                                full_world))))
     = repeat true 11
  /\ fst (shortenHandler fresh_writer post_example loadConfig full_world)
     = server_error.
Proof.
  assert (H1 : map snd (checks (since crowded_world
                 (snd (shortenHandler fresh_writer post_example loadConfig
                         crowded_world))))
               = repeat true 9 ++ [false; false]) by (vm_compute; reflexivity).
  assert (H2 : existsb insert_rejected
                 (since crowded_world
                    (snd (shortenHandler fresh_writer post_example loadConfig
                            crowded_world))) = false) by (vm_compute; reflexivity).
  assert (H3 : map snd (checks (since full_world
                 (snd (shortenHandler fresh_writer post_example loadConfig
                         full_world))))
               = repeat true 11) by (vm_compute; reflexivity).
  split; [reflexivity|]. split; [exact H1|]. split; [exact H2|].
  split.
  - exact (proj1 (proj1 (ten_attempts_then_recheck post_example loadConfig
                           crowded_world _ _ eq_refl (surjective_pairing _))
                    H1 H2)).
  - split; [exact H3|].
    exact (proj1 (proj2 (ten_attempts_then_recheck post_example loadConfig
                           full_world _ _ eq_refl (surjective_pairing _))
                    H3)).
Defined.

(** C1 as stated fails on three inputs.  In [flaky_world] the ten checks of
    the loop all report a collision (the tenth because its read failed) and
    the request still succeeds and inserts.  In [slow_world] and in
    [rejecting_world] the first nine checks report a collision and the
    tenth reports none, and the request still ends in the server error
    without a new row: the deadline passes during the check made again
    after the loop, or the INSERT is rejected. *)
Lemma loop_outcome_does_not_decide :
  (let (rw', w') :=
     shortenHandler fresh_writer post_example loadConfig flaky_world in
   map snd (firstn 10 (checks (since flaky_world w'))) = repeat true 10
   /\ rw' = {| status := Some StatusOK;
               body := "Short URL: http://short.url/234567" |}
   /\ insert_attempts (since flaky_world w') = ["234567"]
   /\ codes (db w') = codes (db flaky_world) ++ ["234567"])
  /\ (let (rw', w') :=
        shortenHandler fresh_writer post_example loadConfig slow_world in
      map snd (firstn 10 (checks (since slow_world w')))
      = repeat true 9 ++ [false]
      /\ rw' = server_error
      /\ db w' = db slow_world)
  /\ (let (rw', w') :=
        shortenHandler fresh_writer post_example loadConfig rejecting_world in
      map snd (firstn 10 (checks (since rejecting_world w')))
      = repeat true 9 ++ [false]
      /\ rw' = server_error
      /\ db w' = db rejecting_world).
Proof. vm_compute. repeat split. Qed.

(* ================================================================= *)
(** ** Failed reads *)

(** Where the INSERT sits among the events of a request. *)
Lemma insert_is_last (s : Source) (rs : list (Result bool)) :
  forall (k : nat) (xc : string) (xr : Result bool) (c0 u0 : string)
         (r0 : Result Z) (pre post : list Event) (c u : string) (r : Result Z),
    loop_checks s k rs ++ [Checked xc xr; InsertTried c0 u0 r0]
    = pre ++ InsertTried c u r :: post ->
    pre = loop_checks s k rs ++ [Checked xc xr] /\ c = c0 /\ post = [].
Proof.
  induction rs as [|x rs IH]; intros k xc xr c0 u0 r0 pre post c u r H;
    cbn [loop_checks app] in *.
  - destruct pre as [|p pre]; [discriminate H|].
    cbn [app] in H. inversion H as [[Hp Hrest]]. clear H.
    destruct pre as [|q pre].
    + cbn [app] in Hrest. inversion Hrest. auto.
    + cbn [app] in Hrest. inversion Hrest as [[Hq Hnil]].
      destruct pre; discriminate Hnil.
  - destruct pre as [|p pre]; [discriminate H|].
    cbn [app] in H. inversion H as [[Hp Hrest]]. clear H.
    destruct (IH _ _ _ _ _ _ _ _ _ _ _ Hrest) as [-> [-> ->]]. auto.
Qed.

Lemma no_insert_among_checks (s : Source) (rs : list (Result bool)) (k : nat)
    (xc : string) (xr : Result bool) (pre post : list Event) (c u : string)
    (r : Result Z) :
  loop_checks s k rs ++ [Checked xc xr] <> pre ++ InsertTried c u r :: post.
Proof.
  intros H. apply (f_equal insert_attempts) in H.
  rewrite !insert_attempts_app, insert_attempts_loop in H. cbn in H.
  destruct (insert_attempts pre); discriminate H.
Qed.

Lemma failed_read_answer (ctx : Ctx) (c : string) (w : World) (e : Error) :
  fst (QueryRowContext_exists ctx c w) = Err e ->
  fst (shortCodeExists ctx c w) = true.
Proof.
  intros H. unfold shortCodeExists. rewrite bind_eq, H, bind_eq. reflexivity.
Qed.

(** C6, as the code has it: a failed read makes [shortCodeExists] answer
    "exists" and leaves the table alone; in an iteration of the loop that
    is not the last, the loop then runs its next iteration, which starts by
    generating another candidate; and an INSERT is only ever sent right
    after an existence check whose read succeeded and found no row, as the
    last statement of the request. *)
Theorem failed_read_assumes_collision :
  (forall (ctx : Ctx) (c : string) (w : World) (e : Error),
      fst (QueryRowContext_exists ctx c w) = Err e ->
      fst (shortCodeExists ctx c w) = true
      /\ db (snd (shortCodeExists ctx c w)) = db w)
  /\ (forall (n : nat) (ctx : Ctx) (c0 : string) (w : World) (e : Error),
        fst (QueryRowContext_exists ctx (fst (generateShortCode 6 w))
               (snd (generateShortCode 6 w))) = Err e ->
        allocate (S (S n)) ctx c0 w
        = (shortCode <- generateShortCode 6 ;;
           taken <- shortCodeExists ctx shortCode ;;
           if negb taken then ret shortCode else allocate n ctx shortCode)
            (snd (shortCodeExists ctx (fst (generateShortCode 6 w))
                    (snd (generateShortCode 6 w)))))
  /\ (forall (r : Request) (config : Config) (w : World)
             (rw' : ResponseWriter) (w' : World)
             (pre post : list Event) (c url : string) (res : Result Z),
        shortenHandler fresh_writer r config w = (rw', w') ->
        since w w' = pre ++ InsertTried c url res :: post ->
        post = [] /\ exists pre', pre = pre' ++ [Checked c (Ok false)]).
Proof.
  split; [|split].
  - intros ctx c w e H. split; [exact (failed_read_answer ctx c w e H)|].
    destruct (shortCodeExists_post ctx c w) as [r Hr]. exact (cp_db _ _ _ _ _ _ Hr).
  - intros n ctx c0 w e H.
    change (allocate (S (S n)) ctx c0 w)
      with ((shortCode <- generateShortCode 6 ;;
             taken <- shortCodeExists ctx shortCode ;;
             if negb taken then ret shortCode
             else allocate (S n) ctx shortCode) w).
    rewrite bind_eq, bind_eq, (failed_read_answer _ _ _ _ H).
    reflexivity.
  - intros r config w rw' w' pre post c url res Hrun Hev.
    destruct (String.eqb (Method r) MethodPost) eqn:Hm.
    + apply String.eqb_eq in Hm.
      destruct (shortenHandler_post r config fresh_writer w Hm)
        as [rs [lastr [recheck H]]].
      rewrite Hrun in H. cbn [fst snd] in H.
      destruct H as [_ _ _ _ _ _ Hexpired Htaken Hfree].
      destruct recheck as [[|]|e]; cbn [collision] in *.
      * destruct (Htaken eq_refl) as [Ht _].
        rewrite (since_app _ _ _ Ht) in Hev.
        exfalso. exact (no_insert_among_checks _ _ _ _ _ _ _ _ _ _ Hev).
      * destruct (Hfree eq_refl) as [res0 [Ht _]].
        rewrite (since_app _ _ _ Ht) in Hev.
        apply insert_is_last in Hev. destruct Hev as [-> [-> ->]].
        split; [reflexivity|]. eexists. reflexivity.
      * destruct (Htaken eq_refl) as [Ht _].
        rewrite (since_app _ _ _ Ht) in Hev.
        exfalso. exact (no_insert_among_checks _ _ _ _ _ _ _ _ _ _ Hev).
    + unfold shortenHandler in Hrun. rewrite Hm in Hrun. cbn [negb ret] in Hrun.
      inversion Hrun; subst. rewrite since_same in Hev by reflexivity.
      destruct pre; discriminate Hev.
Qed.

Lemma failed_read_assumes_collision_witness :
  fst (QueryRowContext_exists Background "abcdef" locked_world) = Err DriverFault
  /\ fst (shortCodeExists Background "abcdef" locked_world) = true
  /\ db (snd (shortCodeExists Background "abcdef" locked_world)) = db locked_world
  /\ allocate 10 Background "" locked_world
     = allocate 9 Background "abcdef"
         (snd (shortCodeExists Background "abcdef"
                 (snd (generateShortCode 6 locked_world))))
  /\ since crowded_world
       (snd (shortenHandler fresh_writer post_example loadConfig crowded_world))
     = (loop_checks counting 0 (repeat (Ok true) 9 ++ [Ok false])
        ++ [Checked "234567" (Ok false)])
       ++ InsertTried "234567" "http://example.com" (Ok 10) :: []
  /\ exists pre',
       loop_checks counting 0 (repeat (Ok true) 9 ++ [Ok false])
       ++ [Checked "234567" (Ok false)]
       = pre' ++ [Checked "234567" (Ok false)].
Proof.
  assert (H1 : fst (QueryRowContext_exists Background "abcdef" locked_world)
               = Err DriverFault) by (vm_compute; reflexivity).
  assert (H2 : since crowded_world
                 (snd (shortenHandler fresh_writer post_example loadConfig
                         crowded_world))
               = (loop_checks counting 0 (repeat (Ok true) 9 ++ [Ok false])
                  ++ [Checked "234567" (Ok false)])
                 ++ InsertTried "234567" "http://example.com" (Ok 10) :: [])
    by (vm_compute; reflexivity).
  assert (H0 : fst (QueryRowContext_exists Background
                      (fst (generateShortCode 6 locked_world))
                      (snd (generateShortCode 6 locked_world)))
               = Err DriverFault) by (vm_compute; reflexivity).
  split; [exact H1|].
  split; [exact (proj1 (proj1 failed_read_assumes_collision _ _ _ _ H1))|].
  split; [exact (proj2 (proj1 failed_read_assumes_collision _ _ _ _ H1))|].
  split; [exact (proj1 (proj2 failed_read_assumes_collision) 8%nat Background ""
                   locked_world DriverFault H0)|].
  split; [exact H2|].
  exact (proj2 (proj2 (proj2 failed_read_assumes_collision) post_example loadConfig
                  crowded_world _ _ _ _ _ _ _ (surjective_pairing _) H2)).
Defined.

(** C6 as stated fails in [locked_world]: the read of the check of the
    tenth candidate, [234567], fails; no further candidate is generated
    (ten codes, sixty draws, were taken from the source); the candidate is
    checked once more and inserted. *)
Lemma failed_tenth_read_then_inserted :
  let (rw', w') :=
    shortenHandler fresh_writer post_example loadConfig locked_world in
  candidate (global_rand locked_world) 9 = "234567"
  /\ skipn 9 (since locked_world w')
     = [Checked "234567" (Err DriverFault);
        Checked "234567" (Ok false);
        InsertTried "234567" "http://example.com" (Ok 1)]
  /\ pos (global_rand w') = 60%nat
  /\ codes (db w') = ["234567"]
  /\ succeeded rw' = true.
Proof. vm_compute. repeat split. Qed.

(* ================================================================= *)
(** ** Requests in flight *)

Lemma shortenHandler_conclude (r : Request) (config : Config) (w : World) :
  Method r = MethodPost ->
  shortenHandler fresh_writer r config w
  = (now <- time_Now ;;
     shortCode <- allocate 10 (WithTimeout (req_ctx r) (5 * Second) now) "" ;;
     conclude r config (WithTimeout (req_ctx r) (5 * Second) now) shortCode) w.
Proof.
  intros Hm. unfold shortenHandler. rewrite Hm, String.eqb_refl. reflexivity.
Qed.

Lemma drive_S (config : Config) (fuel : nat) (t : Task) (w : World) :
  drive config (S fuel) t w
  = drive config fuel (fst (step config t w)) (snd (step config t w)).
Proof. cbn [drive]. apply bind_eq. Qed.

Lemma drive_finished (config : Config) (fuel : nat) :
  forall (t : Task) (rw : ResponseWriter) (w : World),
    task_stage t = Finished rw -> drive config fuel t w = (t, w).
Proof.
  induction fuel as [|fuel IH]; intros t rw w H; [reflexivity|].
  rewrite drive_S. unfold step. rewrite H. cbn [ret fst snd].
  apply (IH t rw w H).
Qed.

Lemma step_rechecking (config : Config) (r : Request) (ctx : Ctx) (c : string)
    (w : World) :
  step config {| task_request := r; task_ctx := ctx; task_stage := Rechecking c |} w
  = (if fst (shortCodeExists ctx c w)
     then ({| task_request := r; task_ctx := ctx;
              task_stage := Finished (fst (conclude r config ctx c w)) |},
           snd (conclude r config ctx c w))
     else ({| task_request := r; task_ctx := ctx; task_stage := Inserting c |},
           snd (shortCodeExists ctx c w))).
Proof.
  unfold step, conclude. cbn [task_stage task_ctx task_request].
  rewrite !bind_eq. destruct (fst (shortCodeExists ctx c w)).
  - rewrite !bind_eq. reflexivity.
  - reflexivity.
Qed.

Lemma step_inserting (config : Config) (r : Request) (ctx : Ctx) (c : string)
    (w0 w : World) :
  fst (shortCodeExists ctx c w0) = false ->
  w = snd (shortCodeExists ctx c w0) ->
  step config {| task_request := r; task_ctx := ctx; task_stage := Inserting c |} w
  = ({| task_request := r; task_ctx := ctx;
        task_stage := Finished (fst (conclude r config ctx c w0)) |},
     snd (conclude r config ctx c w0)).
Proof.
  intros Hfree ->. unfold step, conclude. cbn [task_stage task_ctx task_request].
  rewrite !bind_eq, Hfree. cbv iota. rewrite !bind_eq.
  destruct (fst (ExecContext_insert ctx c (FormValue r "long_url")
                   (snd (shortCodeExists ctx c w0)))).
  - reflexivity.
  - rewrite !bind_eq. reflexivity.
Qed.

Lemma drive_rechecking (config : Config) (r : Request) (ctx : Ctx) (c : string)
    (fuel : nat) (w : World) :
  (2 <= fuel)%nat ->
  drive config fuel
    {| task_request := r; task_ctx := ctx; task_stage := Rechecking c |} w
  = ({| task_request := r; task_ctx := ctx;
        task_stage := Finished (fst (conclude r config ctx c w)) |},
     snd (conclude r config ctx c w)).
Proof.
  intros Hf. destruct fuel as [|[|fuel]]; try lia.
  rewrite drive_S, step_rechecking.
  destruct (fst (shortCodeExists ctx c w)) eqn:E; cbv iota; cbn [fst snd].
  - eapply drive_finished. reflexivity.
  - rewrite drive_S, (step_inserting config r ctx c w _ E eq_refl). cbn [fst snd].
    eapply drive_finished. reflexivity.
Qed.

Lemma step_generating (config : Config) (r : Request) (ctx : Ctx) (n : nat)
    (c : string) (w : World) :
  step config
    {| task_request := r; task_ctx := ctx; task_stage := Generating (S n) c |} w
  = (let c' := fst (generateShortCode 6 w) in
     let w1 := snd (generateShortCode 6 w) in
     ({| task_request := r; task_ctx := ctx;
         task_stage := if negb (fst (shortCodeExists ctx c' w1))
                       then Rechecking c' else Generating n c' |},
      snd (shortCodeExists ctx c' w1))).
Proof.
  unfold step. cbn [task_stage task_ctx task_request]. rewrite !bind_eq.
  destruct (fst (shortCodeExists ctx (fst (generateShortCode 6 w))
                   (snd (generateShortCode 6 w)))); reflexivity.
Qed.

Lemma drive_generating (config : Config) (r : Request) (ctx : Ctx) (n : nat) :
  forall (c : string) (fuel : nat) (w : World),
    (n + 3 <= fuel)%nat ->
    drive config fuel
      {| task_request := r; task_ctx := ctx; task_stage := Generating n c |} w
    = ({| task_request := r; task_ctx := ctx;
          task_stage :=
            Finished (fst ((shortCode <- allocate n ctx c ;;
                            conclude r config ctx shortCode) w)) |},
       snd ((shortCode <- allocate n ctx c ;;
             conclude r config ctx shortCode) w)).
Proof.
  induction n as [|n IH]; intros c fuel w Hf.
  - destruct fuel as [|fuel]; [lia|]. rewrite drive_S. cbn [allocate].
    rewrite bind_eq. cbn [step task_stage ret fst snd at_stage task_request task_ctx].
    apply drive_rechecking. lia.
  - destruct fuel as [|fuel]; [lia|]. rewrite drive_S, step_generating.
    cbn [allocate fst snd]. rewrite !bind_eq.
    destruct (fst (shortCodeExists ctx (fst (generateShortCode 6 w))
                     (snd (generateShortCode 6 w)))); cbn [negb].
    + rewrite (IH _ fuel _ ltac:(lia)). rewrite !bind_eq. reflexivity.
    + rewrite drive_rechecking by lia. reflexivity.
Qed.

(** A request that runs alone through its stages is [shortenHandler]. *)
Lemma drive_alone (config : Config) (r : Request) (w : World) :
  task_stage (fst ((t <- start r ;; drive config 13 t) w))
  = Finished (fst (shortenHandler fresh_writer r config w))
  /\ snd ((t <- start r ;; drive config 13 t) w)
     = snd (shortenHandler fresh_writer r config w).
Proof.
  rewrite bind_eq. unfold start.
  destruct (String.eqb (Method r) MethodPost) eqn:Hm; cbn [negb].
  - apply String.eqb_eq in Hm. rewrite (shortenHandler_conclude r config w Hm).
    rewrite !bind_eq. cbn [time_Now ret fst snd].
    rewrite drive_generating by lia. rewrite !bind_eq. split; reflexivity.
  - cbn [ret fst snd]. erewrite drive_finished by reflexivity.
    unfold shortenHandler. rewrite Hm. split; reflexivity.
Qed.

(** What one step of a request in flight does to the table: nothing, or
    one new row whose code was not stored, when the request finishes
    successfully with that code. *)
Lemma step_table (config : Config) (t : Task) (w : World) :
  (db (snd (step config t w)) = db w
   /\ task_code config (fst (step config t w)) = task_code config t)
  \/ (exists c,
        task_code config t = []
        /\ task_code config (fst (step config t w)) = [c]
        /\ ~ In c (codes (db w))
        /\ codes (db (snd (step config t w))) = codes (db w) ++ [c]
        /\ row_count (db (snd (step config t w))) = S (row_count (db w))).
Proof.
  destruct t as [r ctx [[|n] c|c|c|rw]]; unfold step;
    cbn [task_stage task_ctx task_request].
  - left. split; reflexivity.
  - left. rewrite !bind_eq, generate_six. cbn [fst snd].
    destruct (shortCodeExists_post ctx (candidate (global_rand w) 0)
                (set_global_rand (advance 6 (global_rand w)) w)) as [res Hp].
    pose proof (cp_db _ _ _ _ _ _ Hp) as Hdb.
    destruct (fst (shortCodeExists ctx (candidate (global_rand w) 0)
                     (set_global_rand (advance 6 (global_rand w)) w)));
      cbn [negb ret fst snd]; split; auto.
  - left. rewrite !bind_eq.
    destruct (shortCodeExists_post ctx c w) as [res Hp].
    pose proof (cp_db _ _ _ _ _ _ Hp) as Hdb.
    destruct (fst (shortCodeExists ctx c w)).
    + rewrite !bind_eq. cbn [log_Println ret fst snd]. split; auto.
    + cbn [ret fst snd]. split; auto.
  - rewrite !bind_eq.
    pose proof (ExecContext_insert_post ctx c (FormValue r "long_url") w) as Hp.
    destruct Hp as [_ Hok Herr _ _ _ _ _].
    destruct (fst (ExecContext_insert ctx c (FormValue r "long_url") w)) as [i|e].
    + right. exists c. cbn [ret fst snd].
      specialize (Hok i eq_refl). apply insert_url_ok in Hok.
      destruct Hok as [rows [Hu [Hst [_ Hd]]]].
      split; [reflexivity|]. split.
      { unfold task_code. cbn [task_stage at_stage].
        change (rw_Write ("Short URL: " ++ (ShortURLBase config ++ c)) fresh_writer)
          with {| status := Some StatusOK; body := success_body config c |}.
        rewrite returned_code_success. reflexivity. }
      unfold codes, row_count. rewrite Hd, Hu. cbn [urls].
      split; [apply not_stored; assumption|].
      rewrite map_app, length_app. cbn. split; [reflexivity | lia].
    + left. rewrite !bind_eq. cbn [log_Println ret fst snd].
      split; [exact (Herr e eq_refl) | reflexivity].
  - left. split; reflexivity.
Qed.

Lemma start_table (config : Config) (r : Request) (w : World) :
  snd (start r w) = w /\ task_code config (fst (start r w)) = [].
Proof.
  unfold start. destruct (String.eqb (Method r) MethodPost); cbn [negb].
  - rewrite bind_eq. split; reflexivity.
  - split; reflexivity.
Qed.

Lemma task_codes_replace_same (config : Config) (t' : Task) :
  forall (ts : list Task) (i : nat) (t : Task),
    nth_error ts i = Some t ->
    task_code config t' = task_code config t ->
    task_codes config (replace_nth i t' ts) = task_codes config ts.
Proof.
  induction ts as [|x ts IH]; intros i t Hn He; destruct i as [|i];
    cbn in Hn; try discriminate.
  - inversion Hn; subst. unfold task_codes. cbn. rewrite He. reflexivity.
  - unfold task_codes in *. cbn. rewrite (IH i t Hn He). reflexivity.
Qed.

Lemma task_codes_replace_new (config : Config) (t' : Task) (c : string) :
  forall (ts : list Task) (i : nat) (t : Task),
    nth_error ts i = Some t ->
    task_code config t = [] ->
    task_code config t' = [c] ->
    Permutation (task_codes config (replace_nth i t' ts))
                (task_codes config ts ++ [c]).
Proof.
  induction ts as [|x ts IH]; intros i t Hn He Hc; destruct i as [|i];
    cbn in Hn; try discriminate.
  - inversion Hn; subst. unfold task_codes. cbn. rewrite He, Hc. cbn.
    apply Permutation_cons_append.
  - unfold task_codes in *. cbn. rewrite <- app_assoc.
    apply Permutation_app_head. exact (IH i t Hn He Hc).
Qed.

Lemma act_table (config : Config) (w0 : World) (a : Action) (ts : list Task)
    (w : World) :
  table_matches config w0 ts w ->
  table_matches config w0 (fst (act config ts a w)) (snd (act config ts a w)).
Proof.
  intros [Hp [Hn Hd]]. destruct a as [r|i]; unfold act.
  - rewrite bind_eq. cbn [ret fst snd].
    destruct (start_table config r w) as [Hw Hc]. rewrite Hw.
    unfold table_matches, task_codes in *. rewrite flat_map_app. cbn [flat_map].
    rewrite Hc, !app_nil_r. auto.
  - destruct (nth_error ts i) as [t|] eqn:Hi; [|cbn [ret fst snd]; repeat split; auto].
    rewrite bind_eq. cbn [ret fst snd].
    destruct (step_table config t w) as [[Hdb Hc] | [c [He [Hc [Hnew [Hcodes Hrows]]]]]].
    + unfold table_matches.
      rewrite (task_codes_replace_same config _ ts i t Hi Hc), Hdb. auto.
    + pose proof (task_codes_replace_new config _ c ts i t Hi He Hc) as Hperm.
      unfold table_matches. rewrite Hcodes, Hrows.
      rewrite (Permutation_length Hperm), length_app. cbn [List.length].
      split; [|split; [lia|]].
      * rewrite Hperm, app_assoc. apply Permutation_app_tail. assumption.
      * apply NoDup_app; [assumption | repeat constructor; intros [] |].
        intros x Hx [<-|[]]. contradiction.
Qed.

Lemma interleave_table (config : Config) (w0 : World) (acts : list Action) :
  forall (ts : list Task) (w : World),
    table_matches config w0 ts w ->
    table_matches config w0 (fst (interleave config acts ts w))
                  (snd (interleave config acts ts w)).
Proof.
  induction acts as [|a acts IH]; intros ts w H; [exact H|].
  cbn [interleave]. rewrite bind_eq. apply IH. apply act_table. exact H.
Qed.

(** X15: under any interleaving of the steps of any number of shorten requests,
    from a table without duplicate codes: the codes returned by the
    requests that succeeded are pairwise distinct and are, up to order, the
    codes of the rows added; no code is stored twice. *)
Theorem interleaved_codes_unique :
  forall (config : Config) (acts : list Action) (w : World)
         (ts : list Task) (w' : World),
    interleave config acts [] w = (ts, w') ->
    NoDup (codes (db w)) ->
    NoDup (task_codes config ts)
    /\ Permutation (codes (db w')) (codes (db w) ++ task_codes config ts)
    /\ row_count (db w')
       = (row_count (db w) + List.length (task_codes config ts))%nat
    /\ NoDup (codes (db w')).
Proof.
  intros config acts w ts w' Hrun Hnd.
  assert (H0 : table_matches config w [] w).
  { unfold table_matches, task_codes. cbn. rewrite app_nil_r.
    repeat split; auto. }
  pose proof (interleave_table config w acts [] w H0) as H.
  rewrite Hrun in H. cbn [fst snd] in H. destruct H as [Hp [Hn Hd]].
  split; [|auto].
  apply (Permutation_NoDup Hp) in Hd. exact (NoDup_app_right _ _ Hd).
Qed.

(** Two requests draw the same code and both pass their checks before
    either INSERT: the constraint rejects the second INSERT. *)
Lemma race_settled_by_constraint :
  let (ts, w') := interleave loadConfig race [] stuck_world in
  map task_stage ts
  = [Finished {| status := Some StatusOK;
                 body := "Short URL: http://short.url/aaaaaa" |};
     Finished server_error]
  /\ checks (since stuck_world w') = repeat ("aaaaaa", false) 4
  /\ skipn 4 (since stuck_world w')
     = [InsertTried "aaaaaa" "http://example.com" (Ok 1);
        InsertTried "aaaaaa" "http://example.com" (Err UniqueViolation)]
  /\ codes (db w') = ["aaaaaa"].
Proof. vm_compute. repeat split. Qed.

(* ================================================================= *)
(** ** A database that answers at once *)

Ltac splits := repeat match goal with |- _ /\ _ => split end.

(** One existence check on a responsive database that holds the table. *)
Lemma shortCodeExists_responsive (ctx : Ctx) (c : string) (w : World)
    (rows : list Row) :
  responsive ctx w ->
  urls (db w) = Some rows ->
  fst (shortCodeExists ctx c w) = stored c rows
  /\ responsive ctx (snd (shortCodeExists ctx c w))
  /\ db (snd (shortCodeExists ctx c w)) = db w
  /\ global_rand (snd (shortCodeExists ctx c w)) = global_rand w
  /\ logs (snd (shortCodeExists ctx c w)) = logs w
  /\ clock (snd (shortCodeExists ctx c w)) = clock w
  /\ trace (snd (shortCodeExists ctx c w))
     = trace w ++ [Checked c (Ok (stored c rows))].
Proof.
  intros [Hs Hd] Hu.
  unfold shortCodeExists, QueryRowContext_exists, round_trip, responsive.
  rewrite !bind_eq, Hs. cbn [hd tl calm latency fault Z.of_N].
  destruct (deadline ctx) as [d|] eqn:Ed.
  - specialize (Hd d eq_refl).
    assert (E1 : (d <=? clock w) = false) by (apply Z.leb_gt; lia).
    assert (E2 : (d <=? clock w + 0) = false) by (apply Z.leb_gt; lia).
    rewrite E1, E2. cbn [fst snd get_db db set_clock set_script].
    unfold select_exists. rewrite Hu. rewrite ?bind_eq.
    cbn. repeat split; try reflexivity; try lia.
    intros d' Hd'. inversion Hd'; subst. lia.
  - cbn [fst snd get_db db set_clock set_script].
    unfold select_exists. rewrite Hu. rewrite ?bind_eq.
    cbn. repeat split; try reflexivity; try lia.
    intros d' Hd'. discriminate Hd'.
Qed.

(** One INSERT on a responsive database. *)
Lemma ExecContext_insert_responsive (ctx : Ctx) (c url : string) (w : World) :
  responsive ctx w ->
  fst (ExecContext_insert ctx c url w) = fst (insert_url c url (db w))
  /\ db (snd (ExecContext_insert ctx c url w)) = snd (insert_url c url (db w))
  /\ global_rand (snd (ExecContext_insert ctx c url w)) = global_rand w
  /\ logs (snd (ExecContext_insert ctx c url w)) = logs w
  /\ clock (snd (ExecContext_insert ctx c url w)) = clock w
  /\ trace (snd (ExecContext_insert ctx c url w))
     = trace w ++ [InsertTried c url (fst (insert_url c url (db w)))].
Proof.
  intros [Hs Hd].
  unfold ExecContext_insert, round_trip.
  rewrite !bind_eq, Hs. cbn [hd tl calm latency fault Z.of_N].
  destruct (deadline ctx) as [d|] eqn:Ed.
  - specialize (Hd d eq_refl).
    assert (E1 : (d <=? clock w) = false) by (apply Z.leb_gt; lia).
    assert (E2 : (d <=? clock w + 0) = false) by (apply Z.leb_gt; lia).
    rewrite E1, E2. cbn [fst snd get_db db set_clock set_script].
    destruct (insert_url c url (db w)) as [res d']. rewrite ?bind_eq.
    cbn. repeat split; try reflexivity; lia.
  - cbn [fst snd get_db db set_clock set_script].
    destruct (insert_url c url (db w)) as [res d']. rewrite ?bind_eq.
    cbn. repeat split; try reflexivity; lia.
Qed.

Lemma responsive_set_global_rand (ctx : Ctx) (s : Source) (w : World) :
  responsive ctx w -> responsive ctx (set_global_rand s w).
Proof. intros H. exact H. Qed.

(** On a responsive database the loop stops at the first candidate that is
    not stored. *)
Lemma allocate_first_free (ctx : Ctx) (rows : list Row) (j : nat) :
  forall (n : nat) (c0 : string) (w : World),
    responsive ctx w ->
    urls (db w) = Some rows ->
    (j < n)%nat ->
    (forall i, (i < j)%nat -> stored (candidate (global_rand w) i) rows = true) ->
    stored (candidate (global_rand w) j) rows = false ->
    fst (allocate n ctx c0 w) = candidate (global_rand w) j
    /\ responsive ctx (snd (allocate n ctx c0 w))
    /\ db (snd (allocate n ctx c0 w)) = db w
    /\ global_rand (snd (allocate n ctx c0 w))
       = advance (6 * S j) (global_rand w)
    /\ logs (snd (allocate n ctx c0 w)) = logs w
    /\ clock (snd (allocate n ctx c0 w)) = clock w
    /\ trace (snd (allocate n ctx c0 w))
       = trace w ++ loop_checks (global_rand w) 0 (repeat (Ok true) j ++ [Ok false]).
Proof.
  induction j as [|j IH]; intros n c0 w Hresp Hu Hn Hbefore Hfree;
    (destruct n as [|n]; [lia|]);
    cbn [allocate]; rewrite bind_eq, generate_six; cbn [fst snd];
    rewrite bind_eq;
    set (w1 := set_global_rand (advance 6 (global_rand w)) w);
    destruct (shortCodeExists_responsive ctx (candidate (global_rand w) 0) w1 rows
                Hresp Hu) as [Ha [Hr [Hdb [Hrand [Hlogs [Hclk Htr]]]]]];
    rewrite Ha.
  - rewrite Hfree. cbn [negb ret fst snd repeat app loop_checks].
    rewrite Hrand, Hfree in *. splits; auto.
  - rewrite (Hbefore 0%nat ltac:(lia)). cbn [negb].
    set (w2 := snd (shortCodeExists ctx (candidate (global_rand w) 0) w1)) in *.
    assert (Hg : global_rand w2 = advance 6 (global_rand w)) by exact Hrand.
    destruct (IH n (candidate (global_rand w) 0) w2 Hr) as [Ic [Ir [Id [Ig [Il [Ik It]]]]]].
    + rewrite Hdb. exact Hu.
    + lia.
    + intros i Hi. rewrite Hg, candidate_advance. apply Hbefore. lia.
    + rewrite Hg, candidate_advance. exact Hfree.
    + rewrite Ic, Ig, Id, Il, Ik, It, Hg, candidate_advance, advance_advance,
        loop_checks_advance, Htr, Hdb, Hlogs, Hclk.
      cbn [repeat app loop_checks]. rewrite <- app_assoc.
      rewrite (Hbefore 0%nat ltac:(lia)).
      splits; auto. f_equal. lia.
Qed.

Lemma responsive_WithTimeout (r : Request) (w : World) :
  script w = [] ->
  (forall p, deadline (req_ctx r) = Some p -> clock w < p) ->
  responsive (WithTimeout (req_ctx r) (5 * Second) (clock w)) w.
Proof.
  intros Hs Hp. split; [exact Hs|]. unfold WithTimeout. cbn [deadline].
  intros d Hd. inversion Hd; subst. unfold Second.
  destruct (deadline (req_ctx r)) as [p|]; [specialize (Hp p eq_refl)|]; lia.
Qed.

Lemma insert_url_free (c url : string) (d : DB) (rows : list Row) :
  urls d = Some rows -> stored c rows = false ->
  insert_url c url d
  = (Ok (sqlite_sequence d + 1),
     {| urls := Some (rows ++ [new_row (sqlite_sequence d + 1) c url]);
        sqlite_sequence := sqlite_sequence d + 1 |}).
Proof. intros Hu Hs. unfold insert_url. rewrite Hu, Hs. reflexivity. Qed.

(** The first free candidate on a responsive database: the whole effect
    of the request. *)
Lemma shortenHandler_first_free (r : Request) (config : Config) (w : World)
    (rows : list Row) (j : nat) :
  Method r = MethodPost ->
  script w = [] ->
  (forall p, deadline (req_ctx r) = Some p -> clock w < p) ->
  urls (db w) = Some rows ->
  (j < 10)%nat ->
  (forall i, (i < j)%nat -> stored (candidate (global_rand w) i) rows = true) ->
  stored (candidate (global_rand w) j) rows = false ->
  let run := shortenHandler fresh_writer r config w in
  fst run = {| status := Some StatusOK;
               body := success_body config (candidate (global_rand w) j) |}
  /\ db (snd run)
     = {| urls := Some (rows ++ [new_row (sqlite_sequence (db w) + 1)
                                   (candidate (global_rand w) j)
                                   (FormValue r "long_url")]);
          sqlite_sequence := sqlite_sequence (db w) + 1 |}
  /\ global_rand (snd run) = advance (6 * S j) (global_rand w)
  /\ logs (snd run) = logs w
  /\ clock (snd run) = clock w
  /\ since w (snd run)
     = loop_checks (global_rand w) 0 (repeat (Ok true) j ++ [Ok false])
       ++ [Checked (candidate (global_rand w) j) (Ok false);
           InsertTried (candidate (global_rand w) j) (FormValue r "long_url")
                       (Ok (sqlite_sequence (db w) + 1))].
Proof.
  intros Hm Hs Hp Hu Hj Hbefore Hfree run. subst run.
  destruct (shortenHandler fresh_writer r config w) as [rw' w'] eqn:Hrun.
  cbn [fst snd].
  rewrite (shortenHandler_conclude r config w Hm) in Hrun.
  rewrite bind_eq in Hrun. cbn [time_Now fst snd] in Hrun.
  set (ctx := WithTimeout (req_ctx r) (5 * Second) (clock w)) in *.
  pose proof (responsive_WithTimeout r w Hs Hp) as Hresp. fold ctx in Hresp.
  rewrite bind_eq in Hrun.
  destruct (allocate_first_free ctx rows j 10 "" w Hresp Hu Hj Hbefore Hfree)
    as [Ac [Ar [Ad [Ag [Al [Ak At]]]]]].
  rewrite Ac in Hrun.
  set (w2 := snd (allocate 10 ctx "" w)) in *.
  set (c := candidate (global_rand w) j) in *.
  unfold conclude in Hrun. rewrite bind_eq in Hrun.
  assert (Hu2 : urls (db w2) = Some rows) by (rewrite Ad; exact Hu).
  destruct (shortCodeExists_responsive ctx c w2 rows Ar Hu2)
    as [Ca [Cr [Cd [Cg [Cl [Ck Ct]]]]]].
  rewrite Ca, Hfree in Hrun. rewrite Hfree in Ct.
  set (w3 := snd (shortCodeExists ctx c w2)) in *.
  rewrite bind_eq in Hrun.
  destruct (ExecContext_insert_responsive ctx c (FormValue r "long_url") w3 Cr)
    as [Ia [Id [Ig [Il [Ik It]]]]].
  assert (Hins : insert_url c (FormValue r "long_url") (db w3)
                 = (Ok (sqlite_sequence (db w) + 1),
                    {| urls := Some (rows ++ [new_row (sqlite_sequence (db w) + 1) c
                                                (FormValue r "long_url")]);
                       sqlite_sequence := sqlite_sequence (db w) + 1 |})).
  { rewrite Cd, Ad. apply insert_url_free; assumption. }
  rewrite Hins in Ia, Id, It. cbn [fst snd] in Ia, Id, It.
  rewrite Ia in Hrun. cbn [ret] in Hrun. inversion Hrun; subst rw' w'. clear Hrun.
  splits.
  - reflexivity.
  - exact Id.
  - rewrite Ig, Cg. exact Ag.
  - rewrite Il, Cl. exact Al.
  - rewrite Ik, Ck. exact Ak.
  - apply since_app. rewrite It, Ct, At, <- !app_assoc. reflexivity.
Qed.

(** X1: on a database that answers at once and in time, a POST is given the
    first of its (at most ten) generated candidates that is not stored: the
    response is the 200 with that code, its row is appended with the next
    id, exactly the candidates up to it were generated and checked, and
    nothing is logged. *)
Theorem first_free_candidate_wins :
  forall (r : Request) (config : Config) (w : World) (rows : list Row)
         (j : nat) (rw' : ResponseWriter) (w' : World),
    Method r = MethodPost ->
    script w = [] ->
    (forall p, deadline (req_ctx r) = Some p -> clock w < p) ->
    urls (db w) = Some rows ->
    (j < 10)%nat ->
    (forall i, (i < j)%nat -> stored (candidate (global_rand w) i) rows = true) ->
    stored (candidate (global_rand w) j) rows = false ->
    shortenHandler fresh_writer r config w = (rw', w') ->
    rw' = {| status := Some StatusOK;
             body := success_body config (candidate (global_rand w) j) |}
    /\ db w' = {| urls := Some (rows ++ [new_row (sqlite_sequence (db w) + 1)
                                           (candidate (global_rand w) j)
                                           (FormValue r "long_url")]);
                  sqlite_sequence := sqlite_sequence (db w) + 1 |}
    /\ global_rand w' = advance (6 * S j) (global_rand w)
    /\ logs w' = logs w
    /\ clock w' = clock w
    /\ since w w'
       = loop_checks (global_rand w) 0 (repeat (Ok true) j ++ [Ok false])
         ++ [Checked (candidate (global_rand w) j) (Ok false);
             InsertTried (candidate (global_rand w) j) (FormValue r "long_url")
                         (Ok (sqlite_sequence (db w) + 1))].
Proof.
  intros r config w rows j rw' w' Hm Hs Hp Hu Hj Hbefore Hfree Hrun.
  pose proof (shortenHandler_first_free r config w rows j Hm Hs Hp Hu Hj
                Hbefore Hfree) as H.
  cbv zeta in H. rewrite Hrun in H. exact H.
Qed.

Lemma first_free_candidate_wins_witness :
  Method post_example = MethodPost
  /\ script crowded_world = []
  /\ urls (db crowded_world) = Some (rows_of 9)
  /\ (forall i, (i < 9)%nat ->
        stored (candidate (global_rand crowded_world) i) (rows_of 9) = true)
  /\ stored (candidate (global_rand crowded_world) 9) (rows_of 9) = false
  /\ fst (shortenHandler fresh_writer post_example loadConfig crowded_world)
     = {| status := Some StatusOK;
          body := success_body loadConfig
                    (candidate (global_rand crowded_world) 9) |}.
Proof.
  assert (Hb : forall i, (i < 9)%nat ->
                 stored (candidate (global_rand crowded_world) i) (rows_of 9) = true).
  { intros i Hi. do 9 (destruct i as [|i]; [vm_compute; reflexivity|]). lia. }
  assert (Hf : stored (candidate (global_rand crowded_world) 9) (rows_of 9) = false)
    by (vm_compute; reflexivity).
  split; [reflexivity|]. split; [reflexivity|]. split; [reflexivity|].
  split; [exact Hb|]. split; [exact Hf|].
  exact (proj1 (first_free_candidate_wins post_example loadConfig crowded_world
                  (rows_of 9) 9 _ _ eq_refl eq_refl
                  ltac:(intros p H; discriminate H)
                  eq_refl ltac:(lia) Hb Hf (surjective_pairing _))).
Defined.

(* ================================================================= *)
(** ** Requests that cannot succeed *)

(** Under a condition [P] of the world that makes every existence check
    answer "exists" and that the checks keep, the loop runs all its
    iterations. *)
Lemma allocate_exhausts (ctx : Ctx) (P : World -> Prop) :
  (forall c w, P w -> fst (shortCodeExists ctx c w) = true
                      /\ P (snd (shortCodeExists ctx c w))) ->
  (forall s w, P w -> P (set_global_rand s w)) ->
  forall (n : nat) (c0 : string) (w : World),
    P w ->
    P (snd (allocate n ctx c0 w))
    /\ global_rand (snd (allocate n ctx c0 w)) = advance (6 * n) (global_rand w)
    /\ fst (allocate (S n) ctx c0 w) = candidate (global_rand w) n
    /\ db (snd (allocate n ctx c0 w)) = db w
    /\ exists rs, List.length rs = n
                  /\ trace (snd (allocate n ctx c0 w))
                     = trace w ++ loop_checks (global_rand w) 0 rs.
Proof.
  intros Hcheck Hrand. induction n as [|n IH]; intros c0 w HP.
  - cbn [allocate ret fst snd]. rewrite advance_0.
    splits; auto.
    + rewrite bind_eq, generate_six. cbn [fst snd]. rewrite bind_eq.
      destruct (Hcheck (candidate (global_rand w) 0)
                  (set_global_rand (advance 6 (global_rand w)) w)
                  (Hrand _ _ HP)) as [-> _].
      reflexivity.
    + exists []. rewrite app_nil_r. split; reflexivity.
  - set (c := candidate (global_rand w) 0).
    set (w1 := set_global_rand (advance 6 (global_rand w)) w).
    destruct (Hcheck c w1 (Hrand _ _ HP)) as [Ha HP2].
    destruct (shortCodeExists_post ctx c w1) as [r Hr].
    set (w2 := snd (shortCodeExists ctx c w1)) in *.
    destruct (IH c w2 HP2) as [IP [Ig [Ic [Id [rs [Hlen It]]]]]].
    assert (Hg : global_rand w2 = advance 6 (global_rand w))
      by exact (cp_rand _ _ _ _ _ _ Hr).
    assert (Hstep : forall m, allocate (S m) ctx c0 w = allocate m ctx c w2).
    { intros m. cbn [allocate]. rewrite bind_eq, generate_six. cbn [fst snd].
      rewrite bind_eq. fold c w1. rewrite Ha. reflexivity. }
    rewrite (Hstep (S n)), (Hstep n).
    splits.
    + exact IP.
    + rewrite Ig, Hg, advance_advance. f_equal. lia.
    + rewrite Ic, Hg. apply candidate_advance.
    + rewrite Id. exact (cp_db _ _ _ _ _ _ Hr).
    + exists (r :: rs). split; [cbn; congruence|].
      rewrite It, (cp_trace _ _ _ _ _ _ Hr), Hg, loop_checks_advance,
        <- app_assoc. reflexivity.
Qed.

(** What a POST does under such a condition. *)
Lemma shortenHandler_exhausts (P : World -> Prop) (r : Request)
    (config : Config) (w : World) :
  Method r = MethodPost ->
  (forall c w0, P w0 ->
     fst (shortCodeExists (WithTimeout (req_ctx r) (5 * Second) (clock w)) c w0)
     = true
     /\ P (snd (shortCodeExists
                  (WithTimeout (req_ctx r) (5 * Second) (clock w)) c w0))) ->
  (forall s w0, P w0 -> P (set_global_rand s w0)) ->
  P w ->
  fst (shortenHandler fresh_writer r config w) = server_error
  /\ db (snd (shortenHandler fresh_writer r config w)) = db w
  /\ global_rand (snd (shortenHandler fresh_writer r config w))
     = advance 60 (global_rand w)
  /\ List.length (checks (since w (snd (shortenHandler fresh_writer r config w))))
     = 11%nat
  /\ insert_attempts (since w (snd (shortenHandler fresh_writer r config w))) = [].
Proof.
  intros Hm Hcheck Hrand HP.
  rewrite (shortenHandler_conclude r config w Hm).
  rewrite bind_eq. cbn [time_Now fst snd].
  set (ctx := WithTimeout (req_ctx r) (5 * Second) (clock w)) in *.
  rewrite bind_eq.
  destruct (allocate_exhausts ctx P Hcheck Hrand 10 "" w HP)
    as [AP [Ag [_ [Ad [rs [Hlen At]]]]]].
  set (c := fst (allocate 10 ctx "" w)) in *.
  set (w2 := snd (allocate 10 ctx "" w)) in *.
  unfold conclude. rewrite bind_eq.
  destruct (Hcheck c w2 AP) as [Ca _].
  destruct (shortCodeExists_post ctx c w2) as [rk Hr].
  rewrite Ca. rewrite bind_eq. cbn [log_Println ret fst snd].
  cbn [db global_rand set_logs].
  set (w3 := snd (shortCodeExists ctx c w2)) in *.
  assert (Ht : trace (set_logs (logs w3 ++ [exhausted_msg]) w3)
               = trace w ++ (loop_checks (global_rand w) 0 rs ++ [Checked c rk])).
  { cbn [trace set_logs]. rewrite (cp_trace _ _ _ _ _ _ Hr), At, <- app_assoc.
    reflexivity. }
  splits.
  - reflexivity.
  - rewrite (cp_db _ _ _ _ _ _ Hr). exact Ad.
  - rewrite (cp_rand _ _ _ _ _ _ Hr). exact Ag.
  - unfold exhausted_msg in Ht. rewrite (since_app _ _ _ Ht), checks_app, length_app.
    assert (G : forall l k, List.length (checks (loop_checks (global_rand w) k l))
                            = List.length l).
    { induction l as [|x l IH]; intros k; cbn; [reflexivity | rewrite IH; reflexivity]. }
    rewrite G, Hlen. reflexivity.
  - unfold exhausted_msg in Ht.
    rewrite (since_app _ _ _ Ht), insert_attempts_app, insert_attempts_loop.
    reflexivity.
Qed.

Lemma shortCodeExists_no_table (ctx : Ctx) (c : string) (w : World) :
  urls (db w) = None ->
  fst (shortCodeExists ctx c w) = true
  /\ urls (db (snd (shortCodeExists ctx c w))) = None.
Proof.
  intros Hu. destruct (shortCodeExists_post ctx c w) as [r Hr].
  split; [|rewrite (cp_db _ _ _ _ _ _ Hr); exact Hu].
  rewrite (cp_answer _ _ _ _ _ _ Hr). destruct r as [x|e]; [|reflexivity].
  pose proof (cp_read _ _ _ _ _ _ Hr x eq_refl) as H.
  unfold select_exists in H. rewrite Hu in H. discriminate H.
Qed.

(** X2: while the [urls] table does not exist, every POST ends in the
    server error after all ten generation attempts: eleven existence
    checks are made, sixty draws are consumed, no INSERT is sent and the
    database stays as it was (the handlers never create the table). *)
Theorem missing_table_always_fails :
  forall (r : Request) (config : Config) (w : World)
         (rw' : ResponseWriter) (w' : World),
    Method r = MethodPost ->
    urls (db w) = None ->
    shortenHandler fresh_writer r config w = (rw', w') ->
    rw' = server_error
    /\ db w' = db w
    /\ global_rand w' = advance 60 (global_rand w)
    /\ List.length (checks (since w w')) = 11%nat
    /\ insert_attempts (since w w') = [].
Proof.
  intros r config w rw' w' Hm Hu Hrun.
  pose proof (shortenHandler_exhausts (fun w0 => urls (db w0) = None)
                r config w Hm
                (fun c w0 H => shortCodeExists_no_table _ c w0 H)
                (fun s w0 H => H) Hu) as H.
  rewrite Hrun in H. exact H.
Qed.

Lemma missing_table_always_fails_witness :
  Method post_example = MethodPost
  /\ urls (db blank_world) = None
  /\ fst (shortenHandler fresh_writer post_example loadConfig blank_world)
     = server_error
  /\ List.length
       (checks (since blank_world
                  (snd (shortenHandler fresh_writer post_example loadConfig
                          blank_world)))) = 11%nat.
Proof.
  split; [reflexivity|]. split; [reflexivity|].
  destruct (missing_table_always_fails post_example loadConfig blank_world _ _
              eq_refl eq_refl (surjective_pairing _)) as [H1 [_ [_ [H4 _]]]].
  split; [exact H1 | exact H4].
Defined.

Lemma shortCodeExists_expired (ctx : Ctx) (c : string) (w : World) :
  expired ctx w ->
  fst (shortCodeExists ctx c w) = true
  /\ clock (snd (shortCodeExists ctx c w)) = clock w.
Proof.
  intros [d [Hd Hle]].
  unfold shortCodeExists, QueryRowContext_exists, round_trip.
  rewrite !bind_eq, Hd.
  assert (E : (d <=? clock w) = true) by (apply Z.leb_le; exact Hle).
  rewrite E. cbn [fst snd]. rewrite ?bind_eq. cbn. split; reflexivity.
Qed.

(** X3: a POST whose own context is already past its deadline when the
    handler starts (the client is gone) still goes through all ten
    generation attempts: every check fails at once, sixty draws are
    consumed, and the response is the server error with the database and
    the clock as they were. *)
Theorem cancelled_request_burns_attempts :
  forall (r : Request) (config : Config) (w : World) (p : Z)
         (rw' : ResponseWriter) (w' : World),
    Method r = MethodPost ->
    deadline (req_ctx r) = Some p ->
    p <= clock w ->
    shortenHandler fresh_writer r config w = (rw', w') ->
    rw' = server_error
    /\ db w' = db w
    /\ global_rand w' = advance 60 (global_rand w)
    /\ List.length (checks (since w w')) = 11%nat
    /\ insert_attempts (since w w') = []
    /\ clock w' = clock w.
Proof.
  intros r config w p rw' w' Hm Hp Hle Hrun.
  set (ctx := WithTimeout (req_ctx r) (5 * Second) (clock w)).
  assert (Hex : forall w0, clock w0 = clock w -> expired ctx w0).
  { intros w0 H0. unfold expired, ctx, WithTimeout. cbn [deadline].
    rewrite Hp. eexists. split; [reflexivity|]. rewrite H0. lia. }
  pose proof (shortenHandler_exhausts (fun w0 => clock w0 = clock w)
                r config w Hm) as H.
  assert (Hcheck : forall c w0, clock w0 = clock w ->
            fst (shortCodeExists ctx c w0) = true
            /\ clock (snd (shortCodeExists ctx c w0)) = clock w).
  { intros c w0 H0. destruct (shortCodeExists_expired ctx c w0 (Hex w0 H0))
      as [Ha Hc]. split; [exact Ha | congruence]. }
  specialize (H Hcheck (fun s w0 H0 => H0) eq_refl).
  assert (Hclk : clock (snd (shortenHandler fresh_writer r config w)) = clock w).
  { rewrite (shortenHandler_conclude r config w Hm).
    rewrite bind_eq. cbn [time_Now fst snd]. fold ctx. rewrite bind_eq.
    destruct (allocate_exhausts ctx (fun w0 => clock w0 = clock w) Hcheck
                (fun s w0 H0 => H0) 10 "" w eq_refl) as [AP _].
    unfold conclude. rewrite bind_eq.
    destruct (Hcheck (fst (allocate 10 ctx "" w)) _ AP) as [Ca Cc].
    rewrite Ca, bind_eq. cbn [log_Println ret fst snd clock set_logs]. exact Cc. }
  rewrite Hrun in H, Hclk. cbn [fst snd] in H, Hclk.
  destruct H as [H1 [H2 [H3 [H4 H5]]]]. splits; assumption.
Qed.

Lemma cancelled_request_burns_attempts_witness :
  Method cancelled_post = MethodPost
  /\ deadline (req_ctx cancelled_post) = Some 0
  /\ 0 <= clock quiet_world
  /\ fst (shortenHandler fresh_writer cancelled_post loadConfig quiet_world)
     = server_error
  /\ global_rand (snd (shortenHandler fresh_writer cancelled_post loadConfig
                         quiet_world))
     = advance 60 (global_rand quiet_world).
Proof.
  assert (H : 0 <= clock quiet_world) by (cbn; lia).
  split; [reflexivity|]. split; [reflexivity|]. split; [exact H|].
  destruct (cancelled_request_burns_attempts cancelled_post loadConfig quiet_world
              0 _ _ eq_refl eq_refl H (surjective_pairing _))
    as [H1 [_ [H3 _]]].
  split; [exact H1 | exact H3].
Defined.

Lemma shortCodeExists_stored (ctx : Ctx) (c : string) (w : World)
    (rows : list Row) :
  urls (db w) = Some rows -> stored c rows = true ->
  fst (shortCodeExists ctx c w) = true.
Proof.
  intros Hu Hs. destruct (shortCodeExists_post ctx c w) as [r Hr].
  rewrite (cp_answer _ _ _ _ _ _ Hr). destruct r as [x|e]; [|reflexivity].
  pose proof (cp_read _ _ _ _ _ _ Hr x eq_refl) as H.
  unfold select_exists in H. rewrite Hu in H. inversion H. cbn. congruence.
Qed.

(** X4: when the first ten candidates of a POST are all stored, the
    response is the server error and no INSERT is sent, however the
    database behaves (slow, failing or healthy). *)
Theorem ten_stored_candidates_fail :
  forall (r : Request) (config : Config) (w : World) (rows : list Row)
         (rw' : ResponseWriter) (w' : World),
    Method r = MethodPost ->
    urls (db w) = Some rows ->
    (forall i, (i < 10)%nat -> stored (candidate (global_rand w) i) rows = true) ->
    shortenHandler fresh_writer r config w = (rw', w') ->
    rw' = server_error
    /\ db w' = db w
    /\ insert_attempts (since w w') = []
    /\ In exhausted_msg (logged w w').
Proof.
  intros r config w rows rw' w' Hm Hu Hall Hrun.
  destruct (shortenHandler_post r config fresh_writer w Hm)
    as [rs [lastr [recheck H]]].
  rewrite Hrun in H. cbn [fst snd] in H.
  destruct H as [_ Hc _ _ _ _ _ Htaken Hfree].
  destruct (collision recheck) eqn:Hr.
  - destruct (Htaken eq_refl) as [Ht [Hrw [Hdb Hlogs]]].
    splits; auto.
    + rewrite (since_app _ _ _ Ht), insert_attempts_app, insert_attempts_loop.
      reflexivity.
    + rewrite (logged_app _ _ _ Hlogs). apply in_or_app. right. left. reflexivity.
  - exfalso. destruct (Hfree eq_refl) as [res [_ [Hsel _]]].
    unfold select_exists in Hsel. rewrite Hu in Hsel. inversion Hsel as [Hst].
    rewrite (Hall _ Hc) in Hst. discriminate Hst.
Qed.

Lemma ten_stored_candidates_fail_witness :
  Method post_example = MethodPost
  /\ urls (db full_world) = Some (rows_of 10)
  /\ (forall i, (i < 10)%nat ->
        stored (candidate (global_rand full_world) i) (rows_of 10) = true)
  /\ fst (shortenHandler fresh_writer post_example loadConfig full_world)
     = server_error.
Proof.
  assert (Hb : forall i, (i < 10)%nat ->
                 stored (candidate (global_rand full_world) i) (rows_of 10) = true).
  { intros i Hi. do 10 (destruct i as [|i]; [vm_compute; reflexivity|]). lia. }
  split; [reflexivity|]. split; [reflexivity|]. split; [exact Hb|].
  exact (proj1 (ten_stored_candidates_fail post_example loadConfig full_world
                  (rows_of 10) _ _ eq_refl eq_refl Hb (surjective_pairing _))).
Defined.

(* ================================================================= *)
(** ** The cost of one request *)

(** No storage call under [ctx] takes the clock past the deadline. *)
Lemma shortCodeExists_clock (ctx : Ctx) (c : string) (w : World) (dl : Z) :
  deadline ctx = Some dl ->
  clock (snd (shortCodeExists ctx c w)) <= Z.max (clock w) dl.
Proof.
  intros Hdl. unfold shortCodeExists, QueryRowContext_exists.
  rewrite !bind_eq.
  round_trip_cases ctx w; try discriminate; inversion Hdl; subst;
    cbn [fst snd get_db db set_clock set_script];
    match goal with
    | |- context [select_exists c (db w)] =>
        destruct (select_exists c (db w))
    | _ => idtac
    end; rewrite ?bind_eq; cbn; lia.
Qed.

Lemma ExecContext_insert_clock (ctx : Ctx) (c url : string) (w : World)
    (dl : Z) :
  deadline ctx = Some dl ->
  clock (snd (ExecContext_insert ctx c url w)) <= Z.max (clock w) dl.
Proof.
  intros Hdl. unfold ExecContext_insert.
  rewrite !bind_eq.
  round_trip_cases ctx w; try discriminate; inversion Hdl; subst;
    cbn [fst snd get_db db set_clock set_script];
    match goal with
    | |- context [insert_url c url (db w)] =>
        destruct (insert_url c url (db w))
    | _ => idtac
    end; rewrite ?bind_eq; cbn; lia.
Qed.

Lemma allocate_clock (ctx : Ctx) (d : Z) (n : nat) :
  deadline ctx = Some d ->
  forall (c0 : string) (w : World),
    clock (snd (allocate n ctx c0 w)) <= Z.max (clock w) d.
Proof.
  intros Hdl. induction n as [|n IH]; intros c0 w; [cbn; lia|].
  cbn [allocate]. rewrite bind_eq, generate_six. cbn [fst snd]. rewrite bind_eq.
  set (w1 := set_global_rand (advance 6 (global_rand w)) w).
  pose proof (shortCodeExists_clock ctx (candidate (global_rand w) 0) w1 d Hdl) as H.
  change (clock w1) with (clock w) in H.
  destruct (fst (shortCodeExists ctx (candidate (global_rand w) 0) w1));
    cbn [negb ret snd]; [|exact H].
  specialize (IH (candidate (global_rand w) 0)
                 (snd (shortCodeExists ctx (candidate (global_rand w) 0) w1))).
  lia.
Qed.

Lemma shortenHandler_clock (r : Request) (config : Config) (w : World) :
  clock (snd (shortenHandler fresh_writer r config w)) <= clock w + 5 * Second.
Proof.
  destruct (String.eqb (Method r) MethodPost) eqn:Hm.
  - apply String.eqb_eq in Hm. rewrite (shortenHandler_conclude r config w Hm).
    rewrite bind_eq. cbn [time_Now fst snd].
    set (ctx := WithTimeout (req_ctx r) (5 * Second) (clock w)).
    destruct (WithTimeout_deadline (req_ctx r) (clock w)) as [d [Hd Hle]].
    fold ctx in Hd. rewrite bind_eq.
    pose proof (allocate_clock ctx d 10 Hd "" w) as H2.
    set (c := fst (allocate 10 ctx "" w)) in *.
    set (w2 := snd (allocate 10 ctx "" w)) in *.
    unfold conclude. rewrite bind_eq.
    pose proof (shortCodeExists_clock ctx c w2 d Hd) as H3.
    set (w3 := snd (shortCodeExists ctx c w2)) in *.
    destruct (fst (shortCodeExists ctx c w2)).
    + rewrite bind_eq. cbn [log_Println ret fst snd clock set_logs].
      unfold Second in *. lia.
    + rewrite bind_eq.
      pose proof (ExecContext_insert_clock ctx c (FormValue r "long_url") w3 d Hd) as H4.
      destruct (fst (ExecContext_insert ctx c (FormValue r "long_url") w3)).
      * cbn [ret snd]. unfold Second in *. lia.
      * rewrite bind_eq. cbn [log_Println ret fst snd clock set_logs].
        unfold Second in *. lia.
  - unfold shortenHandler. rewrite Hm. cbn [negb ret snd]. unfold Second. lia.
Qed.

Lemma loop_checks_length (s : Source) (rs : list (Result bool)) :
  forall k, List.length (loop_checks s k rs) = List.length rs.
Proof. induction rs as [|r rs IH]; intros k; cbn; auto. Qed.

(** X5: what one call of the shorten handler can cost, whatever the request
    and the state of the database: at most eleven existence checks and one
    INSERT (twelve statements), at most ten generated codes (sixty draws),
    and at most five seconds on the clock. *)
Theorem request_cost_bounded :
  forall (r : Request) (config : Config) (w : World)
         (rw' : ResponseWriter) (w' : World),
    shortenHandler fresh_writer r config w = (rw', w') ->
    (List.length (checks (since w w')) <= 11)%nat
    /\ (List.length (insert_attempts (since w w')) <= 1)%nat
    /\ (List.length (since w w') <= 12)%nat
    /\ (exists k, (k <= 10)%nat
                  /\ global_rand w' = advance (6 * k) (global_rand w))
    /\ clock w <= clock w' <= clock w + 5 * Second.
Proof.
  intros r config w rw' w' Hrun.
  pose proof (shortenHandler_clock r config w) as Hup.
  rewrite Hrun in Hup. cbn [snd] in Hup.
  destruct (String.eqb (Method r) MethodPost) eqn:Hm.
  - apply String.eqb_eq in Hm.
    destruct (shortenHandler_post r config fresh_writer w Hm)
      as [rs [lastr [recheck H]]].
    rewrite Hrun in H. cbn [fst snd] in H.
    destruct H as [He Hc _ Hrand _ Hclk _ Htaken Hfree].
    assert (Hk : exists k, (k <= 10)%nat
                           /\ global_rand w' = advance (6 * k) (global_rand w)).
    { exists (S (List.length rs)). split; [lia | exact Hrand]. }
    destruct (collision recheck) eqn:Hr.
    + destruct (Htaken eq_refl) as [Ht _].
      rewrite (since_app _ _ _ Ht), (checks_of_run _ _ _ _ [] He),
        insert_attempts_app, insert_attempts_loop, !length_app,
        loop_checks_length, length_map, length_seq, !length_app.
      cbn [List.length checks insert_attempts app]. splits; auto; lia.
    + destruct (Hfree eq_refl) as [res [Ht _]].
      rewrite (since_app _ _ _ Ht), (checks_of_run _ _ _ _ _ He),
        insert_attempts_app, insert_attempts_loop, !length_app,
        loop_checks_length, length_map, length_seq, !length_app.
      cbn [List.length checks insert_attempts app]. splits; auto; lia.
  - unfold shortenHandler in Hrun. rewrite Hm in Hrun. cbn [negb ret] in Hrun.
    inversion Hrun; subst. rewrite since_same by reflexivity.
    cbn [checks insert_attempts List.length]. unfold Second. splits; try lia.
    exists 0%nat. split; [lia|]. cbn [Nat.mul]. rewrite advance_0. reflexivity.
Qed.

Lemma request_cost_bounded_witness :
  (List.length (since slow_world
                  (snd (shortenHandler fresh_writer post_example loadConfig
                          slow_world))) <= 12)%nat
  /\ clock (snd (shortenHandler fresh_writer post_example loadConfig slow_world))
     <= clock slow_world + 5 * Second
  /\ clock (snd (shortenHandler fresh_writer post_example loadConfig slow_world))
     = 5000000000.
Proof.
  destruct (request_cost_bounded post_example loadConfig slow_world _ _
              (surjective_pairing _)) as [_ [_ [H3 [_ [_ H5]]]]].
  split; [exact H3|]. split; [exact H5 | vm_compute; reflexivity].
Defined.

(* ================================================================= *)
(** ** Routing and start-up *)

Lemma mux_match_shorten_only (path : string) :
  mux_match routes path = Some ShortenRoute <-> path = "/shorten".
Proof.
  unfold mux_match, routes, HandleFunc. cbn [app exact_match].
  destruct (String.eqb "/" path) eqn:E1.
  - apply String.eqb_eq in E1. subst. split; discriminate.
  - destruct (String.eqb "/shorten" path) eqn:E2.
    + apply String.eqb_eq in E2. subst. split; reflexivity.
    + apply String.eqb_neq in E2. cbn [subtree_match].
      destruct (ends_in_slash "/" && String.prefix "/" path && true);
        cbn; split; try discriminate; intros H; congruence.
Qed.

(** [indexHandler] reads the template and writes the response: it leaves
    the database, the source, the clock and the statement record alone. *)
Lemma indexHandler_frame (rw : ResponseWriter) (r : Request) (config : Config)
    (w : World) :
  db (snd (indexHandler rw r config w)) = db w
  /\ global_rand (snd (indexHandler rw r config w)) = global_rand w
  /\ clock (snd (indexHandler rw r config w)) = clock w
  /\ trace (snd (indexHandler rw r config w)) = trace w
  /\ script (snd (indexHandler rw r config w)) = script w.
Proof.
  unfold indexHandler. rewrite bind_eq. cbn [ParseFiles_index fst snd].
  destruct (index_html w) as [err|tmpl]; [cbn; auto 6|].
  unfold Execute. destruct (exec_error tmpl); rewrite ?bind_eq; cbn; auto 6.
Qed.

(** Where the mux sends a request under the routes of [main]: a request
    whose path is "/shorten" to [shortenHandler], and no other. *)
Lemma mux_Handler_shorten (r : Request) :
  Path r = "/shorten" ->
  String.eqb (RequestURI r) "*" = false
  /\ mux_Handler routes r = Call ShortenRoute.
Proof.
  intros Hp. split.
  - unfold Path in Hp. destruct (String.eqb (RequestURI r) "*"); [|reflexivity].
    destruct (String.eqb (Method r) MethodConnect); discriminate Hp.
  - unfold mux_Handler. rewrite Hp.
    replace (cleanPath "/shorten") with "/shorten" by (vm_compute; reflexivity).
    rewrite shouldRedirect_routes, String.eqb_refl. cbn [negb]. unfold handler.
    rewrite (proj2 (mux_match_shorten_only "/shorten") eq_refl).
    destruct (String.eqb (Method r) MethodConnect); reflexivity.
Qed.

Lemma mux_Handler_elsewhere (r : Request) :
  Path r <> "/shorten" -> mux_Handler routes r <> Call ShortenRoute.
Proof.
  intros Hne. unfold mux_Handler. rewrite !shouldRedirect_routes.
  assert (Hh : handler routes (Path r) <> Call ShortenRoute).
  { unfold handler.
    destruct (mux_match routes (Path r)) as [[|]|] eqn:Hm; try discriminate.
    apply mux_match_shorten_only in Hm. contradiction. }
  destruct (String.eqb (Method r) MethodConnect); [exact Hh|].
  destruct (negb (String.eqb (cleanPath (Path r)) (Path r)));
    [discriminate | exact Hh].
Qed.

Lemma ServeHTTP_elsewhere (r : Request) (config : Config) (w : World) :
  Path r <> "/shorten" ->
  db (snd (ServeHTTP routes r config w)) = db w
  /\ global_rand (snd (ServeHTTP routes r config w)) = global_rand w
  /\ clock (snd (ServeHTTP routes r config w)) = clock w
  /\ trace (snd (ServeHTTP routes r config w)) = trace w
  /\ script (snd (ServeHTTP routes r config w)) = script w.
Proof.
  intros Hne. unfold ServeHTTP.
  destruct (String.eqb (RequestURI r) "*"); [cbn; auto 6|].
  pose proof (mux_Handler_elsewhere r Hne) as Hh.
  destruct (mux_Handler routes r) as [[|]|location|].
  - apply indexHandler_frame.
  - contradiction.
  - cbn. auto 6.
  - cbn. auto 6.
Qed.

(** Where a request goes under the routes of [main]. *)
Lemma ServeHTTP_routes (r : Request) (config : Config) (w : World) :
  (Path r = "/shorten"
   /\ ServeHTTP routes r config w
      = (Returned (fst (shortenHandler fresh_writer r config w)),
         snd (shortenHandler fresh_writer r config w)))
  \/ (Path r <> "/shorten"
      /\ db (snd (ServeHTTP routes r config w)) = db w
      /\ global_rand (snd (ServeHTTP routes r config w)) = global_rand w
      /\ clock (snd (ServeHTTP routes r config w)) = clock w
      /\ trace (snd (ServeHTTP routes r config w)) = trace w).
Proof.
  destruct (String.eqb (Path r) "/shorten") eqn:Hp.
  - left. apply String.eqb_eq in Hp. split; [exact Hp|].
    destruct (mux_Handler_shorten r Hp) as [Hs Hh].
    unfold ServeHTTP. rewrite Hs, Hh, bind_eq. reflexivity.
  - right. apply String.eqb_neq in Hp. split; [exact Hp|].
    destruct (ServeHTTP_elsewhere r config w Hp) as [H1 [H2 [H3 [H4 _]]]].
    auto.
Qed.

(** X6: a request to "/shorten" with any method other than POST is
    answered "405 Method not allowed" and touches nothing: no code is
    generated, no statement is sent, nothing is logged. *)
Theorem wrong_method_refused :
  forall (r : Request) (config : Config) (w : World),
    Path r = "/shorten" ->
    Method r <> MethodPost ->
    ServeHTTP routes r config w
    = (Returned {| status := Some StatusMethodNotAllowed;
                   body := "Method not allowed" ++ newline |}, w).
Proof.
  intros r config w Hp Hm. destruct (mux_Handler_shorten r Hp) as [Hs Hh].
  unfold ServeHTTP. rewrite Hs, Hh, bind_eq.
  unfold shortenHandler. apply String.eqb_neq in Hm. rewrite Hm. reflexivity.
Qed.

Lemma wrong_method_refused_witness :
  Path (get_example "/shorten") = "/shorten"
  /\ Method (get_example "/shorten") <> MethodPost
  /\ ServeHTTP routes (get_example "/shorten") loadConfig crowded_world
     = (Returned {| status := Some StatusMethodNotAllowed;
                    body := "Method not allowed" ++ newline |}, crowded_world).
Proof.
  assert (Hm : Method (get_example "/shorten") <> MethodPost)
    by (cbn; discriminate).
  split; [reflexivity|]. split; [exact Hm|].
  exact (wrong_method_refused (get_example "/shorten") loadConfig crowded_world
           eq_refl Hm).
Defined.

(** The two ways [main] can go, and what each leaves in the database and
    the log. *)
Lemma main_outcome (NewSource : Z -> Source) (w : World) :
  let run := main NewSource w in
  match fst run with
  | Some (config, mux) =>
      config = loadConfig /\ mux = routes
      /\ urls (db (snd run)) = Some (match urls (db w) with
                                     | Some rows => rows
                                     | None => []
                                     end)
      /\ sqlite_sequence (db (snd run)) = sqlite_sequence (db w)
      /\ logs (snd run) = logs w
  | None =>
      db (snd run) = db w
      /\ exists e, logs (snd run)
                   = logs w ++ ["Error creating table:" ++ Error_string e]%string
  end.
Proof.
  intros run. subst run.
  destruct (main NewSource w) as [started w'] eqn:Hrun. cbn [fst snd].
  unfold main, createTable, Exec_create_table in Hrun.
  rewrite !bind_eq in Hrun. cbn [time_Now fst snd] in Hrun.
  revert Hrun.
  round_trip_cases Background w; try discriminate;
    cbn [fst snd get_db db set_clock set_script]; rewrite ?bind_eq;
    cbn [put_db record log_Println ret fst snd];
    intros Hrun; inversion Hrun; subst; cbn.
  - split; [reflexivity|]. exists DriverFault. reflexivity.
  - unfold create_table. destruct (urls (db w)) eqn:Hu; cbn; rewrite ?Hu; auto.
Qed.

(** X7: [main] either gets the table and serves the fixed configuration
    and the two routes, or logs the error of the CREATE statement and ends
    the process.  In the first case the table exists afterwards with the
    rows and the AUTOINCREMENT counter it had (none when it is new): a
    restart keeps what is stored.  In the second the database is as it
    was. *)
Theorem startup_keeps_rows :
  forall (NewSource : Z -> Source) (w : World)
         (started : option (Config * ServeMux)) (w' : World),
    main NewSource w = (started, w') ->
    match started with
    | Some (config, mux) =>
        config = loadConfig /\ mux = routes
        /\ urls (db w') = Some (match urls (db w) with
                                | Some rows => rows
                                | None => []
                                end)
        /\ sqlite_sequence (db w') = sqlite_sequence (db w)
        /\ logs w' = logs w
    | None =>
        db w' = db w
        /\ exists e, logs w' = logs w ++ ["Error creating table:" ++ Error_string e]%string
    end.
Proof.
  intros NewSource w started w' Hrun.
  pose proof (main_outcome NewSource w) as H. cbv zeta in H.
  rewrite Hrun in H. exact H.
Qed.

Lemma startup_keeps_rows_witness :
  fst (main seeded crowded_world) = Some (loadConfig, routes)
  /\ urls (db (snd (main seeded crowded_world))) = Some (rows_of 9)
  /\ fst (main seeded (world_with fresh_db [busy])) = None
  /\ db (snd (main seeded (world_with fresh_db [busy]))) = fresh_db.
Proof.
  pose proof (startup_keeps_rows seeded crowded_world _ _ (surjective_pairing _))
    as H1.
  pose proof (startup_keeps_rows seeded (world_with fresh_db [busy]) _ _
                (surjective_pairing _)) as H2.
  assert (E1 : fst (main seeded crowded_world) = Some (loadConfig, routes))
    by (vm_compute; reflexivity).
  assert (E2 : fst (main seeded (world_with fresh_db [busy])) = None)
    by (vm_compute; reflexivity).
  rewrite E1 in H1. rewrite E2 in H2.
  destruct H1 as [_ [_ [H1 _]]]. destruct H2 as [H2 _].
  split; [reflexivity|]. split; [exact H1|]. split; [exact E2 | exact H2].
Defined.

(** [main] on a database that answers at once. *)
Lemma main_responsive (NewSource : Z -> Source) (w : World) :
  script w = [] ->
  fst (main NewSource w) = Some (loadConfig, routes)
  /\ script (snd (main NewSource w)) = []
  /\ clock (snd (main NewSource w)) = clock w
  /\ global_rand (snd (main NewSource w)) = global_rand w
  /\ db (snd (main NewSource w)) = create_table (db w)
  /\ logs (snd (main NewSource w)) = logs w.
Proof.
  intros Hs. unfold main, createTable, Exec_create_table, round_trip.
  rewrite !bind_eq. cbn [time_Now fst snd]. rewrite Hs.
  cbn [Background deadline hd tl calm fault latency Z.of_N fst snd get_db db
       set_clock set_script].
  rewrite ?bind_eq. cbn. splits; auto. lia.
Qed.

(** X8: started on a database file that answers at once, with or without
    the table, the service answers a first POST to "/shorten" with the
    first generated code unless that code is already stored: the row is
    appended to the rows the file had, with the next id. *)
Theorem first_request_after_startup :
  forall (NewSource : Z -> Source) (r : Request) (w : World)
         (outs : option (list Outcome)) (w' : World),
    script w = [] ->
    Path r = "/shorten" ->
    Method r = MethodPost ->
    (forall p, deadline (req_ctx r) = Some p -> clock w < p) ->
    ~ In (candidate (global_rand w) 0) (codes (db w)) ->
    run_server NewSource [r] w = (outs, w') ->
    outs = Some [Returned {| status := Some StatusOK;
                             body := "Short URL: http://short.url/"
                                     ++ candidate (global_rand w) 0 |}]
    /\ db w' = {| urls := Some (match urls (db w) with
                                | Some rows => rows
                                | None => []
                                end
                                ++ [new_row (sqlite_sequence (db w) + 1)
                                      (candidate (global_rand w) 0)
                                      (FormValue r "long_url")]);
                  sqlite_sequence := sqlite_sequence (db w) + 1 |}.
Proof.
  intros NewSource r w outs w' Hs Hp Hm Hdl Hfree Hrun.
  unfold run_server in Hrun. rewrite bind_eq in Hrun.
  destruct (main_responsive NewSource w Hs) as [M1 [M2 [M3 [M4 [M5 M6]]]]].
  rewrite M1 in Hrun. set (w1 := snd (main NewSource w)) in *.
  rewrite bind_eq in Hrun. cbn [serve_all] in Hrun. rewrite !bind_eq in Hrun.
  cbn [ret fst snd] in Hrun.
  destruct (ServeHTTP_routes r loadConfig w1) as [[_ Hserve] | [Hne _]];
    [|contradiction].
  rewrite Hserve in Hrun. cbn [fst snd] in Hrun.
  set (rows := match urls (db w) with Some rows => rows | None => [] end).
  assert (Hu1 : urls (db w1) = Some rows).
  { rewrite M5. unfold create_table, rows. destruct (urls (db w)) eqn:E; cbn;
      rewrite ?E; reflexivity. }
  assert (Hseq : sqlite_sequence (db w1) = sqlite_sequence (db w)).
  { rewrite M5. unfold create_table. destruct (urls (db w)); reflexivity. }
  assert (Hst : stored (candidate (global_rand w1) 0) rows = false).
  { rewrite M4. destruct (stored (candidate (global_rand w) 0) rows) eqn:E;
      [|reflexivity].
    exfalso. apply Hfree. apply stored_In in E. unfold codes, rows in *.
    destruct (urls (db w)); [exact E | destruct E]. }
  destruct (shortenHandler_first_free r loadConfig w1 rows 0
              Hm M2 ltac:(intros p Hq; rewrite M3; auto) Hu1 ltac:(lia)
              ltac:(intros i Hi; lia) Hst)
    as [F1 [F2 _]].
  inversion Hrun; subst outs w'. rewrite F1, F2, Hseq, M4. split; reflexivity.
Qed.

Lemma first_request_after_startup_witness :
  script blank_world = []
  /\ ~ In (candidate (global_rand blank_world) 0) (codes (db blank_world))
  /\ fst (run_server seeded [post_example] blank_world)
     = Some [Returned {| status := Some StatusOK;
                         body := "Short URL: http://short.url/abcdef" |}]
  /\ codes (db (snd (run_server seeded [post_example] blank_world))) = ["abcdef"].
Proof.
  assert (Hf : ~ In (candidate (global_rand blank_world) 0)
                    (codes (db blank_world))) by (intros []).
  split; [reflexivity|]. split; [exact Hf|].
  destruct (first_request_after_startup seeded post_example blank_world _ _
              eq_refl eq_refl eq_refl ltac:(intros p H; discriminate H) Hf
              (surjective_pairing _)) as [H1 H2].
  split; [exact H1|]. rewrite H2. reflexivity.
Defined.

Lemma FormValue_in_missing (form : list (string * string)) (key : string) :
  ~ In key (map fst form) -> FormValue_in form key = "".
Proof.
  induction form as [|[k v] form IH]; intros H; [reflexivity|].
  cbn [FormValue_in]. destruct (String.eqb k key) eqn:E.
  - apply String.eqb_eq in E. exfalso. apply H. left. exact E.
  - apply IH. intros Hin. apply H. right. exact Hin.
Qed.

Lemma FormValue_in_first (pre rest : list (string * string)) (key v : string) :
  ~ In key (map fst pre) ->
  FormValue_in (pre ++ (key, v) :: rest) key = v.
Proof.
  induction pre as [|[k x] pre IH]; intros H; cbn [app FormValue_in].
  - rewrite String.eqb_refl. reflexivity.
  - destruct (String.eqb k key) eqn:E.
    + apply String.eqb_eq in E. exfalso. apply H. left. exact E.
    + apply IH. intros Hin. apply H. right. exact Hin.
Qed.

(** X9: the long URL is stored as it was sent, without validation: the
    row a successful POST adds carries the first value of the form field
    [long_url], whatever follows it in the form, and the empty string when
    the field is absent. *)
Theorem long_url_stored_as_given :
  forall (r : Request) (config : Config) (w : World)
         (rw' : ResponseWriter) (w' : World),
    shortenHandler fresh_writer r config w = (rw', w') ->
    succeeded rw' = true ->
    exists (rows : list Row) (row : Row),
      urls (db w) = Some rows
      /\ urls (db w') = Some (rows ++ [row])
      /\ long_url row = FormValue r "long_url"
      /\ (~ In "long_url" (map fst (Form r)) -> long_url row = "")
      /\ (forall pre v rest,
            Form r = pre ++ ("long_url", v) :: rest ->
            ~ In "long_url" (map fst pre) -> long_url row = v).
Proof.
  intros r config w rw' w' Hrun Hok.
  pose proof (shortenHandler_result r config w) as H.
  rewrite Hrun in H. cbn [fst snd] in H.
  destruct H as [Hno _ | k rows _ Hu _ Hdb _ _]; [congruence|].
  eexists rows, _. split; [exact Hu|]. split; [rewrite Hdb; reflexivity|].
  cbn [long_url new_row]. split; [reflexivity|]. split.
  - intros Hmiss. apply FormValue_in_missing. exact Hmiss.
  - intros pre v rest Hform Hpre. unfold FormValue. rewrite Hform.
    apply FormValue_in_first. exact Hpre.
Qed.

Lemma long_url_stored_as_given_witness :
  succeeded (fst (shortenHandler fresh_writer bare_post loadConfig quiet_world))
  = true
  /\ ~ In "long_url" (map fst (Form bare_post))
  /\ urls (db (snd (shortenHandler fresh_writer bare_post loadConfig quiet_world)))
     = Some [new_row 1 "abcdef" ""]
  /\ exists (rows : list Row) (row : Row),
       urls (db (snd (shortenHandler fresh_writer bare_post loadConfig
                        quiet_world))) = Some (rows ++ [row])
       /\ long_url row = "".
Proof.
  assert (Hok : succeeded (fst (shortenHandler fresh_writer bare_post loadConfig
                                  quiet_world)) = true) by (vm_compute; reflexivity).
  assert (Hmiss : ~ In "long_url" (map fst (Form bare_post))).
  { cbn. intros [H|[]]. discriminate H. }
  split; [exact Hok|]. split; [exact Hmiss|]. split; [vm_compute; reflexivity|].
  destruct (long_url_stored_as_given bare_post loadConfig quiet_world _ _
              (surjective_pairing _) Hok)
    as [rows [row [_ [H2 [_ [H4 _]]]]]].
  exists rows, row. split; [exact H2 | exact (H4 Hmiss)].
Defined.

(* ================================================================= *)
(** ** The table over the life of the process *)

(** What one request does to the table under the routes of [main]:
    nothing, or (a POST to "/shorten") one row appended with the next id. *)
Lemma ServeHTTP_table (r : Request) (config : Config) (w : World) :
  db (snd (ServeHTTP routes r config w)) = db w
  \/ (shorten_post_request r = true
      /\ exists rows c,
           urls (db w) = Some rows
           /\ stored c rows = false
           /\ db (snd (ServeHTTP routes r config w))
              = {| urls := Some (rows ++ [new_row (sqlite_sequence (db w) + 1) c
                                            (FormValue r "long_url")]);
                   sqlite_sequence := sqlite_sequence (db w) + 1 |}).
Proof.
  destruct (ServeHTTP_routes r config w) as [[Hp Hs] | [_ [Hdb _]]];
    [|left; exact Hdb].
  rewrite Hs. cbn [snd].
  destruct (shortenHandler_result r config w) as [_ Hdb | k rows _ Hu Hst Hdb Hrw _].
  - left. exact Hdb.
  - right. split.
    + unfold shorten_post_request. rewrite Hp. cbn [String.eqb andb].
      destruct (String.eqb (Method r) MethodPost) eqn:Hm; [reflexivity|].
      exfalso. unfold shortenHandler in Hrw. rewrite Hm in Hrw.
      cbn [negb ret fst] in Hrw. discriminate Hrw.
    + exists rows, (candidate (global_rand w) k). auto.
Qed.

(** X10: the handlers only ever append to the table.  After any requests
    served one after the other, the rows that were stored are still
    there, unchanged and in place; each new row carries the long URL of a
    POST to "/shorten" among the requests, and there are at most as many
    new rows as such requests.  No request creates the table. *)
Theorem table_only_grows :
  forall (config : Config) (rs : list Request) (w : World)
         (outs : list Outcome) (w' : World),
    serve_all routes config rs w = (outs, w') ->
    match urls (db w) with
    | None => urls (db w') = None
    | Some rows =>
        exists more,
          urls (db w') = Some (rows ++ more)
          /\ (List.length more <= List.length (filter shorten_post_request rs))%nat
          /\ Forall (fun row =>
                       exists r, In r rs /\ shorten_post_request r = true
                                 /\ long_url row = FormValue r "long_url") more
    end.
Proof.
  intros config rs. induction rs as [|r rs IH]; intros w outs w' Hrun.
  - cbn in Hrun. inversion Hrun; subst. destruct (urls (db w')); [|reflexivity].
    exists []. rewrite app_nil_r. cbn. auto.
  - cbn [serve_all] in Hrun. rewrite !bind_eq in Hrun. cbn [ret] in Hrun.
    inversion Hrun as [[Ho Hw]]. clear Hrun.
    set (w1 := snd (ServeHTTP routes r config w)) in *.
    specialize (IH w1 _ _ (surjective_pairing _)). clear Hw Ho.
    destruct (ServeHTTP_table r config w) as [Hdb | [Hsp [rows [c [Hu [_ Hdb]]]]]];
      fold w1 in Hdb.
    + rewrite Hdb in IH. destruct (urls (db w)) as [rows|]; [|exact IH].
      destruct IH as [more [H1 [H2 H3]]]. exists more. split; [exact H1|].
      split.
      * cbn [filter]. destruct (shorten_post_request r); cbn [List.length]; lia.
      * eapply Forall_impl; [|exact H3]. intros row [r0 [Hin H]].
        exists r0. split; [right; exact Hin | exact H].
    + rewrite Hdb in IH. cbn [urls] in IH. rewrite Hu.
      destruct IH as [more [H1 [H2 H3]]].
      exists (new_row (sqlite_sequence (db w) + 1) c (FormValue r "long_url") :: more).
      split; [rewrite H1, <- app_assoc; reflexivity|]. split.
      * cbn [filter]. rewrite Hsp. cbn [List.length]. lia.
      * constructor.
        { exists r. split; [left; reflexivity|]. split; [exact Hsp | reflexivity]. }
        { eapply Forall_impl; [|exact H3]. intros row [r0 [Hin H]].
          exists r0. split; [right; exact Hin | exact H]. }
Qed.

Lemma table_only_grows_witness :
  urls (db crowded_world) = Some (rows_of 9)
  /\ exists more,
       urls (db (snd (serve_all routes loadConfig
                        [get_example "/"; post_example; get_example "/shorten"]
                        crowded_world)))
       = Some (rows_of 9 ++ more)
       /\ (List.length more <= 1)%nat.
Proof.
  split; [reflexivity|].
  pose proof (table_only_grows loadConfig
                [get_example "/"; post_example; get_example "/shorten"]
                crowded_world _ _ (surjective_pairing _)) as H.
  change (urls (db crowded_world)) with (Some (rows_of 9)) in H.
  destruct H as [more [H1 [H2 _]]]. exists more. split; [exact H1 | exact H2].
Defined.

Lemma StronglySorted_snoc (l : list Z) (x : Z) :
  StronglySorted Z.lt l -> Forall (fun i => i < x) l ->
  StronglySorted Z.lt (l ++ [x]).
Proof.
  induction l as [|a l IH]; intros Hs Hf; cbn.
  - constructor; constructor.
  - inversion Hs; subst. inversion Hf; subst. constructor.
    + apply IH; assumption.
    + apply Forall_app. split; [assumption | constructor; [assumption | constructor]].
Qed.

Lemma well_numbered_ServeHTTP (r : Request) (config : Config) (w : World) :
  well_numbered (db w) ->
  well_numbered (db (snd (ServeHTTP routes r config w))).
Proof.
  intros H.
  destruct (ServeHTTP_table r config w) as [Hdb | [_ [rows [c [Hu [_ Hdb]]]]]];
    rewrite Hdb; [exact H|].
  unfold well_numbered in *. rewrite Hu in H. destruct H as [Hs Hf].
  cbn [urls sqlite_sequence]. rewrite map_app. cbn [map id new_row]. split.
  - apply StronglySorted_snoc; [exact Hs|].
    eapply Forall_impl; [|exact Hf]. cbn. intros; lia.
  - apply Forall_app. split.
    + eapply Forall_impl; [|exact Hf]. cbn. intros; lia.
    + constructor; [lia | constructor].
Qed.

(** X11: ids are handed out in increasing order and never reused.  When
    the ids of the table are strictly increasing in row order and not
    above the AUTOINCREMENT counter (as in an empty table), they still are
    after a start of the process and any requests; in particular no two
    rows share an id. *)
Theorem ids_stay_increasing :
  forall (NewSource : Z -> Source) (rs : list Request) (w : World)
         (outs : option (list Outcome)) (w' : World),
    well_numbered (db w) ->
    run_server NewSource rs w = (outs, w') ->
    well_numbered (db w')
    /\ forall rows, urls (db w') = Some rows -> NoDup (map id rows).
Proof.
  intros NewSource rs w outs w' Hw Hrun.
  assert (Hserve : forall l w0, well_numbered (db w0) ->
            well_numbered (db (snd (serve_all routes loadConfig l w0)))).
  { induction l as [|r l IH]; intros w0 H0; [exact H0|].
    cbn [serve_all]. rewrite !bind_eq. cbn [ret snd].
    apply IH. apply well_numbered_ServeHTTP. exact H0. }
  assert (Hmain : well_numbered (db (snd (main NewSource w)))).
  { pose proof (main_outcome NewSource w) as H. cbv zeta in H.
    destruct (fst (main NewSource w)) as [[config mux]|].
    - destruct H as [_ [_ [Hu [Hseq _]]]]. unfold well_numbered in *.
      rewrite Hu, Hseq. destruct (urls (db w)); [exact Hw|].
      cbn. split; constructor.
    - destruct H as [Hdb _]. rewrite Hdb. exact Hw. }
  assert (Hfinal : well_numbered (db w')).
  { unfold run_server in Hrun. rewrite bind_eq in Hrun.
    pose proof (main_outcome NewSource w) as H. cbv zeta in H.
    destruct (fst (main NewSource w)) as [[config mux]|].
    - destruct H as [-> [-> _]]. rewrite bind_eq in Hrun. cbn [ret] in Hrun.
      inversion Hrun; subst. apply Hserve. exact Hmain.
    - cbn [ret] in Hrun. inversion Hrun; subst. exact Hmain. }
  split; [exact Hfinal|].
  intros rows Hu. unfold well_numbered in Hfinal. rewrite Hu in Hfinal.
  destruct Hfinal as [Hs _]. clear - Hs.
  induction Hs as [|a l Hs IH Hf]; constructor; [|exact IH].
  intros Hin. rewrite Forall_forall in Hf. specialize (Hf a Hin). lia.
Qed.

Lemma ids_stay_increasing_witness :
  well_numbered (db blank_world)
  /\ well_numbered
       (db (snd (run_server seeded [post_example; post_example] blank_world)))
  /\ map id (match urls (db (snd (run_server seeded [post_example; post_example]
                                    blank_world)))
             with Some rows => rows | None => [] end) = [1; 2].
Proof.
  assert (H0 : well_numbered (db blank_world)) by exact I.
  split; [exact H0|].
  split; [|vm_compute; reflexivity].
  exact (proj1 (ids_stay_increasing seeded [post_example; post_example]
                  blank_world _ _ H0 (surjective_pairing _))).
Defined.

(** X12: only a POST to "/shorten" reaches the database.  Any other
    request, whatever its path, method and form, and whether it is
    answered, refused, redirected, not routed or ends in a panic, leaves
    the table, the random source and the clock as they were and sends no
    statement. *)
Theorem only_shorten_posts_write :
  forall (r : Request) (config : Config) (w : World) (out : Outcome) (w' : World),
    shorten_post_request r = false ->
    ServeHTTP routes r config w = (out, w') ->
    db w' = db w /\ global_rand w' = global_rand w /\ clock w' = clock w
    /\ script w' = script w /\ since w w' = [].
Proof.
  intros r config w out w' Hr Hrun.
  unfold shorten_post_request in Hr.
  destruct (String.eqb (Path r) "/shorten") eqn:Hp.
  - apply String.eqb_eq in Hp. cbn [andb] in Hr.
    destruct (mux_Handler_shorten r Hp) as [Hs Hh].
    unfold ServeHTTP in Hrun. rewrite Hs, Hh, bind_eq in Hrun.
    unfold shortenHandler in Hrun. rewrite Hr in Hrun.
    cbn [negb ret fst snd] in Hrun. inversion Hrun; subst.
    splits; try reflexivity. apply since_same. reflexivity.
  - apply String.eqb_neq in Hp.
    destruct (ServeHTTP_elsewhere r config w Hp) as [H1 [H2 [H3 [H4 H5]]]].
    rewrite Hrun in H1, H2, H3, H4, H5. cbn [snd] in H1, H2, H3, H4, H5.
    splits; try assumption. apply since_same. exact H4.
Qed.

Lemma only_shorten_posts_write_witness :
  shorten_post_request (get_example "/shorten") = false
  /\ shorten_post_request {| Method := "POST"; RequestURI := "/"; parsed_path := "/";
                             Form := [("long_url", "http://example.com")];
                             req_ctx := Background |} = false
  /\ db (snd (ServeHTTP routes (get_example "/shorten") loadConfig slow_world))
     = db slow_world
  /\ since slow_world
       (snd (ServeHTTP routes {| Method := "POST"; RequestURI := "/"; parsed_path := "/";
                                 Form := [("long_url", "http://example.com")];
                                 req_ctx := Background |} loadConfig slow_world))
     = [].
Proof.
  split; [reflexivity|]. split; [reflexivity|]. split.
  - exact (proj1 (only_shorten_posts_write (get_example "/shorten") loadConfig
                    slow_world _ _ eq_refl (surjective_pairing _))).
  - exact (proj2 (proj2 (proj2 (proj2
             (only_shorten_posts_write
                {| Method := "POST"; RequestURI := "/"; parsed_path := "/";
                   Form := [("long_url", "http://example.com")];
                   req_ctx := Background |} loadConfig
                slow_world _ _ eq_refl (surjective_pairing _)))))).
Defined.

(** A stored code stays stored whatever requests follow. *)
Lemma serve_all_keeps_codes (config : Config) (c : string) (rs : list Request) :
  forall w : World,
    In c (codes (db w)) ->
    In c (codes (db (snd (serve_all routes config rs w)))).
Proof.
  induction rs as [|r rs IH]; intros w Hin; [exact Hin|].
  cbn [serve_all]. rewrite !bind_eq. cbn [ret snd]. apply IH.
  destruct (ServeHTTP_table r config w) as [Hdb | [_ [rows [c' [Hu [_ Hdb]]]]]];
    rewrite Hdb; [exact Hin|].
  unfold codes in *. rewrite Hu in Hin. cbn [urls]. rewrite map_app.
  apply in_or_app. left. exact Hin.
Qed.

(** The existence check never reports a stored code as free: it answers
    [true] when the query finds the code, and also when the query
    fails. *)
Lemma shortCodeExists_of_stored (ctx : Ctx) (c : string) (w : World) :
  In c (codes (db w)) -> fst (shortCodeExists ctx c w) = true.
Proof.
  intros Hin. destruct (shortCodeExists_post ctx c w) as [res Hp].
  rewrite (cp_answer _ _ _ _ _ _ Hp). destruct res as [x|e]; [|reflexivity].
  pose proof (cp_read _ _ _ _ _ _ Hp x eq_refl) as Hsel.
  unfold select_exists, codes in *. destruct (urls (db w)) as [rows|]; [|destruct Hin].
  apply stored_In in Hin. rewrite Hin in Hsel. inversion Hsel. reflexivity.
Qed.

(** X13: a code that was handed out is never handed out again.  Once a
    POST was answered with a code, the code is in the table after any
    further requests, and every later existence check of it answers
    "exists", whatever the condition of the database and whatever the
    deadline; so no later request can be answered with it. *)
Theorem returned_code_stays_taken :
  forall (r : Request) (config : Config) (w : World) (rw' : ResponseWriter)
         (w1 : World) (rs : list Request) (outs : list Outcome) (w2 : World),
    shortenHandler fresh_writer r config w = (rw', w1) ->
    succeeded rw' = true ->
    serve_all routes config rs w1 = (outs, w2) ->
    In (returned_code config rw') (codes (db w2))
    /\ (forall ctx, fst (shortCodeExists ctx (returned_code config rw') w2) = true)
    /\ (forall r2 rw2 w3,
          shortenHandler fresh_writer r2 config w2 = (rw2, w3) ->
          succeeded rw2 = true ->
          returned_code config rw2 <> returned_code config rw').
Proof.
  intros r config w rw' w1 rs outs w2 Hrun Hok Hserve.
  assert (Hin : In (returned_code config rw') (codes (db w2))).
  { replace w2 with (snd (serve_all routes config rs w1)) by (rewrite Hserve; reflexivity).
    apply serve_all_keeps_codes.
    pose proof (shortenHandler_result r config w) as H. rewrite Hrun in H.
    cbn [fst snd] in H. destruct H as [Hno _ | k rows _ Hu _ Hdb Hrw _].
    - congruence.
    - rewrite Hrw, returned_code_success. unfold codes. rewrite Hdb. cbn [urls].
      rewrite map_app. apply in_or_app. right. left. reflexivity. }
  split; [exact Hin|]. split.
  - intros ctx. apply shortCodeExists_of_stored. exact Hin.
  - intros r2 rw2 w3 Hrun2 Hok2 Heq.
    pose proof (shortenHandler_result r2 config w2) as H. rewrite Hrun2 in H.
    cbn [fst snd] in H. destruct H as [Hno _ | k rows _ Hu Hst _ Hrw _].
    + congruence.
    + rewrite Hrw, returned_code_success in Heq. rewrite <- Heq in Hin.
      unfold codes in Hin. rewrite Hu in Hin. apply not_stored in Hst.
      contradiction.
Qed.

Lemma returned_code_stays_taken_witness :
  succeeded (fst (shortenHandler fresh_writer post_example loadConfig quiet_world))
  = true
  /\ returned_code loadConfig
       (fst (shortenHandler fresh_writer post_example loadConfig quiet_world))
     = "abcdef"
  /\ In "abcdef"
        (codes (db (snd (serve_all routes loadConfig
                           [get_example "/"; post_example]
                           (snd (shortenHandler fresh_writer post_example
                                   loadConfig quiet_world)))))).
Proof.
  assert (Hc : returned_code loadConfig
                 (fst (shortenHandler fresh_writer post_example loadConfig quiet_world))
               = "abcdef") by (vm_compute; reflexivity).
  assert (Hs : succeeded (fst (shortenHandler fresh_writer post_example loadConfig
                                 quiet_world)) = true) by (vm_compute; reflexivity).
  split; [exact Hs|]. split; [exact Hc|].
  rewrite <- Hc.
  exact (proj1 (returned_code_stays_taken post_example loadConfig quiet_world _ _
                  [get_example "/"; post_example] _ _
                  (surjective_pairing _) Hs (surjective_pairing _))).
Defined.

(** X14: the UNIQUE constraint is the last word.  A request that reaches
    its INSERT with a code that is stored by then (another request stored
    it after this one's check) ends with the 500: the INSERT fails, the
    table is as it was, the error is logged, and no other code is tried. *)
Theorem stored_code_insert_rejected :
  forall (config : Config) (t : Task) (c : string) (w : World)
         (t' : Task) (w' : World),
    task_stage t = Inserting c ->
    In c (codes (db w)) ->
    step config t w = (t', w') ->
    task_stage t' = Finished server_error
    /\ db w' = db w
    /\ global_rand w' = global_rand w
    /\ exists e,
         since w w' = [InsertTried c (FormValue (task_request t) "long_url") (Err e)]
         /\ logs w' = logs w ++ ["Error inserting into database: " ++ Error_string e]%string.
Proof.
  intros config t c w t' w' Hst Hin Hrun.
  unfold step in Hrun. rewrite Hst in Hrun. rewrite bind_eq in Hrun.
  pose proof (ExecContext_insert_post (task_ctx t) c
                (FormValue (task_request t) "long_url") w) as Hp.
  destruct Hp as [Htr Hok Herr Hrand _ Hlogs _ _].
  destruct (fst (ExecContext_insert (task_ctx t) c
                   (FormValue (task_request t) "long_url") w)) as [i|e].
  - specialize (Hok i eq_refl).
    rewrite (insert_url_stored c _ (db w) Hin) in Hok. discriminate Hok.
  - rewrite bind_eq in Hrun. cbn [log_Println ret fst snd] in Hrun.
    inversion Hrun; subst t' w'. cbn [at_stage task_stage db global_rand logs set_logs].
    split; [reflexivity|]. split; [exact (Herr e eq_refl)|].
    split; [exact Hrand|]. exists e. split.
    + apply since_app. cbn [trace set_logs]. exact Htr.
    + rewrite Hlogs. reflexivity.
Qed.

Lemma stored_code_insert_rejected_witness :
  In "abcdef" (codes (db (world_with (crowded_db 1) [])))
  /\ task_stage
       (fst (step loadConfig
               {| task_request := post_example; task_ctx := Background;
                  task_stage := Inserting "abcdef" |}
               (world_with (crowded_db 1) [])))
     = Finished server_error
  /\ db (snd (step loadConfig
                {| task_request := post_example; task_ctx := Background;
                   task_stage := Inserting "abcdef" |}
                (world_with (crowded_db 1) [])))
     = crowded_db 1.
Proof.
  assert (Hin : In "abcdef" (codes (db (world_with (crowded_db 1) []))))
    by (left; vm_compute; reflexivity).
  split; [exact Hin|].
  destruct (stored_code_insert_rejected loadConfig
              {| task_request := post_example; task_ctx := Background;
                 task_stage := Inserting "abcdef" |}
              "abcdef" (world_with (crowded_db 1) []) _ _ eq_refl Hin
              (surjective_pairing _)) as [H1 [H2 _]].
  split; [exact H1 | exact H2].
Defined.

Lemma interleaved_codes_unique_witness :
  NoDup (codes (db stuck_world))
  /\ NoDup (task_codes loadConfig (fst (interleave loadConfig race [] stuck_world)))
  /\ NoDup (codes (db (snd (interleave loadConfig race [] stuck_world))))
  /\ task_codes loadConfig (fst (interleave loadConfig race [] stuck_world))
     = ["aaaaaa"].
Proof.
  assert (H0 : NoDup (codes (db stuck_world))) by constructor.
  split; [exact H0|].
  destruct (interleaved_codes_unique loadConfig race stuck_world _ _
              (surjective_pairing _) H0) as [H1 [_ [_ H4]]].
  split; [exact H1|]. split; [exact H4|]. vm_compute. reflexivity.
Defined.

(* ================================================================= *)
(** ** The code space *)

Lemma generateShortCode_run (length : Z) (w : World) :
  generateShortCode length w
  = (string_of_list_ascii (code_from (global_rand w) (Z.to_nat length)),
     set_global_rand (advance (Z.to_nat length) (global_rand w)) w).
Proof.
  unfold generateShortCode. rewrite bind_eq, generate_loop_eq. reflexivity.
Qed.

Lemma code_from_app (n m : nat) : forall s : Source,
  code_from s (n + m) = code_from s n ++ code_from (advance n s) m.
Proof.
  induction n as [|n IH]; intros s.
  - rewrite advance_0. reflexivity.
  - cbn [Nat.add]. rewrite !code_from_S, IH, advance_advance.
    replace (n + 1)%nat with (S n) by lia. reflexivity.
Qed.

Lemma string_of_list_ascii_app_eq (a b : list ascii) :
  string_of_list_ascii (a ++ b)
  = (string_of_list_ascii a ++ string_of_list_ascii b)%string.
Proof. induction a as [|x a IH]; cbn; [reflexivity | rewrite IH; reflexivity]. Qed.

(** X16: [generateShortCode] builds its result one draw per character and
    keeps nothing between calls: two calls in a row, for [n] and then [m]
    characters, return the two halves of what one call for both returns
    and leave the source where that call leaves it.  A length of zero or
    less counts as zero: the empty string, and no draw. *)
Theorem generateShortCode_composes :
  forall (n m : Z) (w : World),
    generateShortCode (Z.max 0 n + Z.max 0 m) w
    = (a <- generateShortCode n ;;
       b <- generateShortCode m ;;
       ret (a ++ b)%string) w.
Proof.
  intros n m w. rewrite !bind_eq, !generateShortCode_run. cbn [ret fst snd].
  replace (Z.to_nat (Z.max 0 n + Z.max 0 m)) with (Z.to_nat n + Z.to_nat m)%nat
    by (rewrite Z2Nat.inj_add by lia; f_equal; lia).
  rewrite code_from_app, string_of_list_ascii_app_eq. unfold ret.
  destruct w; unfold set_global_rand. cbn. rewrite advance_advance.
  rewrite (Nat.add_comm (Z.to_nat m)). reflexivity.
Qed.

(** [position] undoes [index] on the alphabet, and conversely. *)
Lemma index_position (c : ascii) :
  alnum c = true -> index charset (position c mod len charset) = c.
Proof.
  destruct c as [[] [] [] [] [] [] [] []]; vm_compute; intros H;
    first [reflexivity | discriminate H].
Qed.

Lemma position_index (k : Z) :
  0 <= k < len charset -> position (index charset k) = k.
Proof.
  intros H. change (len charset) with 62 in H.
  assert (Hk : k = Z.of_nat (Z.to_nat k)) by lia.
  assert (Hn : (Z.to_nat k < 62)%nat) by lia.
  rewrite Hk. revert Hn. generalize (Z.to_nat k). intros m Hm.
  do 62 (destruct m as [|m]; [vm_compute; reflexivity|]). lia.
Qed.

Lemma map_nth_seq (f : ascii -> ascii) (l : list ascii) :
  map (fun i => f (nth i l zero)) (List.seq 0 (List.length l)) = map f l.
Proof.
  induction l as [|a l IH]; [reflexivity|].
  cbn [List.length List.seq map nth]. f_equal.
  rewrite <- seq_shift, map_map. exact IH.
Qed.

(** X17: every string of six characters of the alphabet is a possible
    short code: there is a sequence of draws on which
    [generateShortCode(6)] returns it.  The code space is all of the
    62^6 strings. *)
Theorem every_code_reachable :
  forall (code : string) (w : World),
    String.length code = 6%nat ->
    forallb alnum (list_ascii_of_string code) = true ->
    fst (generateShortCode 6 (set_global_rand (spelling code) w)) = code.
Proof.
  intros code w Hlen Hal. rewrite generateShortCode_run. cbn [fst].
  change (Z.to_nat 6) with 6%nat.
  replace (global_rand (set_global_rand (spelling code) w)) with (spelling code)
    by (destruct w; reflexivity).
  rewrite <- (string_of_list_ascii_of_string code) at 2.
  f_equal. unfold code_from, spelling. cbn [draw pos].
  assert (Hl : List.length (list_ascii_of_string code) = 6%nat).
  { rewrite <- Hlen. clear. induction code as [|a s IH]; cbn; congruence. }
  rewrite <- Hl.
  rewrite (map_ext _ (fun i => (fun c => index charset (position c mod len charset))
                                 (nth i (list_ascii_of_string code) zero))).
  2:{ intros i. rewrite Nat.add_0_r. reflexivity. }
  rewrite (map_nth_seq (fun c => index charset (position c mod len charset))).
  rewrite forallb_forall in Hal.
  rewrite <- (map_id (list_ascii_of_string code)) at 2.
  apply map_ext_in. intros c Hc. apply index_position. apply Hal. exact Hc.
Qed.

Lemma every_code_reachable_witness :
  String.length "Zz09aA" = 6%nat
  /\ forallb alnum (list_ascii_of_string "Zz09aA") = true
  /\ fst (generateShortCode 6 (set_global_rand (spelling "Zz09aA") quiet_world))
     = "Zz09aA".
Proof.
  split; [reflexivity|]. split; [reflexivity|].
  exact (every_code_reachable "Zz09aA" quiet_world eq_refl eq_refl).
Defined.

(** X18: a code determines the draws it was made from, up to the modulus:
    two generated codes are equal exactly when the six numbers
    [rand.Intn(62)] returned for them are equal, one by one.  No two
    sequences of draws share a code. *)
Theorem code_determines_draws :
  forall (s s' : Source) (k k' : nat),
    candidate s k = candidate s' k'
    <-> forall i, (i < 6)%nat ->
          draw s (i + (6 * k + pos s)) mod 62
          = draw s' (i + (6 * k' + pos s')) mod 62.
Proof.
  intros s s' k k'. unfold candidate, code_from. cbn [advance draw pos].
  change (len charset) with 62. split.
  - intros H i Hi.
    assert (Hl : map (fun j => index charset (draw s (j + (6 * k + pos s)) mod 62))
                     (List.seq 0 6)
                 = map (fun j => index charset (draw s' (j + (6 * k' + pos s')) mod 62))
                       (List.seq 0 6)).
    { rewrite <- (list_ascii_of_string_of_list_ascii (map _ _)).
      rewrite H. apply list_ascii_of_string_of_list_ascii. }
    assert (Hi' : In i (List.seq 0 6)) by (apply in_seq; lia).
    pose proof (f_equal (fun l => nth i l zero) Hl) as Hn. cbn beta in Hn.
    assert (Hidx : index charset (draw s (i + (6 * k + pos s)) mod 62)
                   = index charset (draw s' (i + (6 * k' + pos s')) mod 62)).
    { do 6 (destruct i as [|i]; [exact Hn|]). lia. }
    rewrite <- (position_index (draw s (i + (6 * k + pos s)) mod 62))
      by (apply Z.mod_pos_bound; reflexivity).
    rewrite Hidx. apply position_index. apply Z.mod_pos_bound. reflexivity.
  - intros H. f_equal. apply map_ext_in. intros i Hi. apply in_seq in Hi.
    rewrite H by lia. reflexivity.
Qed.

(* ================================================================= *)
(** ** Deadlines and the log *)

(** X19: the deadline of the request's own context binds the INSERT as
    well as the five seconds do, because the handler derives its context
    from [r.Context()]: a row is stored only by a request whose context
    had not expired when it was handled, and the INSERT is then complete
    strictly before that deadline. *)
Theorem commit_before_request_deadline :
  forall (r : Request) (config : Config) (w : World)
         (rw' : ResponseWriter) (w' : World) (p : Z),
    shortenHandler fresh_writer r config w = (rw', w') ->
    deadline (req_ctx r) = Some p ->
    db w' <> db w ->
    clock w < p /\ clock w' < p /\ succeeded rw' = true.
Proof.
  intros r config w rw' w' p Hrun Hp Hchanged.
  destruct (String.eqb (Method r) MethodPost) eqn:Hm.
  2:{ unfold shortenHandler in Hrun. rewrite Hm in Hrun. cbn [negb ret] in Hrun.
      inversion Hrun; subst. contradiction. }
  apply String.eqb_eq in Hm.
  rewrite (shortenHandler_conclude r config w Hm) in Hrun.
  rewrite bind_eq in Hrun. cbn [time_Now fst snd] in Hrun.
  set (ctx := WithTimeout (req_ctx r) (5 * Second) (clock w)) in *.
  assert (Hd : deadline ctx = Some (Z.min p (clock w + 5 * Second))).
  { unfold ctx, WithTimeout. rewrite Hp. reflexivity. }
  rewrite bind_eq in Hrun.
  destruct (allocate_post ctx 10 "" w) as [rs [lastr HL]]; [lia|].
  pose proof (lp_db _ _ _ _ _ _ _ HL) as Ldb.
  pose proof (lp_clock _ _ _ _ _ _ _ HL) as Lclk.
  set (c := fst (allocate 10 ctx "" w)) in *.
  set (w2 := snd (allocate 10 ctx "" w)) in *.
  unfold conclude in Hrun. rewrite bind_eq in Hrun.
  destruct (shortCodeExists_post ctx c w2) as [recheck HC].
  pose proof (cp_db _ _ _ _ _ _ HC) as Cdb.
  pose proof (cp_clock _ _ _ _ _ _ HC) as Cclk.
  set (w3 := snd (shortCodeExists ctx c w2)) in *.
  destruct (fst (shortCodeExists ctx c w2)).
  - rewrite bind_eq in Hrun. cbn [log_Println ret fst snd] in Hrun.
    inversion Hrun; subst. exfalso. apply Hchanged.
    cbn [db set_logs]. congruence.
  - rewrite bind_eq in Hrun.
    pose proof (ExecContext_insert_post ctx c (FormValue r "long_url") w3) as HI.
    destruct HI as [_ _ Ierr _ _ _ Iclk Itime].
    destruct (fst (ExecContext_insert ctx c (FormValue r "long_url") w3)) as [i|e].
    + cbn [ret] in Hrun. inversion Hrun; subst rw' w'.
      specialize (Itime i _ eq_refl Hd).
      split; [lia|]. split; [lia | reflexivity].
    + rewrite bind_eq in Hrun. cbn [log_Println ret fst snd] in Hrun.
      inversion Hrun; subst. exfalso. apply Hchanged.
      cbn [db set_logs]. rewrite (Ierr e eq_refl). congruence.
Qed.

Lemma commit_before_request_deadline_witness :
  deadline (req_ctx hurried_post) = Some Second
  /\ clock (snd (shortenHandler fresh_writer hurried_post loadConfig
                   (world_with fresh_db [slow])))
     < Second
  /\ row_count (db (snd (shortenHandler fresh_writer hurried_post loadConfig
                           (world_with fresh_db [slow]))))
     = 1%nat.
Proof.
  split; [reflexivity|].
  assert (Hc : db (snd (shortenHandler fresh_writer hurried_post loadConfig
                          (world_with fresh_db [slow])))
               <> db (world_with fresh_db [slow]))
    by (vm_compute; discriminate).
  split; [|vm_compute; reflexivity].
  exact (proj1 (proj2 (commit_before_request_deadline hurried_post loadConfig
                         (world_with fresh_db [slow]) _ _ Second
                         (surjective_pairing _) eq_refl Hc))).
Defined.

Lemma read_logs_lines (rs : list (Result bool)) :
  Forall (fun l => exists e,
            l = ("Error checking short code existence: " ++ Error_string e)%string)
         (read_logs rs).
Proof.
  induction rs as [|r rs IH]; [constructor|].
  unfold read_logs. cbn [flat_map]. apply Forall_app. split; [|exact IH].
  destruct r as [b|e]; cbn [read_log]; [constructor|].
  constructor; [exists e; reflexivity | constructor].
Qed.

(** X20: every 500 of [shortenHandler] is explained in the log and nowhere
    else.  The response is the same fixed text whatever went wrong; the
    table is as it was; and the last line logged says which of the two
    failures it was: no free code after the checks, or the INSERT's
    error.  The lines before it are the errors of the failed checks. *)
Theorem server_error_is_logged :
  forall (r : Request) (config : Config) (w : World)
         (rw' : ResponseWriter) (w' : World),
    shortenHandler fresh_writer r config w = (rw', w') ->
    status_code rw' = StatusInternalServerError ->
    rw' = server_error
    /\ db w' = db w
    /\ exists before line,
         logs w' = logs w ++ before ++ [line]
         /\ (line = exhausted_msg
             \/ exists e, line = ("Error inserting into database: "
                                  ++ Error_string e)%string)
         /\ Forall (fun l => exists e,
                      l = ("Error checking short code existence: "
                           ++ Error_string e)%string) before.
Proof.
  intros r config w rw' w' Hrun Hst.
  destruct (String.eqb (Method r) MethodPost) eqn:Hm.
  2:{ unfold shortenHandler in Hrun. rewrite Hm in Hrun. cbn [negb ret] in Hrun.
      inversion Hrun; subst. discriminate Hst. }
  apply String.eqb_eq in Hm.
  destruct (shortenHandler_post r config fresh_writer w Hm)
    as [rs [lastr [recheck H]]].
  rewrite Hrun in H. cbn [fst snd] in H.
  destruct H as [_ _ _ _ _ _ _ Htaken Hfree].
  destruct (collision recheck) eqn:Hr.
  - destruct (Htaken eq_refl) as [_ [Hrw [Hdb Hlogs]]].
    split; [exact Hrw|]. split; [exact Hdb|].
    exists (read_logs (rs ++ [lastr; recheck])), exhausted_msg.
    split; [exact Hlogs|]. split; [left; reflexivity | apply read_logs_lines].
  - destruct (Hfree eq_refl) as [res [_ [_ Hres]]]. destruct res as [i|e].
    + destruct Hres as [_ [Hrw _]]. rewrite Hrw in Hst. discriminate Hst.
    + destruct Hres as [Hdb [Hrw Hlogs]].
      split; [exact Hrw|]. split; [exact Hdb|].
      exists (read_logs (rs ++ [lastr])),
        ("Error inserting into database: " ++ Error_string e)%string.
      split; [exact Hlogs|]. split; [right; exists e; reflexivity|].
      apply read_logs_lines.
Qed.

Lemma server_error_is_logged_witness :
  status_code (fst (shortenHandler fresh_writer post_example loadConfig
                      rejecting_world))
  = StatusInternalServerError
  /\ fst (shortenHandler fresh_writer post_example loadConfig rejecting_world)
     = server_error
  /\ db (snd (shortenHandler fresh_writer post_example loadConfig rejecting_world))
     = db rejecting_world.
Proof.
  assert (H : status_code (fst (shortenHandler fresh_writer post_example loadConfig
                                  rejecting_world))
              = StatusInternalServerError) by (vm_compute; reflexivity).
  split; [exact H|].
  destruct (server_error_is_logged post_example loadConfig rejecting_world _ _
              (surjective_pairing _) H) as [H1 [H2 _]].
  split; [exact H1 | exact H2].
Defined.
